(** * PromptMate backend: rewrite pipeline, fallback transform and history store

    A shallow embedding of the backend's JavaScript sources:
    - [services/geminiService.js]   (module [GeminiService]),
    - [routes/promptRoutes.js]      (module [Routes]),
    - [models/Prompt.js]            (module [PromptModel]),
    - [controllers/promptControllers.js] (module [PromptController]),
    followed by the properties established about them. *)

From Stdlib Require Import ZArith NArith Strings.String Strings.Ascii Lia.
From stdpp Require Import base option list gmap.

Local Open Scope N_scope.

(** ** JavaScript strings

    A JavaScript string is a sequence of UTF-16 code units; [length] counts
    code units.  String literals of the source are written [lit "..."]. *)
Module JsString.

Abbreviation jsstring := (list N).

Definition lit (s : string) : jsstring :=
  List.map N_of_ascii (list_ascii_of_string s).

(** Code units used by the source. *)
Definition LF : N := 10.
Definition SPACE : N := 32.
Definition QUOTE : N := 34.

(** [WhiteSpace] and [LineTerminator] of ECMAScript: what [String.prototype.trim]
    strips and what [\s] matches. *)
Definition isWhiteSpace (c : N) : bool :=
  ((9 <=? c) && (c <=? 13))
  || (c =? 32) || (c =? 160) || (c =? 5760)
  || ((8192 <=? c) && (c <=? 8202))
  || (c =? 8232) || (c =? 8233) || (c =? 8239) || (c =? 8287)
  || (c =? 12288) || (c =? 65279).

(** [\w] without the unicode and ignoreCase flags: [A-Za-z0-9_]. *)
Definition isWordChar (c : N) : bool :=
  ((48 <=? c) && (c <=? 57))
  || ((65 <=? c) && (c <=? 90))
  || (c =? 95)
  || ((97 <=? c) && (c <=? 122)).

Fixpoint trimStart (s : jsstring) : jsstring :=
  match s with
  | [] => []
  | c :: rest => if isWhiteSpace c then trimStart rest else s
  end.

Definition trimEnd (s : jsstring) : jsstring :=
  reverse (trimStart (reverse s)).

(** [s.trim()] *)
Definition trim (s : jsstring) : jsstring := trimEnd (trimStart s).

(** [s.startsWith(p)] *)
Fixpoint startsWith (p s : jsstring) : bool :=
  match p, s with
  | [], _ => true
  | _ :: _, [] => false
  | a :: p', b :: s' => (a =? b) && startsWith p' s'
  end.

(** [s.includes(p)] *)
Fixpoint includes (p s : jsstring) : bool :=
  startsWith p s ||
  match s with
  | [] => false
  | _ :: s' => includes p s'
  end.

(** [s.split(sep)] for a one-code-unit separator: the pieces between
    occurrences of [sep]; the empty string splits into one empty piece. *)
Fixpoint split (sep : N) (s : jsstring) : list jsstring :=
  match s with
  | [] => [[]]
  | c :: rest =>
      if c =? sep then [] :: split sep rest
      else match split sep rest with
           | [] => [[c]]
           | piece :: pieces => (c :: piece) :: pieces
           end
  end.

(** [pieces.join(sep)] *)
Fixpoint join (sep : jsstring) (pieces : list jsstring) : jsstring :=
  match pieces with
  | [] => []
  | piece :: rest =>
      match rest with
      | [] => piece
      | _ :: _ => piece ++ sep ++ join sep rest
      end
  end.

(** A position matches [\b] when exactly one of its two neighbours is a word
    character, the outside of the string counting as a non-word character. *)
Definition isWordOpt (c : option N) : bool :=
  match c with
  | Some c => isWordChar c
  | None => false
  end.

(** [s.replace(/\bW\b/g, rep)] for a single word character [W]; [prev] is the
    code unit before the current position in the subject string. *)
Fixpoint replaceWholeWord (w : N) (rep : jsstring) (prev : option N)
    (s : jsstring) : jsstring :=
  match s with
  | [] => []
  | c :: rest =>
      if (c =? w) && negb (isWordOpt prev) && negb (isWordOpt (head rest))
      then rep ++ replaceWholeWord w rep (Some c) rest
      else c :: replaceWholeWord w rep (Some c) rest
  end.

(** [s.replace(/\s+/g, ' ')]; [inRun] says that the previous code unit was
    white space, already replaced. *)
Fixpoint collapseWhiteSpace (inRun : bool) (s : jsstring) : jsstring :=
  match s with
  | [] => []
  | c :: rest =>
      if isWhiteSpace c
      then if inRun then collapseWhiteSpace true rest
           else SPACE :: collapseWhiteSpace true rest
      else c :: collapseWhiteSpace false rest
  end.

(** The characters of the class [[.!?]]. *)
Definition isTerminal (c : N) : bool :=
  (c =? 46) || (c =? 33) || (c =? 63).

(** [/[.!?]$/.test(s)]: without the multiline flag [$] is the end of input. *)
Definition endsWithTerminal (s : jsstring) : bool :=
  match last s with
  | Some c => isTerminal c
  | None => false
  end.

End JsString.
Export JsString.


(** ** JSON values of a request body

    [JNumber] carries the integer numbers; a fractional number is truthy like
    any non-zero integer and is no string, which is all the code asks of it.
    [JObject] stands for arrays and objects. *)
Module JsVal.

Inductive JsVal :=
| JUndefined
| JNull
| JBool (b : bool)
| JNumber (z : Z)
| JString (s : jsstring)
| JObject.

#[export] Instance JsVal_eq_dec : EqDecision JsVal.
Proof. solve_decision. Defined.

(** [ToBoolean] *)
Definition truthy (v : JsVal) : bool :=
  match v with
  | JUndefined | JNull => false
  | JBool b => b
  | JNumber z => negb (z =? 0)%Z
  | JString s => negb (bool_decide (s = []))
  | JObject => true
  end.

(** [typeof v === 'string'] *)
Definition isString (v : JsVal) : bool :=
  match v with
  | JString _ => true
  | _ => false
  end.

(** [v === 'literal'] *)
Definition strictEq (v : JsVal) (s : jsstring) : bool :=
  match v with
  | JString t => bool_decide (t = s)
  | _ => false
  end.

(** [list.includes(v)] for a list of string literals *)
Definition includesVal (l : list jsstring) (v : JsVal) : bool :=
  existsb (strictEq v) l.

(** A destructuring default, [{ x = d }]: it applies to [undefined] only. *)
Definition orDefault (v : JsVal) (d : jsstring) : JsVal :=
  match v with
  | JUndefined => JString d
  | _ => v
  end.

End JsVal.
Export JsVal.

(** ** services/geminiService.js *)
Module GeminiService.

(** What awaiting a call of the provider's [generateContent] (with the
    [response.text()] that follows it) comes to: a text, an exception with its
    [message], or nothing: the promise does not settle (for the raced call: not
    before the 30 second timer). *)
Inductive Settled :=
| Fulfilled (text : jsstring)
| Rejected (message : jsstring)
| Unsettled.

(** The provider's model handle: the outcome of [generateContent] per request. *)
Definition Model := jsstring -> Settled.

(** The provider's SDK at start-up: whether [new GoogleGenerativeAI(key)]
    returns, and what [getGenerativeModel] gives ([None]: it throws). *)
Record Sdk := {
  newClient : bool;
  getGenerativeModel : option Model
}.

(** The fields [this.genAI] (non-null or null) and [this.model]. *)
Record Service := {
  genAI : bool;
  model : option Model
}.

Definition unavailable : Service := {| genAI := false; model := None |}.

(** [initializeService()], with [process.env.GEMINI_API_KEY] as [key]. *)
Definition initializeService (key : option jsstring) (sdk : Sdk) : Service :=
  match key with
  | None => unavailable
  | Some k =>
      if bool_decide (k = []) then unavailable
      else if negb (startsWith (lit "AIza") k) then unavailable
      else if negb (newClient sdk) then unavailable
      else match getGenerativeModel sdk with
           | Some m => {| genAI := true; model := Some m |}
           | None => unavailable
           end
  end.

Definition toneInstructions : list (jsstring * jsstring) :=
  [ (lit "formal", lit "Use formal, professional language with proper structure and respectful tone. Avoid contractions and casual expressions.");
    (lit "casual", lit "Use relaxed, conversational language that feels natural and approachable. Contractions are fine.");
    (lit "friendly", lit "Use warm, welcoming language that creates connection. Be personable and engaging.");
    (lit "professional", lit "Use clear, business-appropriate language that is polished but not overly formal.");
    (lit "creative", lit "Use imaginative, engaging language with vivid descriptions and creative expressions.");
    (lit "concise", lit "Use brief, direct language that gets to the point quickly while maintaining clarity.") ].

Definition typeInstructions : list (jsstring * jsstring) :=
  [ (lit "email", lit "Structure as a proper email with clear subject line suggestions and appropriate formatting.");
    (lit "message", lit "Format as a clear, direct message suitable for instant messaging or brief communication.");
    (lit "explanation", lit "Provide clear, logical explanation with good flow and easy-to-understand language.");
    (lit "summary", lit "Create a concise summary that captures the key points effectively.");
    (lit "proposal", lit "Structure as a professional proposal with clear objectives and compelling arguments.");
    (lit "report", lit "Format as a structured report with clear sections and professional presentation.");
    (lit "other", lit "Improve clarity, structure, and overall effectiveness of the content.") ].

(** What a table, an object literal, inherits from [Object.prototype]: each
    inherited property with the text it has in a template literal (the
    functions as Node prints them, [__proto__] as the prototype object). *)
Definition inherited : list (jsstring * jsstring) :=
  [ (lit "constructor", lit "function Object() { [native code] }");
    (lit "__defineGetter__", lit "function __defineGetter__() { [native code] }");
    (lit "__defineSetter__", lit "function __defineSetter__() { [native code] }");
    (lit "hasOwnProperty", lit "function hasOwnProperty() { [native code] }");
    (lit "__lookupGetter__", lit "function __lookupGetter__() { [native code] }");
    (lit "__lookupSetter__", lit "function __lookupSetter__() { [native code] }");
    (lit "isPrototypeOf", lit "function isPrototypeOf() { [native code] }");
    (lit "propertyIsEnumerable", lit "function propertyIsEnumerable() { [native code] }");
    (lit "toString", lit "function toString() { [native code] }");
    (lit "valueOf", lit "function valueOf() { [native code] }");
    (lit "__proto__", lit "[object Object]");
    (lit "toLocaleString", lit "function toLocaleString() { [native code] }") ].

(** [table[key] || table.fallbackKey], as the text interpolated into the
    system prompt.  The table's own properties come first, then the inherited
    ones, all of them truthy.  A key that is no string is converted to one:
    [null], a boolean or a number to a text that names no property; an array
    or object ([JObject]) to a text the embedding does not carry, taken to name
    no property either. *)
Definition instructionFor (table : list (jsstring * jsstring)) (key : JsVal)
    (fallbackKey : jsstring) : jsstring :=
  let own (k : jsstring) :=
    snd <$> List.find (fun kv => bool_decide (fst kv = k)) table in
  let property (k : jsstring) :=
    snd <$> List.find (fun kv => bool_decide (fst kv = k)) (table ++ inherited) in
  let chosen := match key with
                | JString k => property k
                | _ => None
                end in
  match chosen with
  | Some instruction => instruction
  | None => default [] (own fallbackKey)
  end.

Definition systemPrompt (toneInstruction typeInstruction : jsstring) : jsstring :=
  lit "You are PromptMate, an AI assistant that specializes in rewriting and improving text."
  ++ [LF; LF]
  ++ lit "Your task is to rewrite the given text according to these specifications:"
  ++ [LF] ++ lit "- TONE: " ++ toneInstruction
  ++ [LF] ++ lit "- TYPE: " ++ typeInstruction
  ++ [LF; LF] ++ lit "Rules:"
  ++ [LF] ++ lit "1. Maintain the original meaning and intent"
  ++ [LF] ++ lit "2. Improve clarity, structure, and flow"
  ++ [LF] ++ lit "3. Fix any grammar or spelling issues"
  ++ [LF] ++ lit "4. Make it more engaging and effective"
  ++ [LF] ++ lit "5. Keep it concise but comprehensive"
  ++ [LF] ++ lit "6. Don't add information that wasn't in the original"
  ++ [LF; LF] ++ lit "Please rewrite the following text:".

(** An estimated cost.  [calculateCost] is double-precision arithmetic followed
    by [toFixed(6)]; its value is kept symbolic, as the total of characters it
    is computed from. *)
Inductive Cost :=
| CostNumber (z : Z)
| CostEstimate (totalChars : nat).

Definition calculateCost (originalText rewrittenText : jsstring) : Cost :=
  CostEstimate (length originalText + length rewrittenText).

Module Metadata.
Record t := mk {
  processingTime : Z;
  model : jsstring;
  tone : JsVal;
  type : JsVal;
  originalLength : nat;
  rewrittenLength : nat;
  apiCost : Cost;
  note : option jsstring
}.
End Metadata.

(** The object [rewritePrompt] resolves to; an absent property is [None]. *)
#[warnings="-register-all"] Inductive RewriteResult := mkResult {
  success : bool;
  rewrittenPrompt : option jsstring;
  metadata : option Metadata.t;
  error : option jsstring;
  details : option jsstring;
  fallback : option RewriteResult
}.

(** The text of the mock rewrite: the body of [getMockResponse] up to its
    [return]. *)
Definition mockRewritten (originalPrompt : jsstring) (tone type : JsVal) : jsstring :=
  let mockRewritten := originalPrompt in
  (* Basic improvements *)
  let mockRewritten :=
    trim (collapseWhiteSpace false
            (replaceWholeWord 117 (lit "you") None
               (replaceWholeWord 105 (lit "I") None mockRewritten))) in
  let mockRewritten :=
    if negb (endsWithTerminal mockRewritten) then mockRewritten ++ lit "."
    else mockRewritten in
  (* Tone modifications *)
  let mockRewritten :=
    if strictEq tone (lit "formal") then
      lit "I would like to formally request assistance with the following: "
      ++ mockRewritten
    else if strictEq tone (lit "friendly") then
      lit "Hi there! " ++ mockRewritten ++ lit " Hope this helps!"
    else if strictEq tone (lit "casual") then
      lit "Hey, " ++ mockRewritten
    else mockRewritten in
  (* Type modifications *)
  let mockRewritten :=
    if strictEq type (lit "email") then
      lit "Subject: Request for Assistance" ++ [LF; LF]
      ++ lit "Dear [Recipient]," ++ [LF; LF]
      ++ mockRewritten ++ [LF; LF]
      ++ lit "Best regards," ++ [LF] ++ lit "[Your Name]"
    else mockRewritten in
  mockRewritten.

(** [getMockResponse(originalPrompt, tone, type, startTime)]; [now] is the
    reading of [Date.now()]. *)
Definition getMockResponse (now : Z) (originalPrompt : jsstring)
    (tone type : JsVal) (startTime : Z) : RewriteResult :=
  let processingTime := (now - startTime)%Z in
  let mockRewritten := mockRewritten originalPrompt tone type in
  {| success := true;
     rewrittenPrompt := Some mockRewritten;
     metadata := Some
       {| Metadata.processingTime := processingTime;
          Metadata.model := lit "mock-gemini";
          Metadata.tone := tone;
          Metadata.type := type;
          Metadata.originalLength := length originalPrompt;
          Metadata.rewrittenLength := length mockRewritten;
          Metadata.apiCost := CostNumber 0;
          Metadata.note := Some (lit "This is a mock response. Please configure a valid GEMINI_API_KEY for actual AI rewriting.") |};
     error := None;
     details := None;
     fallback := None |}.

(** A run of an asynchronous method: the requests sent to the provider, in
    order, and the value it resolves to ([None]: it awaits a promise that never
    settles). *)
Record Run (A : Type) := mkRun {
  calls : list jsstring;
  returned : option A
}.
Arguments mkRun {A} _ _.
Arguments calls {A} _.
Arguments returned {A} _.

Record ConnectionTest := {
  ct_success : bool;
  ct_response : option jsstring;
  ct_error : option jsstring
}.

Definition probe : jsstring := lit "Hello, this is a test.".

(** [testConnection()] *)
Definition testConnection (svc : Service) : Run ConnectionTest :=
  match genAI svc, model svc with
  | true, Some m =>
      mkRun [probe]
        match m probe with
        | Fulfilled text =>
            Some {| ct_success := true; ct_response := Some text; ct_error := None |}
        | Rejected message =>
            Some {| ct_success := false; ct_response := None; ct_error := Some message |}
        | Unsettled => None
        end
  | _, _ =>
      mkRun []
        (Some {| ct_success := false; ct_response := None;
                 ct_error := Some (lit "Service not initialized") |})
  end.

(** [Promise.race([generatePromise, timeoutPromise])] and the two statements
    after it: the timer rejects when the call has not settled. *)
Definition race (generate : Settled) : Settled :=
  match generate with
  | Unsettled => Rejected (lit "Request timeout after 30 seconds")
  | settled => settled
  end.

(** The message chosen in the [catch] block of [rewritePrompt]. *)
Definition errorMessage (message : jsstring) : jsstring :=
  if includes (lit "fetch failed") message then
    lit "Network connection failed - check your internet connection"
  else if includes (lit "timeout") message then
    lit "Request timed out - please try again"
  else if includes (lit "API key") message then
    lit "API key is invalid or expired"
  else lit "Failed to rewrite prompt".

(** The text that [rewritePrompt] sends to the provider:
    [`${systemPrompt}\n\n"${originalPrompt}"`]. *)
Definition rewriteRequest (originalPrompt : jsstring) (tone type : JsVal)
    : jsstring :=
  let toneInstruction :=
    instructionFor toneInstructions tone (lit "professional") in
  let typeInstruction :=
    instructionFor typeInstructions type (lit "other") in
  systemPrompt toneInstruction typeInstruction
  ++ [LF; LF] ++ [QUOTE] ++ originalPrompt ++ [QUOTE].

(** [rewritePrompt(originalPrompt, tone, type)]; [startTime] and [now] are the
    two readings of [Date.now()] of a call. *)
Definition rewritePrompt (svc : Service) (startTime now : Z)
    (originalPrompt : jsstring) (tone type : JsVal) : Run RewriteResult :=
  (* default parameters: tone = 'professional', type = 'other' *)
  let tone := orDefault tone (lit "professional") in
  let type := orDefault type (lit "other") in
  match genAI svc, model svc with
  | true, Some m =>
      (* Test connection first *)
      let connectionTest := testConnection svc in
      match returned connectionTest with
      | None => mkRun (calls connectionTest) None
      | Some test =>
          if negb (ct_success test) then
            mkRun (calls connectionTest)
              (Some {| success := false;
                       rewrittenPrompt := None;
                       metadata := None;
                       error := Some (lit "Failed to connect to Gemini API");
                       details := ct_error test;
                       fallback := Some (getMockResponse now originalPrompt tone type startTime) |})
          else
            let request := rewriteRequest originalPrompt tone type in
            mkRun (calls connectionTest ++ [request])
              match race (m request) with
              | Fulfilled rewrittenText =>
                  let processingTime := (now - startTime)%Z in
                  Some {| success := true;
                          rewrittenPrompt := Some (trim rewrittenText);
                          metadata := Some
                            {| Metadata.processingTime := processingTime;
                               Metadata.model := lit "gemini-1.5-flash";
                               Metadata.tone := tone;
                               Metadata.type := type;
                               Metadata.originalLength := length originalPrompt;
                               Metadata.rewrittenLength := length rewrittenText;
                               Metadata.apiCost := calculateCost originalPrompt rewrittenText;
                               Metadata.note := None |};
                          error := None;
                          details := None;
                          fallback := None |}
              | Rejected message =>
                  Some {| success := false;
                          rewrittenPrompt := None;
                          metadata := None;
                          error := Some (errorMessage message);
                          details := Some message;
                          fallback := Some (getMockResponse now originalPrompt tone type startTime) |}
              | Unsettled => None
              end
      end
  | _, _ =>
      (* If Gemini API is not available, return mock response *)
      mkRun [] (Some (getMockResponse now originalPrompt tone type startTime))
  end.

End GeminiService.

(** ** models/Prompt.js

    The collection is a finite map from [_id] to document: MongoDB keeps [_id]
    unique.  The store is taken to be reachable; the aggregations
    ([getUserStats], [getPopularTonesAndTypes]) are not embedded. *)
Module PromptModel.

Import GeminiService.

Abbreviation ObjectId := N.

Definition tones : list jsstring :=
  [lit "formal"; lit "casual"; lit "friendly"; lit "professional";
   lit "creative"; lit "concise"].

Definition types : list jsstring :=
  [lit "email"; lit "message"; lit "explanation"; lit "summary";
   lit "proposal"; lit "report"; lit "other"].

Record WordCount := {
  original : nat;
  rewritten : nat
}.

Record DocMetadata := {
  wordCount : WordCount;
  processingTime : option Z;
  model : jsstring;
  apiCost : Cost
}.

(** A stored document (its [_id] is its key in the collection). *)
Record Doc := {
  userId : jsstring;
  originalPrompt : jsstring;
  rewrittenPrompt : jsstring;
  tone : jsstring;
  type : jsstring;
  isFavorite : bool;
  timestamp : Z;
  metadata : DocMetadata;
  createdAt : Z;
  updatedAt : Z
}.

(** A value given for a path of [metadata], as the schema's type casts it:
    not given, cast to a value of the type, or a value the type cannot cast
    (a [CastError], which the validation of [save()] reports). *)
Inductive Supplied (A : Type) :=
| Absent
| Value (a : A)
| Uncastable.
Arguments Absent {A}.
Arguments Value {A} _.
Arguments Uncastable {A}.

(** The cast value of a path, [None] when there is none to store; no result
    for a value that cannot be cast. *)
Definition castPath {A : Type} (v : Supplied A) : option (option A) :=
  match v with
  | Absent => Some None
  | Value a => Some (Some a)
  | Uncastable => None
  end.

(** The [metadata] object handed to [new Prompt({...})]; the schema is strict,
    so only these paths are read. *)
Record MetadataInput := {
  in_wordCount_original : Supplied nat;
  in_wordCount_rewritten : Supplied nat;
  in_processingTime : Supplied Z;
  in_model : Supplied jsstring;
  in_apiCost : Supplied Cost
}.

Definition noMetadata : MetadataInput :=
  {| in_wordCount_original := Absent; in_wordCount_rewritten := Absent;
     in_processingTime := Absent; in_model := Absent; in_apiCost := Absent |}.

(** The object handed to [new Prompt({...})].  The three texts are modelled as
    strings or absent. *)
Record PromptInput := {
  in_userId : option jsstring;
  in_originalPrompt : option jsstring;
  in_rewrittenPrompt : option jsstring;
  in_tone : JsVal;
  in_type : JsVal;
  in_metadata : MetadataInput
}.

(** A [String] path with [required: true, trim: true] and, when given,
    [maxlength]: the setter trims, then the validators run. *)
Definition requiredText (maxlength : option Z) (v : option jsstring)
    : option jsstring :=
  match v with
  | None => None
  | Some s =>
      let s := trim s in
      if bool_decide (s = []) then None
      else match maxlength with
           | Some n => if (Z.of_nat (length s) <=? n)%Z then Some s else None
           | None => Some s
           end
  end.

(** A [String] path with [required: true], an [enum] and a [default]: the
    default replaces [undefined]; any other value has to be a member. *)
Definition enumText (members : list jsstring) (dflt : jsstring) (v : JsVal)
    : option jsstring :=
  match v with
  | JUndefined => Some dflt
  | JString s => if bool_decide (s ∈ members) then Some s else None
  | _ => None
  end.

(** [new Prompt(input)] followed by the validation that [save()] runs first:
    the document as cast by the schema, or [None] for a [ValidationError]. *)
Definition construct (now : Z) (input : PromptInput) : option Doc :=
  userId ← requiredText None (in_userId input);
  originalPrompt ← requiredText (Some 5000%Z) (in_originalPrompt input);
  rewrittenPrompt ← requiredText (Some 10000%Z) (in_rewrittenPrompt input);
  tone ← enumText tones (lit "professional") (in_tone input);
  type ← enumText types (lit "other") (in_type input);
  let m := in_metadata input in
  original ← castPath (in_wordCount_original m);
  rewritten ← castPath (in_wordCount_rewritten m);
  processingTime ← castPath (in_processingTime m);
  model ← castPath (in_model m);
  apiCost ← castPath (in_apiCost m);
  Some {| userId := userId;
          originalPrompt := originalPrompt;
          rewrittenPrompt := rewrittenPrompt;
          tone := tone;
          type := type;
          isFavorite := false;
          timestamp := now;
          metadata :=
            {| wordCount :=
                 {| original := default 0%nat original;
                    rewritten := default 0%nat rewritten |};
               processingTime := processingTime;
               model := default (lit "gemini-pro") model;
               apiCost := default (CostNumber 0) apiCost |};
          createdAt := now;
          updatedAt := now |}.

Definition setWordCount (d : Doc) (w : WordCount) : Doc :=
  {| userId := userId d; originalPrompt := originalPrompt d;
     rewrittenPrompt := rewrittenPrompt d; tone := tone d; type := type d;
     isFavorite := isFavorite d; timestamp := timestamp d;
     metadata := {| wordCount := w;
                    processingTime := processingTime (metadata d);
                    model := model (metadata d);
                    apiCost := apiCost (metadata d) |};
     createdAt := createdAt d; updatedAt := updatedAt d |}.

(** Pre-save middleware to calculate word counts *)
Definition preSave (d : Doc) : Doc :=
  if negb (bool_decide (originalPrompt d = []))
     && negb (bool_decide (rewrittenPrompt d = []))
  then setWordCount d
         {| original := length (split SPACE (originalPrompt d));
            rewritten := length (split SPACE (rewrittenPrompt d)) |}
  else d.

Inductive SaveError := ValidationError | DuplicateKey.

(** [new Prompt(input).save()] with the generated [_id]. *)
Definition save (store : gmap ObjectId Doc) (id : ObjectId) (now : Z)
    (input : PromptInput) : SaveError + (Doc * gmap ObjectId Doc) :=
  match construct now input with
  | None => inl ValidationError
  | Some d =>
      let d := preSave d in
      match store !! id with
      | Some _ => inl DuplicateKey
      | None => inr (d, <[id := d]> store)
      end
  end.

End PromptModel.

(** ** The document store, as the controller queries it

    The part of MongoDB's query language that the controller uses: equality
    on [_id], [userId], [type], [tone] and [isFavorite], [$regex] with option
    [i], [sort], [skip] and [limit]. *)
Module Mongo.

Import PromptModel.

(** *** [$regex] with [$options: 'i']

    The fragment of the pattern language embedded here: literal characters,
    [.] and a backslash before an ASCII character that is no letter or digit.
    A pattern with any other metacharacter is outside the fragment
    ([compile] gives [None]) and is left to the [Server] below.  Letters are
    folded over ASCII. *)
Inductive Atom :=
| Lit (c : N)
| Dot.

(** The characters [\ ^ $ . | ? * + ( ) [ ] { }]. *)
Definition isMeta (c : N) : bool :=
  (c =? 92) || (c =? 94) || (c =? 36) || (c =? 46) || (c =? 124)
  || (c =? 63) || (c =? 42) || (c =? 43) || (c =? 40) || (c =? 41)
  || (c =? 91) || (c =? 93) || (c =? 123) || (c =? 125).

Definition isAsciiAlnum (c : N) : bool :=
  ((48 <=? c) && (c <=? 57)) || ((65 <=? c) && (c <=? 90))
  || ((97 <=? c) && (c <=? 122)).

Fixpoint compile (pattern : jsstring) : option (list Atom) :=
  match pattern with
  | [] => Some []
  | c :: rest =>
      if c =? 92 then
        match rest with
        | e :: rest' =>
            if (e <? 128) && negb (isAsciiAlnum e)
            then cons (Lit e) <$> compile rest'
            else None
        | [] => None
        end
      else if c =? 46 then cons Dot <$> compile rest
      else if isMeta c then None
      else cons (Lit c) <$> compile rest
  end.

Definition foldCase (c : N) : N :=
  if (65 <=? c) && (c <=? 90) then c + 32 else c.

Definition isHighSurrogate (c : N) : bool := (55296 <=? c) && (c <=? 56319).
Definition isLowSurrogate (c : N) : bool := (56320 <=? c) && (c <=? 57343).

(** The pattern matches a prefix of the subject.  [.] takes one character (a
    surrogate pair is one character) other than a line feed. *)
Fixpoint matchHere (atoms : list Atom) (subject : jsstring) : bool :=
  match atoms with
  | [] => true
  | Lit c :: atoms' =>
      match subject with
      | d :: subject' => (foldCase c =? foldCase d) && matchHere atoms' subject'
      | [] => false
      end
  | Dot :: atoms' =>
      match subject with
      | d :: subject' =>
          if d =? LF then false
          else match subject' with
               | l :: subject'' =>
                   if isHighSurrogate d && isLowSurrogate l
                   then matchHere atoms' subject''
                   else matchHere atoms' subject'
               | [] => matchHere atoms' subject'
               end
      | [] => false
      end
  end.

(** An unanchored pattern matches when it matches at some position. *)
Fixpoint matchAnywhere (atoms : list Atom) (subject : jsstring) : bool :=
  matchHere atoms subject ||
  match subject with
  | [] => false
  | _ :: subject' => matchAnywhere atoms subject'
  end.


(** *** The server outside the embedded fragment

    What the MongoDB server does where this file does not embed it: the
    subjects that a [$regex] pattern outside the fragment matches under option
    [i], and the order that [sort] by a field outside [sortPaths] returns the
    selected documents in.  [None]: the server rejects the pattern, or the
    sort, with an error. *)
Record Server := {
  regexOutside : jsstring -> option (jsstring -> bool);
  sortOutside :
    jsstring -> Z -> list (ObjectId * Doc) -> option (list (ObjectId * Doc))
}.

(** [{$regex: pattern, $options: 'i'}] as the server evaluates it. *)
Definition regex (server : Server) (pattern : jsstring)
    : option (jsstring -> bool) :=
  match compile pattern with
  | Some atoms => Some (matchAnywhere atoms)
  | None => regexOutside server pattern
  end.

(** *** Queries *)

(** A filter document: an absent condition is [None]; [q_or] is the matcher of
    [$or: [{originalPrompt: {$regex, $options: 'i'}}, {rewrittenPrompt: ...}]]. *)
Record Query := {
  q_id : option ObjectId;
  q_userId : option jsstring;
  q_type : option jsstring;
  q_tone : option jsstring;
  q_isFavorite : option bool;
  q_or : option (jsstring -> bool)
}.

(** The filter as Mongoose sends it: the model's query methods cast the
    values of a filter through the schema, which runs the setter of [userId]
    ([trim: true]); [tone], [type] and [isFavorite] have no setter, and the
    value of [$regex] is not run through setters. *)
Definition castFilter (q : Query) : Query :=
  {| q_id := q_id q;
     q_userId := trim <$> q_userId q;
     q_type := q_type q;
     q_tone := q_tone q;
     q_isFavorite := q_isFavorite q;
     q_or := q_or q |}.

Definition holds {A} (cond : option A) (test : A -> bool) : bool :=
  match cond with
  | Some a => test a
  | None => true
  end.

Definition matches (q : Query) (entry : ObjectId * Doc) : bool :=
  let '(id, d) := entry in
  holds (q_id q) (fun i => bool_decide (id = i))
  && holds (q_userId q) (fun u => bool_decide (userId d = u))
  && holds (q_type q) (fun t => bool_decide (type d = t))
  && holds (q_tone q) (fun t => bool_decide (tone d = t))
  && holds (q_isFavorite q) (fun b => bool_decide (isFavorite d = b))
  && holds (q_or q) (fun matcher =>
       matcher (originalPrompt d) || matcher (rewrittenPrompt d)).

(** The documents that a filter, as sent, selects, in the order the
    collection enumerates them. *)
Definition select (q : Query) (store : gmap ObjectId Doc)
    : list (ObjectId * Doc) :=
  List.filter (matches q) (map_to_list store).

(** [Prompt.countDocuments(query)] *)
Definition countDocuments (q : Query) (store : gmap ObjectId Doc) : nat :=
  length (select (castFilter q) store).

(** [Prompt.findOne(query)] *)
Definition findOne (q : Query) (store : gmap ObjectId Doc)
    : option (ObjectId * Doc) :=
  head (select (castFilter q) store).

(** [Prompt.findOneAndDelete(query)]: the deleted document, if any, and the store
    afterwards. *)
Definition findOneAndDelete (q : Query) (store : gmap ObjectId Doc)
    : option (ObjectId * Doc) * gmap ObjectId Doc :=
  match findOne q store with
  | Some (id, d) => (Some (id, d), delete id store)
  | None => (None, store)
  end.

(** *** Sorting

    Keys are compared in BSON order: null, numbers, strings, object ids,
    booleans, dates. *)
Inductive SortKey :=
| KNull
| KNumber (z : Z)
| KString (s : jsstring)
| KObjectId (i : ObjectId)
| KBool (b : bool)
| KDate (t : Z).

Definition rank (k : SortKey) : nat :=
  match k with
  | KNull => 0
  | KNumber _ => 1
  | KString _ => 2
  | KObjectId _ => 3
  | KBool _ => 4
  | KDate _ => 5
  end.

Fixpoint stringLe (a b : jsstring) : bool :=
  match a, b with
  | [], _ => true
  | _ :: _, [] => false
  | x :: a', y :: b' => (x <? y) || ((x =? y) && stringLe a' b')
  end.

Definition keyLe (a b : SortKey) : bool :=
  match a, b with
  | KNull, KNull => true
  | KNumber x, KNumber y => (x <=? y)%Z
  | KString x, KString y => stringLe x y
  | KObjectId x, KObjectId y => x <=? y
  | KBool x, KBool y => implb x y
  | KDate x, KDate y => (x <=? y)%Z
  | _, _ => (rank a <? rank b)%nat
  end.

(** The value of a schema path in a document.  These paths are the sort
    fields embedded here; a sort by any other field is left to the [Server]. *)
Definition sortPaths : list (jsstring * (ObjectId * Doc -> SortKey)) :=
  [ (lit "_id", fun e => KObjectId (fst e));
    (lit "userId", fun e => KString (userId (snd e)));
    (lit "originalPrompt", fun e => KString (originalPrompt (snd e)));
    (lit "rewrittenPrompt", fun e => KString (rewrittenPrompt (snd e)));
    (lit "tone", fun e => KString (tone (snd e)));
    (lit "type", fun e => KString (type (snd e)));
    (lit "isFavorite", fun e => KBool (isFavorite (snd e)));
    (lit "timestamp", fun e => KDate (timestamp (snd e)));
    (lit "createdAt", fun e => KDate (createdAt (snd e)));
    (lit "updatedAt", fun e => KDate (updatedAt (snd e)));
    (lit "metadata.wordCount.original",
       fun e => KNumber (Z.of_nat (original (wordCount (metadata (snd e))))));
    (lit "metadata.wordCount.rewritten",
       fun e => KNumber (Z.of_nat (rewritten (wordCount (metadata (snd e))))));
    (lit "metadata.processingTime",
       fun e => match processingTime (metadata (snd e)) with
                | Some t => KNumber t
                | None => KNull
                end);
    (lit "metadata.model", fun e => KString (model (metadata (snd e)))) ].

Definition sortKey (field : jsstring) : option (ObjectId * Doc -> SortKey) :=
  snd <$> List.find (fun p => bool_decide (fst p = field)) sortPaths.

Fixpoint insertBy {A} (le : A -> A -> bool) (x : A) (l : list A) : list A :=
  match l with
  | [] => [x]
  | y :: l' => if le x y then x :: l else y :: insertBy le x l'
  end.

(** [sort({field: direction})].  Documents with equal keys stay in the order
    of enumeration, one of the orders MongoDB may return them in. *)
Definition sortDocs (key : ObjectId * Doc -> SortKey) (direction : Z)
    (l : list (ObjectId * Doc)) : list (ObjectId * Doc) :=
  let le a b :=
    if (direction <? 0)%Z then keyLe (key b) (key a)
    else keyLe (key a) (key b) in
  foldr (insertBy le) [] l.

(** [skip(n).limit(m)]: a negative [skip] is an error of the server; a [limit]
    of 0 is no limit, a negative one counts as its absolute value. *)
Definition window {A} (skip limit : Z) (l : list A) : option (list A) :=
  if (skip <? 0)%Z then None
  else
    let rest := drop (Z.to_nat skip) l in
    Some (if (limit =? 0)%Z then rest
          else take (Z.to_nat (Z.abs limit)) rest).

(** [sort({field: direction})] as the server evaluates it. *)
Definition sorted (server : Server) (field : jsstring) (direction : Z)
    (l : list (ObjectId * Doc)) : option (list (ObjectId * Doc)) :=
  match sortKey field with
  | Some key => Some (sortDocs key direction l)
  | None => sortOutside server field direction l
  end.

(** A sort by a field outside the embedded paths returns the documents it
    is given, in some order: what is assumed of the server where a property
    depends on it. *)
Definition sortKeeps (server : Server) : Prop :=
  forall field direction l ordered,
    sortOutside server field direction l = Some ordered -> ordered ≡ₚ l.

(** [Prompt.find(query).sort(sortObj).skip(skip).limit(limit).lean()];
    [None]: the server answers with an error. *)
Definition find (server : Server) (q : Query) (field : jsstring)
    (direction : Z) (skip limit : Z) (store : gmap ObjectId Doc)
    : option (list (ObjectId * Doc)) :=
  ordered ← sorted server field direction (select (castFilter q) store);
  window skip limit ordered.

End Mongo.

(** ** HTTP replies *)
Module Http.

(** The body of an error reply; an absent property is [None]. *)
Record ErrorBody := {
  error : jsstring;
  message : option jsstring;
  details : option jsstring;
  fallback : option GeminiService.RewriteResult
}.

(** [res.status(status).json(...)]: a success body with its [data], or an
    error body. *)
Inductive Reply (A : Type) :=
| Sent (status : Z) (data : A)
| Refused (status : Z) (body : ErrorBody).
Arguments Sent {A} _ _.
Arguments Refused {A} _ _.

Definition status {A} (r : Reply A) : Z :=
  match r with
  | Sent status _ => status
  | Refused status _ => status
  end.

Definition refuse {A} (status : Z) (error : string) (message : jsstring)
    : Reply A :=
  Refused status {| error := lit error; message := Some message;
                    details := None; fallback := None |}.

(** What a handler passes to [next(error)], by [err.name].  The message texts
    of Mongoose, of the driver and of the JavaScript engine are not embedded:
    a [ValidationError] is answered without its message, and the messages of
    the other errors are stand-ins. *)
Inductive Thrown :=
| ValidationError
| CastError
| OtherError (message : jsstring).

(** Global error handler of the application. *)
Definition errorHandler {A} (err : Thrown) : Reply A :=
  match err with
  | ValidationError =>
      Refused 400 {| error := lit "Validation Error"; message := None;
                     details := None; fallback := None |}
  | CastError =>
      refuse 400 "Invalid ID format" (lit "The provided ID is not valid")
  | OtherError message =>
      Refused 500 {| error := message; message := None;
                     details := None; fallback := None |}
  end.

End Http.

(** ** routes/promptRoutes.js: validation middleware *)
Module Routes.

Import Http.

(** The body of [POST /rewrite].  [userId] is modelled as a string or absent. *)
Record RewriteBody := {
  prompt : JsVal;
  tone : JsVal;
  type : JsVal;
  userId : option jsstring
}.

Definition validTones : list jsstring :=
  [lit "formal"; lit "casual"; lit "friendly"; lit "professional";
   lit "creative"; lit "concise"].

Definition validTypes : list jsstring :=
  [lit "email"; lit "message"; lit "explanation"; lit "summary";
   lit "proposal"; lit "report"; lit "other"].

(** [validateRewriteRequest]: the reply it sends, or [None] when it calls
    [next()]. *)
Definition validateRewriteRequest {A} (body : RewriteBody) : option (Reply A) :=
  if negb (truthy (prompt body)) || negb (isString (prompt body)) then
    Some (refuse 400 "Invalid prompt" (lit "Prompt must be a non-empty string"))
  else if truthy (tone body) && negb (includesVal validTones (tone body)) then
    Some (refuse 400 "Invalid tone"
            (lit "Tone must be one of: " ++ join (lit ", ") validTones))
  else if truthy (type body) && negb (includesVal validTypes (type body)) then
    Some (refuse 400 "Invalid type"
            (lit "Type must be one of: " ++ join (lit ", ") validTypes))
  else None.

(** [validateUserId], on the route parameter. *)
Definition validateUserId {A} (userId : jsstring) : option (Reply A) :=
  if bool_decide (userId = []) || (length (trim userId) =? 0)%nat then
    Some (refuse 400 "Invalid userId"
            (lit "userId is required and must be a non-empty string"))
  else None.

End Routes.

(** ** controllers/promptControllers.js *)
Module PromptController.

Import Http Mongo.
Import PromptModel(ObjectId, Doc, PromptInput, MetadataInput).

(** What a request finds: the AI service, the two clock readings of a call of
    the service, the collection, and the [_id] and time stamp a new document
    would get. *)
Record World := {
  service : GeminiService.Service;
  startTime : Z;
  now : Z;
  store : gmap ObjectId Doc;
  newId : ObjectId;
  today : Z
}.

(** What a handler leaves: the arguments of its calls of
    [geminiService.rewritePrompt], the requests these sent to the AI provider,
    the reply ([None]: the handler awaits a promise that never settles) and
    the collection afterwards. *)
Record Handled (A : Type) := {
  invoked : list (jsstring * JsVal * JsVal);
  calls : list jsstring;
  reply : option (Reply A);
  store' : gmap ObjectId Doc
}.
Arguments invoked {A} _.
Arguments calls {A} _.
Arguments reply {A} _.
Arguments store' {A} _.

Definition respond {A} (w : World) (r : Reply A) : Handled A :=
  {| invoked := []; calls := []; reply := Some r; store' := store w |}.

Record RewriteData := {
  originalPrompt : jsstring;
  rewrittenPrompt : option jsstring;
  tone : JsVal;
  type : JsVal;
  metadata : option GeminiService.Metadata.t;
  historyId : option ObjectId;
  savedToHistory : option bool
}.

(** The paths of the service's [metadata] that the schema keeps. *)
Definition metadataInput (m : option GeminiService.Metadata.t) : MetadataInput :=
  match m with
  | Some m =>
      {| PromptModel.in_wordCount_original := PromptModel.Absent;
         PromptModel.in_wordCount_rewritten := PromptModel.Absent;
         PromptModel.in_processingTime :=
           PromptModel.Value (GeminiService.Metadata.processingTime m);
         PromptModel.in_model := PromptModel.Value (GeminiService.Metadata.model m);
         PromptModel.in_apiCost :=
           PromptModel.Value (GeminiService.Metadata.apiCost m) |}
  | None => PromptModel.noMetadata
  end.

Definition nonEmpty (v : option jsstring) : bool :=
  match v with
  | Some s => negb (bool_decide (s = []))
  | None => false
  end.

(** POST /api/rewrite - Rewrite a prompt using Gemini AI *)
Definition rewritePrompt (w : World) (body : Routes.RewriteBody)
    : Handled RewriteData :=
  let prompt := Routes.prompt body in
  let tone := orDefault (Routes.tone body) (lit "professional") in
  let type := orDefault (Routes.type body) (lit "other") in
  let userId := Routes.userId body in
  (* Validation *)
  if negb (truthy prompt) then
    respond w (refuse 400 "Prompt is required"
                 (lit "Please provide a prompt to rewrite"))
  else
    match prompt with
    | JString prompt =>
        if (length (trim prompt) =? 0)%nat then
          respond w (refuse 400 "Prompt is required"
                       (lit "Please provide a prompt to rewrite"))
        else if (5000 <? Z.of_nat (length prompt))%Z then
          respond w (refuse 400 "Prompt too long"
                       (lit "Prompt must be less than 5000 characters"))
        else
          (* Call Gemini service *)
          let run :=
            GeminiService.rewritePrompt (service w) (startTime w) (now w)
              (trim prompt) tone type in
          match GeminiService.returned run with
          | None =>
              {| invoked := [(trim prompt, tone, type)];
                   calls := GeminiService.calls run; reply := None;
                 store' := store w |}
          | Some result =>
              if negb (GeminiService.success result) then
                {| invoked := [(trim prompt, tone, type)];
                   calls := GeminiService.calls run;
                   reply := Some (Refused 500
                     {| error := lit "AI service error";
                        message := GeminiService.error result;
                        details := GeminiService.details result;
                        fallback := GeminiService.fallback result |});
                   store' := store w |}
              else
                let data :=
                  {| originalPrompt := trim prompt;
                     rewrittenPrompt := GeminiService.rewrittenPrompt result;
                     tone := tone;
                     type := type;
                     metadata := GeminiService.metadata result;
                     historyId := None;
                     savedToHistory := None |} in
                (* Auto-save to history if userId is provided *)
                if nonEmpty userId then
                  let historyItem :=
                    {| PromptModel.in_userId := userId;
                       PromptModel.in_originalPrompt := Some (trim prompt);
                       PromptModel.in_rewrittenPrompt := GeminiService.rewrittenPrompt result;
                       PromptModel.in_tone := tone;
                       PromptModel.in_type := type;
                       PromptModel.in_metadata := metadataInput (GeminiService.metadata result) |} in
                  match PromptModel.save (store w) (newId w) (today w) historyItem with
                  | inr (savedItem, saved) =>
                      {| invoked := [(trim prompt, tone, type)];
                   calls := GeminiService.calls run;
                         reply := Some (Sent 200
                           {| originalPrompt := originalPrompt data;
                              rewrittenPrompt := rewrittenPrompt data;
                              tone := tone; type := type;
                              metadata := metadata data;
                              historyId := Some (newId w);
                              savedToHistory := Some true |});
                         store' := saved |}
                  | inl saveError =>
                      {| invoked := [(trim prompt, tone, type)];
                   calls := GeminiService.calls run;
                         reply := Some (Sent 200
                           {| originalPrompt := originalPrompt data;
                              rewrittenPrompt := rewrittenPrompt data;
                              tone := tone; type := type;
                              metadata := metadata data;
                              historyId := None;
                              savedToHistory := Some false |});
                         store' := store w |}
                  end
                else
                  {| invoked := [(trim prompt, tone, type)];
                   calls := GeminiService.calls run;
                     reply := Some (Sent 200 data);
                     store' := store w |}
          end
    | _ =>
        (* [prompt.trim] is no function: the [catch] block hands the
           [TypeError] to [next] *)
        respond w (errorHandler (OtherError (lit "prompt.trim is not a function")))
    end.

(** [router.post('/rewrite', validateRewriteRequest, promptController.rewritePrompt)] *)
Definition postRewrite (w : World) (body : Routes.RewriteBody)
    : Handled RewriteData :=
  match Routes.validateRewriteRequest body with
  | Some refused => respond w refused
  | None => rewritePrompt w body
  end.

(** The body of [POST /history]; the three texts are modelled as strings or
    absent, [metadata] as an object or absent. *)
Record HistoryBody := {
  h_userId : option jsstring;
  h_originalPrompt : option jsstring;
  h_rewrittenPrompt : option jsstring;
  h_tone : JsVal;
  h_type : JsVal;
  h_metadata : option MetadataInput
}.

(** [value || 'literal'] *)
Definition orElse (v : JsVal) (d : jsstring) : JsVal :=
  if truthy v then v else JString d.

(** POST /api/history - Save prompt to history *)
Definition saveToHistory (w : World) (body : HistoryBody)
    : Handled (ObjectId * Doc) :=
  (* Validation *)
  if negb (nonEmpty (h_userId body)) || negb (nonEmpty (h_originalPrompt body))
     || negb (nonEmpty (h_rewrittenPrompt body)) then
    respond w (refuse 400 "Missing required fields"
                 (lit "userId, originalPrompt, and rewrittenPrompt are required"))
  else
    let historyItem :=
      {| PromptModel.in_userId := h_userId body;
         PromptModel.in_originalPrompt := h_originalPrompt body;
         PromptModel.in_rewrittenPrompt := h_rewrittenPrompt body;
         PromptModel.in_tone := orElse (h_tone body) (lit "professional");
         PromptModel.in_type := orElse (h_type body) (lit "other");
         PromptModel.in_metadata := default PromptModel.noMetadata (h_metadata body) |} in
    match PromptModel.save (store w) (newId w) (today w) historyItem with
    | inr (savedItem, saved) =>
        {| invoked := []; calls := [];
           reply := Some (Sent 201 (newId w, savedItem));
           store' := saved |}
    | inl PromptModel.ValidationError => respond w (errorHandler ValidationError)
    | inl PromptModel.DuplicateKey =>
        respond w (errorHandler (OtherError (lit "E11000 duplicate key error")))
    end.

(** The query string of [GET /history/:userId] and [GET /favorites/:userId].
    [page] and [limit] hold the integers that [parseInt] reads. *)
Record ListQuery := {
  page : option Z;
  limit : option Z;
  byType : option jsstring;
  byTone : option jsstring;
  search : option jsstring;
  sortBy : option jsstring;
  sortOrder : option jsstring
}.

Record Pagination := {
  currentPage : Z;
  totalPages : option Z;
  totalItems : nat;
  itemsPerPage : Z;
  hasNext : bool;
  hasPrev : bool
}.

Record ListData := {
  prompts : list (ObjectId * Doc);
  pagination : Pagination
}.

(** [if (value) query.field = value] *)
Definition given (v : option jsstring) : option jsstring :=
  if nonEmpty v then v else None.

(** [Math.ceil(total / limit)]; [None] where the quotient is not finite. *)
Definition ceilDiv (total limit : Z) : option Z :=
  if (limit =? 0)%Z then None else Some (- ((- total) / limit))%Z.

(** The common part of [getHistory] and [getFavorites], from "Calculate
    pagination" on; [query] is the filter when the server accepts its
    pattern.  An error of the server (a pattern or a sort that it rejects, a
    negative skip) rejects the awaited promise and goes to the error
    handler. *)
Definition listPage (server : Server) (store : gmap ObjectId Doc)
    (query : option Query) (page limit : Z) (sortBy sortOrder : jsstring)
    : Reply ListData :=
  (* Calculate pagination *)
  let skip := ((page - 1) * limit)%Z in
  let direction := if bool_decide (sortOrder = lit "desc") then (-1)%Z else 1%Z in
  (* Execute query *)
  match query ≫= (fun query =>
          prompts ← find server query sortBy direction skip limit store;
          Some (prompts, countDocuments query store)) with
  | None => errorHandler (OtherError (lit "MongoServerError"))
  | Some (prompts, total) =>
      Sent 200
        {| prompts := prompts;
           pagination :=
             {| currentPage := page;
                totalPages := ceilDiv (Z.of_nat total) limit;
                totalItems := total;
                itemsPerPage := limit;
                hasNext := (skip + Z.of_nat (length prompts) <? Z.of_nat total)%Z;
                hasPrev := (1 <? page)%Z |} |}
  end.

(** The filter document that [getHistory] builds.  [None]: the search text is
    a pattern that the server rejects. *)
Definition historyQuery (server : Server) (userId : jsstring) (q : ListQuery)
    : option Query :=
  pattern ← match given (search q) with
            | Some text => Some <$> regex server text
            | None => Some None
            end;
  Some {| q_id := None;
          q_userId := Some userId;
          q_type := given (byType q);
          q_tone := given (byTone q);
          q_isFavorite := None;
          q_or := pattern |}.

(** GET /api/history/:userId - Get user's prompt history *)
Definition getHistory (server : Server) (store : gmap ObjectId Doc)
    (userId : jsstring) (q : ListQuery) : Reply ListData :=
  (* Build query *)
  let query := historyQuery server userId q in
  listPage server store query (default 1%Z (page q)) (default 20%Z (limit q))
    (default (lit "timestamp") (sortBy q)) (default (lit "desc") (sortOrder q)).

(** The filter document of [getFavorites]. *)
Definition favoritesQuery (userId : jsstring) : Query :=
  {| q_id := None; q_userId := Some userId; q_type := None; q_tone := None;
     q_isFavorite := Some true; q_or := None |}.

(** GET /api/favorites/:userId - Get user's favorite prompts *)
Definition getFavorites (server : Server) (store : gmap ObjectId Doc)
    (userId : jsstring) (q : ListQuery) : Reply ListData :=
  let query := favoritesQuery userId in
  listPage server store (Some query)
    (default 1%Z (page q)) (default 20%Z (limit q))
    (default (lit "timestamp") (sortBy q)) (default (lit "desc") (sortOrder q)).

(** The filter of [deleteHistoryItem] and [toggleFavorite]:
    [{ _id: id }], with [userId] when one is given. *)
Definition ownedQuery (id : ObjectId) (userId : option jsstring) : Query :=
  {| q_id := Some id; q_userId := given userId; q_type := None;
     q_tone := None; q_isFavorite := None; q_or := None |}.

(** DELETE /api/history/:id - Delete a history item; [userId] is the optional
    query parameter.  The reply and the collection afterwards. *)
Definition deleteHistoryItem (store : gmap ObjectId Doc) (id : ObjectId)
    (userId : option jsstring) : Reply ObjectId * gmap ObjectId Doc :=
  let query := ownedQuery id userId in
  match findOneAndDelete query store with
  | (None, store) =>
      (refuse 404 "History item not found"
         (lit "The requested history item does not exist or you do not have permission to delete it"),
       store)
  | (Some deletedItem, store) => (Sent 200 id, store)
  end.

Definition setFavorite (d : Doc) (b : bool) (updated : Z) : Doc :=
  {| PromptModel.userId := PromptModel.userId d;
     PromptModel.originalPrompt := PromptModel.originalPrompt d;
     PromptModel.rewrittenPrompt := PromptModel.rewrittenPrompt d;
     PromptModel.tone := PromptModel.tone d;
     PromptModel.type := PromptModel.type d;
     PromptModel.isFavorite := b;
     PromptModel.timestamp := PromptModel.timestamp d;
     PromptModel.metadata := PromptModel.metadata d;
     PromptModel.createdAt := PromptModel.createdAt d;
     PromptModel.updatedAt := updated |}.

(** POST /api/history/favorite/:id - Toggle favorite status *)
Definition toggleFavorite (store : gmap ObjectId Doc) (today : Z)
    (id : ObjectId) (userId : option jsstring)
    : Reply (ObjectId * bool) * gmap ObjectId Doc :=
  let query := ownedQuery id userId in
  match findOne query store with
  | None =>
      (refuse 404 "History item not found"
         (lit "The requested history item does not exist or you do not have permission to modify it"),
       store)
  | Some (found, prompt) =>
      let prompt :=
        PromptModel.preSave
          (setFavorite prompt (negb (PromptModel.isFavorite prompt)) today) in
      (Sent 200 (found, PromptModel.isFavorite prompt),
       <[found := prompt]> store)
  end.

End PromptController.

(** ** services/geminiService.js: model information *)
Module GeminiInfo.

Import GeminiService.

(** The object [getModelInfo] resolves to.  [lastError] is [None] where the
    source gives [null] or leaves the property undefined. *)
Record ModelInfo := {
  modelName : jsstring;
  available : bool;
  connectionStatus : jsstring;
  supportedTones : list jsstring;
  supportedTypes : list jsstring;
  lastError : option jsstring
}.

(** [getModelInfo()] *)
Definition getModelInfo (svc : Service) : Run ModelInfo :=
  let connectionTest :=
    if genAI svc then testConnection svc
    else mkRun [] (Some {| ct_success := false; ct_response := None;
                           ct_error := None |}) in
  mkRun (calls connectionTest)
    (test ← returned connectionTest;
     Some {| modelName := lit "gemini-1.5-flash";
             available := genAI svc && ct_success test;
             connectionStatus :=
               if ct_success test then lit "connected" else lit "disconnected";
             supportedTones := fst <$> toneInstructions;
             supportedTypes := fst <$> typeInstructions;
             lastError := if ct_success test then None else ct_error test |}).

End GeminiInfo.

(** ** models/Prompt.js: popularity statistics *)
Module PromptStatics.

Import PromptModel Mongo.

(** One more document in the group of [key]; a new group goes last. *)
Fixpoint bump (key : jsstring) (groups : list (jsstring * nat))
    : list (jsstring * nat) :=
  match groups with
  | [] => [(key, 1%nat)]
  | (k, n) :: rest =>
      if bool_decide (k = key) then (k, S n) :: rest
      else (k, n) :: bump key rest
  end.

(** [{ $group: { _id: '$field', count: { $sum: 1 } } }], the groups in the
    order in which the enumeration meets them. *)
Definition groupCount (field : Doc -> jsstring)
    (docs : list (ObjectId * Doc)) : list (jsstring * nat) :=
  foldl (fun groups e => bump (field (snd e)) groups) [] docs.

(** [{ $sort: { count: -1 } }]; groups of equal count stay in the order of
    the grouping, one of the orders MongoDB may return them in. *)
Definition sortByCount (groups : list (jsstring * nat)) : list (jsstring * nat) :=
  foldr (insertBy (fun a b => (snd b <=? snd a)%nat)) [] groups.

Record Popular := {
  toneStats : list (jsstring * nat);
  typeStats : list (jsstring * nat)
}.

(** [getPopularTonesAndTypes()] *)
Definition getPopularTonesAndTypes (store : gmap ObjectId Doc) : Popular :=
  {| toneStats := sortByCount (groupCount tone (map_to_list store));
     typeStats := sortByCount (groupCount type (map_to_list store)) |}.

End PromptStatics.

(** ** controllers/promptControllers.js: API information *)
Module InfoController.

Import Http.

Record ApiInfo := {
  version : jsstring;
  apiStatus : jsstring;
  totalPromptsProcessed : nat
}.

Record InfoData := {
  api : ApiInfo;
  ai : GeminiInfo.ModelInfo;
  popular : PromptStatics.Popular
}.

(** GET /api/info - Get API and model information: the requests sent to the
    provider and the reply ([None]: the probe never settles). *)
Definition getInfo (service : GeminiService.Service)
    (store : gmap PromptModel.ObjectId PromptModel.Doc)
    : GeminiService.Run (Reply InfoData) :=
  let run := GeminiInfo.getModelInfo service in
  GeminiService.mkRun (GeminiService.calls run)
    (modelInfo ← GeminiService.returned run;
     let totalPrompts := size store in
     let popularData := PromptStatics.getPopularTonesAndTypes store in
     Some (Sent 200
             {| api := {| version := lit "1.0.0";
                          apiStatus := lit "active";
                          totalPromptsProcessed := totalPrompts |};
                ai := modelInfo;
                popular := popularData |})).

End InfoController.

(** ** Shapes of texts, for the statements *)
Module Shapes.

(** Every white-space character of the text is a space that does not follow
    another white-space character; [afterSpace] says that the text follows
    one. *)
Fixpoint singleSpaced (afterSpace : bool) (s : jsstring) : bool :=
  match s with
  | [] => true
  | c :: rest =>
      if isWhiteSpace c
      then (c =? SPACE) && negb afterSpace && singleSpaced true rest
      else singleSpaced false rest
  end.

(** The text does not begin with white space. *)
Definition startsClean (s : jsstring) : bool :=
  match s with
  | [] => true
  | c :: _ => negb (isWhiteSpace c)
  end.

(** The text does not end with white space. *)
Definition endsClean (s : jsstring) : bool :=
  match last s with
  | None => true
  | Some c => negb (isWhiteSpace c)
  end.

(** Whether a text, itself after [b], ends in white space. *)
Definition spaceAtEnd (b : bool) (s : jsstring) : bool :=
  match last s with
  | Some c => isWhiteSpace c
  | None => b
  end.

(** A text that is not empty, is single spaced and has no white space at
    either end. *)
Definition tidy (s : jsstring) : bool :=
  singleSpaced false s && startsClean s && endsClean s
  && negb (bool_decide (s = [])).

End Shapes.

(** ** Counting, for the statements *)
Module Counting.

Import PromptModel.

(** The number of stored documents whose [field] is [key]. *)
Definition occurrences (field : Doc -> jsstring) (key : jsstring)
    (store : gmap ObjectId Doc) : nat :=
  length (List.filter (fun e => bool_decide (field (snd e) = key))
            (map_to_list store)).

(** The count that a list of groups gives for [key] (0 when it has none). *)
Fixpoint countFor (key : jsstring) (groups : list (jsstring * nat)) : nat :=
  match groups with
  | [] => 0
  | (k, n) :: rest => if bool_decide (k = key) then n else countFor key rest
  end.

(** The numbers never increase along the list. *)
Fixpoint descending (l : list nat) : bool :=
  match l with
  | [] => true
  | x :: rest =>
      match rest with
      | [] => true
      | y :: _ => (y <=? x)%nat && descending rest
      end
  end.

End Counting.

(** ** The word count of the specification

    The word count that the specification words describe: the number of
    maximal runs of characters that are not white space.  Used only to compare
    the pre-save hook with. *)
Module Claimed.

Fixpoint countWords (inWord : bool) (s : jsstring) : nat :=
  match s with
  | [] => 0
  | c :: rest =>
      if isWhiteSpace c then countWords false rest
      else (if inWord then 0 else 1) + countWords true rest
  end.

Definition whitespaceSeparatedWords (s : jsstring) : nat := countWords false s.

End Claimed.

(** ** Sample data for the examples *)
Module Samples.

Import PromptModel.

Definition doc (user original rewritten : string) (favorite : bool)
    (time : Z) : Doc :=
  {| userId := lit user;
     originalPrompt := lit original;
     rewrittenPrompt := lit rewritten;
     tone := lit "professional";
     type := lit "other";
     isFavorite := favorite;
     timestamp := time;
     metadata :=
       {| wordCount := {| original := length (split SPACE (lit original));
                          rewritten := length (split SPACE (lit rewritten)) |};
          processingTime := Some 3%Z;
          model := lit "mock-gemini";
          apiCost := GeminiService.CostNumber 0 |};
     createdAt := time;
     updatedAt := time |}.

(** Three records of alice, two of them favourites, and one of bob. *)
Definition collection : gmap ObjectId Doc :=
  {[ 1 := doc "alice" "abc" "Abc." true 10;
     2 := doc "alice" "please HELP me" "Please help me." true 20;
     3 := doc "alice" "xyz" "Xyz!" false 30;
     4 := doc "bob" "help" "Help." false 40 ]}.

(** A server that rejects every pattern outside the embedded fragment and
    takes a sort field outside the embedded paths as a field that no document
    has: the documents stay in the order of enumeration. *)
Definition server : Mongo.Server :=
  {| Mongo.regexOutside := fun _ => None;
     Mongo.sortOutside := fun _ _ l => Some l |}.

Definition listQuery (page limit : Z) (search : option string)
    : PromptController.ListQuery :=
  {| PromptController.page := Some page;
     PromptController.limit := Some limit;
     PromptController.byType := None;
     PromptController.byTone := None;
     PromptController.search := lit <$> search;
     PromptController.sortBy := None;
     PromptController.sortOrder := None |}.

End Samples.

(** * Properties *)

(** ** The fallback transform ([getMockResponse]) *)
Section Fallback.

Import GeminiService.

Lemma endsWithTerminal_app (p x : jsstring) :
  x ≠ [] -> endsWithTerminal (p ++ x) = endsWithTerminal x.
Proof.
  intros Hx. unfold endsWithTerminal. rewrite last_app.
  destruct (last x) eqn:E; [reflexivity|].
  apply last_None in E. contradiction.
Qed.

Lemma endsWithTerminal_nonempty (s : jsstring) :
  endsWithTerminal s = true -> s ≠ [].
Proof. intros H ->. discriminate H. Qed.

(** The punctuation step leaves a text that ends in [.], [!] or [?]. *)
Lemma punctuated (b : jsstring) :
  endsWithTerminal (if negb (endsWithTerminal b) then b ++ lit "." else b) = true.
Proof.
  destruct (endsWithTerminal b) eqn:E; simpl; [exact E|].
  rewrite endsWithTerminal_app; [reflexivity | discriminate].
Qed.

(** The text before the e-mail template is applied ends in terminal
    punctuation, whatever the tone. *)
Lemma toned_endsWithTerminal (b : jsstring) (tone : JsVal) :
  endsWithTerminal b = true ->
  endsWithTerminal
    (if strictEq tone (lit "formal") then
       lit "I would like to formally request assistance with the following: " ++ b
     else if strictEq tone (lit "friendly") then
       lit "Hi there! " ++ b ++ lit " Hope this helps!"
     else if strictEq tone (lit "casual") then lit "Hey, " ++ b
     else b) = true.
Proof.
  intros Hb. pose proof (endsWithTerminal_nonempty _ Hb) as Hne.
  destruct (strictEq tone (lit "formal")).
  { rewrite endsWithTerminal_app; assumption. }
  destruct (strictEq tone (lit "friendly")).
  { rewrite app_assoc, endsWithTerminal_app; [reflexivity | discriminate]. }
  destruct (strictEq tone (lit "casual")).
  { rewrite endsWithTerminal_app; assumption. }
  assumption.
Qed.

Lemma mockRewritten_plain (originalPrompt : jsstring) (tone type : JsVal) :
  strictEq type (lit "email") = false ->
  endsWithTerminal (mockRewritten originalPrompt tone type) = true.
Proof.
  intros Htype. unfold mockRewritten. rewrite Htype.
  apply toned_endsWithTerminal, punctuated.
Qed.

(** C4, as amended: for every text and tone, and every type other than
    ['email'], the fallback text ends in one of [.], [!], [?]. *)
Theorem mockRewritten_ends_in_terminal_punctuation
    (originalPrompt : jsstring) (tone type : JsVal) :
  strictEq type (lit "email") = false ->
  endsWithTerminal (mockRewritten originalPrompt tone type) = true.
Proof. apply mockRewritten_plain. Qed.

Lemma mockRewritten_ends_in_terminal_punctuation_witness :
  strictEq (JString (lit "report")) (lit "email") = false
  /\ endsWithTerminal
       (mockRewritten (lit "pls send u the file") (JString (lit "friendly"))
          (JString (lit "report"))) = true.
Proof.
  split; [reflexivity|].
  apply (mockRewritten_ends_in_terminal_punctuation
           (lit "pls send u the file") (JString (lit "friendly"))
           (JString (lit "report"))).
  reflexivity.
Defined.

(** C4 as stated fails: with type ['email'] the text ends in the signature
    placeholder, whose last character is a closing bracket. *)
Lemma mockRewritten_email_not_terminal :
  ~ (forall (originalPrompt : jsstring) (tone type : JsVal),
       endsWithTerminal (mockRewritten originalPrompt tone type) = true).
Proof.
  intros H.
  specialize (H (lit "hello") (JString (lit "professional")) (JString (lit "email"))).
  vm_compute in H. discriminate H.
Qed.

(** The fallback text for "hello   world" with the default tone and type. *)
Lemma mockRewritten_hello_world :
  mockRewritten (lit "hello   world") (orDefault JUndefined (lit "professional"))
    (orDefault JUndefined (lit "other"))
  = lit "hello world.".
Proof. vm_compute. reflexivity. Qed.

(** C3 as stated fails: the fallback text for "hello   world" with the
    default tone and type is not "Hello world." *)
Lemma mockRewritten_hello_world_not_capitalised :
  mockRewritten (lit "hello   world") (orDefault JUndefined (lit "professional"))
    (orDefault JUndefined (lit "other"))
  <> lit "Hello world.".
Proof. vm_compute. discriminate. Qed.

(** C10: the fallback returns a result for every text, tone and type, its text
    is never empty, and the empty text with a tone that adds no wrapper and a
    type other than ['email'] gives ".". *)
Theorem getMockResponse_total_nonempty :
  (forall (now : Z) (originalPrompt : jsstring) (tone type : JsVal) (startTime : Z),
      success (getMockResponse now originalPrompt tone type startTime) = true
      /\ rewrittenPrompt (getMockResponse now originalPrompt tone type startTime)
         = Some (mockRewritten originalPrompt tone type)
      /\ mockRewritten originalPrompt tone type ≠ [])
  /\ (forall tone type : JsVal,
        strictEq tone (lit "formal") = false ->
        strictEq tone (lit "friendly") = false ->
        strictEq tone (lit "casual") = false ->
        strictEq type (lit "email") = false ->
        mockRewritten [] tone type = lit ".").
Proof.
  split.
  - intros now originalPrompt tone type startTime.
    split; [reflexivity|]. split; [reflexivity|].
    destruct (strictEq type (lit "email")) eqn:Htype.
    + unfold mockRewritten. rewrite Htype. discriminate.
    + apply endsWithTerminal_nonempty, mockRewritten_plain. exact Htype.
  - intros tone type H1 H2 H3 H4. unfold mockRewritten.
    rewrite H1, H2, H3, H4. reflexivity.
Qed.

Lemma getMockResponse_total_nonempty_witness :
  mockRewritten (lit "  i am here ") (JString (lit "formal")) (JString (lit "email")) ≠ []
  /\ mockRewritten [] (JString (lit "concise")) JNull = lit ".".
Proof.
  destruct getMockResponse_total_nonempty as [Hall Hempty].
  split.
  - apply (Hall 0%Z (lit "  i am here ") (JString (lit "formal"))
             (JString (lit "email")) 0%Z).
  - apply (Hempty (JString (lit "concise")) JNull); reflexivity.
Defined.

End Fallback.

(** ** The AI rewrite client ([GeminiService.rewritePrompt]) *)
Section Client.

Import GeminiService.

(** A key that is missing, empty or does not start with "AIza" leaves the
    service unavailable, whatever the SDK would do. *)
Lemma initializeService_unavailable (key : option jsstring) (sdk : Sdk) :
  match key with
  | None => True
  | Some k => startsWith (lit "AIza") k = false
  end ->
  initializeService key sdk = unavailable.
Proof.
  destruct key as [k|]; [|reflexivity].
  intros Hk. unfold initializeService.
  case_bool_decide; [reflexivity|]. rewrite Hk. reflexivity.
Qed.

(** C5, as amended: when the key is missing or malformed, [rewritePrompt]
    sends nothing to the provider and returns the fallback's output, for the
    prompt and the tone and type of the call (an omitted one standing for its
    default, "professional" and "other"), as a successful result whose
    metadata has model "mock-gemini" and apiCost 0. *)
Theorem rewritePrompt_unconfigured (key : option jsstring) (sdk : Sdk)
    (startTime now : Z) (originalPrompt : jsstring) (tone type : JsVal) :
  match key with
  | None => True
  | Some k => startsWith (lit "AIza") k = false
  end ->
  let run :=
    rewritePrompt (initializeService key sdk) startTime now
      originalPrompt tone type in
  let tone' := orDefault tone (lit "professional") in
  let type' := orDefault type (lit "other") in
  calls run = []
  /\ returned run
     = Some (getMockResponse now originalPrompt tone' type' startTime)
  /\ exists r m,
       returned run = Some r
       /\ success r = true
       /\ rewrittenPrompt r = Some (mockRewritten originalPrompt tone' type')
       /\ metadata r = Some m
       /\ Metadata.model m = lit "mock-gemini"
       /\ Metadata.tone m = tone'
       /\ Metadata.type m = type'
       /\ Metadata.apiCost m = CostNumber 0.
Proof.
  intros Hkey. rewrite (initializeService_unavailable key sdk Hkey).
  cbn. split; [reflexivity|]. split; [reflexivity|].
  eexists _, _. repeat split.
Qed.

Lemma rewritePrompt_unconfigured_witness :
  let run :=
    rewritePrompt
      (initializeService (Some (lit "sk-not-a-gemini-key"))
         {| newClient := true; getGenerativeModel := Some (fun _ => Unsettled) |})
      100 130 (lit "fix this") JUndefined (JString (lit "email")) in
  calls run = []
  /\ returned run
     = Some (getMockResponse 130 (lit "fix this") (JString (lit "professional"))
               (JString (lit "email")) 100).
Proof.
  pose proof (rewritePrompt_unconfigured (Some (lit "sk-not-a-gemini-key"))
                {| newClient := true; getGenerativeModel := Some (fun _ => Unsettled) |}
                100 130 (lit "fix this") JUndefined (JString (lit "email"))) as H.
  destruct H as (Hcalls & Hret & _); [reflexivity|].
  split; assumption.
Defined.

(** C5 as stated fails: the model identifier of the mock result is not
    "mock". *)
Lemma rewritePrompt_unconfigured_model_not_mock :
  Metadata.model <$>
    (returned
       (rewritePrompt
          (initializeService None {| newClient := true; getGenerativeModel := None |})
          0 0 (lit "hello") (JString (lit "professional")) (JString (lit "other")))
     ≫= metadata)
  <> Some (lit "mock").
Proof. vm_compute. discriminate. Qed.

(** The four classes of the [catch] block, by substring of the message. *)
Lemma errorMessage_cases (message : jsstring) :
  errorMessage message =
    if includes (lit "fetch failed") message then
      lit "Network connection failed - check your internet connection"
    else if includes (lit "timeout") message then
      lit "Request timed out - please try again"
    else if includes (lit "API key") message then
      lit "API key is invalid or expired"
    else lit "Failed to rewrite prompt".
Proof. reflexivity. Qed.

(** A call that does not settle within the 30 seconds is reported as a
    timeout. *)
Lemma errorMessage_timeout :
  race Unsettled = Rejected (lit "Request timeout after 30 seconds")
  /\ errorMessage (lit "Request timeout after 30 seconds")
     = lit "Request timed out - please try again".
Proof. split; vm_compute; reflexivity. Qed.

(** C2, as amended: on a configured client, a failed connectivity probe gives
    [success = false] with the fixed message "Failed to connect to Gemini
    API"; a rewrite call that fails after a successful probe gives
    [success = false] with the message of the first class, among network
    ("fetch failed"), timeout ("timeout") and auth ("API key"), whose
    substring the failure message contains, and the unknown message when it
    contains none; a rewrite call that does not settle is such a failure, with
    the timer's message, of the timeout class.  In every case the result
    carries the raw failure message and a fallback that is the mock response
    for the same prompt and the tone and type of the call (an omitted one
    standing for its default). *)
Theorem rewritePrompt_failure (m : Model) (startTime now : Z)
    (originalPrompt : jsstring) (tone type : JsVal) :
  let svc := {| genAI := true; model := Some m |} in
  let run := rewritePrompt svc startTime now originalPrompt tone type in
  let tone' := orDefault tone (lit "professional") in
  let type' := orDefault type (lit "other") in
  let mock := getMockResponse now originalPrompt tone' type' startTime in
  let failed (message details : jsstring) :=
    {| success := false; rewrittenPrompt := None; metadata := None;
       error := Some message; details := Some details;
       fallback := Some mock |} in
  (forall message,
      m probe = Rejected message ->
      returned run
      = Some (failed (lit "Failed to connect to Gemini API") message))
  /\ (forall text message,
        m probe = Fulfilled text ->
        m (rewriteRequest originalPrompt tone' type') = Rejected message ->
        returned run
        = Some (failed
                  (if includes (lit "fetch failed") message then
                     lit "Network connection failed - check your internet connection"
                   else if includes (lit "timeout") message then
                     lit "Request timed out - please try again"
                   else if includes (lit "API key") message then
                     lit "API key is invalid or expired"
                   else lit "Failed to rewrite prompt")
                  message))
  /\ (forall text,
        m probe = Fulfilled text ->
        m (rewriteRequest originalPrompt tone' type') = Unsettled ->
        returned run
        = Some (failed (lit "Request timed out - please try again")
                  (lit "Request timeout after 30 seconds")))
  /\ (forall r,
        returned run = Some r -> success r = false ->
        fallback r = Some mock /\ exists message, details r = Some message).
Proof.
  cbn zeta. unfold rewritePrompt, testConnection. cbn [genAI model returned calls].
  generalize (orDefault tone (lit "professional")) (orDefault type (lit "other")).
  clear tone type. intros tone type.
  split; [|split; [|split]].
  - intros message Hp. rewrite Hp. reflexivity.
  - intros text message Hp Hr. rewrite Hp.
    cbn -[race rewriteRequest getMockResponse errorMessage].
    rewrite Hr. reflexivity.
  - intros text Hp Hr. rewrite Hp.
    cbn -[race rewriteRequest getMockResponse errorMessage].
    rewrite Hr. reflexivity.
  - intros r. destruct (m probe) as [text|message|];
      cbn -[race rewriteRequest getMockResponse errorMessage].
    + destruct (race (m (rewriteRequest originalPrompt tone type)))
        as [text'|message|]; intros [= <-]; cbn; try discriminate.
      intros _. split; [reflexivity|]. eexists; reflexivity.
    + intros [= <-] _. split; [reflexivity|]. eexists; reflexivity.
    + discriminate.
Qed.

Lemma rewritePrompt_failure_witness :
  let m : Model :=
    fun request =>
      if bool_decide (request = probe) then Fulfilled (lit "Hi!") else Unsettled in
  returned
    (rewritePrompt {| genAI := true; model := Some m |} 0 30000
       (lit "hello") (JString (lit "casual")) JUndefined)
  = Some {| success := false; rewrittenPrompt := None; metadata := None;
            error := Some (lit "Request timed out - please try again");
            details := Some (lit "Request timeout after 30 seconds");
            fallback :=
              Some (getMockResponse 30000 (lit "hello") (JString (lit "casual"))
                      (JString (lit "other")) 0) |}.
Proof.
  intros m.
  destruct (rewritePrompt_failure m 0 30000 (lit "hello")
              (JString (lit "casual")) JUndefined)
    as (_ & _ & Htimeout & _).
  apply (Htimeout (lit "Hi!")); vm_compute; reflexivity.
Defined.

(** C2 as stated fails: when the probe fails with "fetch failed", the message
    of the result is not the one that substring matching chooses. *)
Lemma rewritePrompt_probe_failure_not_classified :
  let svc :=
    initializeService (Some (lit "AIzaSyExample"))
      {| newClient := true;
         getGenerativeModel := Some (fun _ => Rejected (lit "fetch failed")) |} in
  exists r,
    returned
      (rewritePrompt svc 0 5 (lit "hello") (JString (lit "professional"))
         (JString (lit "other"))) = Some r
    /\ success r = false
    /\ details r = Some (lit "fetch failed")
    /\ error r = Some (lit "Failed to connect to Gemini API")
    /\ error r <> Some (errorMessage (lit "fetch failed")).
Proof.
  eexists. split; [vm_compute; reflexivity|].
  repeat split. vm_compute. discriminate.
Qed.

End Client.

(** ** The rewrite orchestrator ([POST /rewrite]) *)
Section Orchestrator.

Import Http Routes PromptController.

Lemma length_zero_iff_nil (s : jsstring) :
  (length s =? 0)%nat = true <-> s = [].
Proof.
  rewrite Nat.eqb_eq. split; [apply nil_length_inv | intros ->; reflexivity].
Qed.

(** The first test of the middleware, on a string. *)
Lemma refusedPrompt_string (p : jsstring) :
  negb (truthy (JString p)) || negb (isString (JString p))
  = bool_decide (p = []).
Proof. cbn. destruct (bool_decide (p = [])); reflexivity. Qed.

(** Once its validation is passed, the controller calls the service with the
    trimmed prompt and the resolved tone and type, and its reply, if any, is
    no 400. *)
Lemma rewritePrompt_passes (w : World) (body : RewriteBody) (p : jsstring) :
  Routes.prompt body = JString p ->
  p ≠ [] ->
  trim p ≠ [] ->
  (Z.of_nat (length p) <= 5000)%Z ->
  invoked (rewritePrompt w body)
  = [(trim p, orDefault (Routes.tone body) (lit "professional"),
      orDefault (Routes.type body) (lit "other"))]
  /\ status <$> reply (rewritePrompt w body) ≠ Some 400%Z.
Proof.
  intros Hp Hne Htrim Hlen. unfold rewritePrompt. rewrite Hp.
  cbn [truthy]. rewrite bool_decide_eq_false_2 by assumption. cbn [negb].
  destruct (length (trim p) =? 0)%nat eqn:E.
  { apply length_zero_iff_nil in E. contradiction. }
  replace (5000 <? Z.of_nat (length p))%Z with false by (symmetry; lia).
  repeat match goal with
         | |- context [match ?x with _ => _ end] => destruct x
         end; cbn; (split; [reflexivity | discriminate]).
Qed.

(** The controller's own rejections are 400 replies that call nothing. *)
Lemma rewritePrompt_rejects (w : World) (body : RewriteBody) (p : jsstring) :
  Routes.prompt body = JString p ->
  trim p = [] \/ (5000 < Z.of_nat (length p))%Z ->
  rewritePrompt w body
  = respond w (refuse 400 "Prompt is required"
                 (lit "Please provide a prompt to rewrite"))
  \/ rewritePrompt w body
     = respond w (refuse 400 "Prompt too long"
                    (lit "Prompt must be less than 5000 characters")).
Proof.
  intros Hp Hrej. unfold rewritePrompt. rewrite Hp.
  destruct (negb (truthy (JString p))); [left; reflexivity|].
  destruct (length (trim p) =? 0)%nat eqn:E; [left; reflexivity|].
  right. destruct Hrej as [Ht|Hl].
  - rewrite Ht in E. discriminate E.
  - replace (5000 <? Z.of_nat (length p))%Z with true by (symmetry; lia).
    reflexivity.
Qed.

(** C1, as amended: [POST /rewrite] answers 400 exactly when the prompt is not
    a string, or is empty after trimming, or is longer than 5000 characters
    before trimming, or when the tone or the type is truthy (not [undefined],
    [null], [false], 0 or the empty string) and is not a member of its
    enumeration; a 400 reply calls neither the AI client nor the provider and
    leaves the collection as it was; and a string prompt that is not empty
    after trimming and has at most 5000 characters before trimming passes,
    when the tone and the type are each falsy or a member of their
    enumeration, to the AI client. *)
Theorem postRewrite_rejects_iff (w : World) (body : RewriteBody) :
  let handled := postRewrite w body in
  let rejectedPrompt :=
    match Routes.prompt body with
    | JString p => trim p = [] \/ (5000 < Z.of_nat (length p))%Z
    | _ => True
    end in
  let rejectedTone :=
    truthy (Routes.tone body) = true /\ includesVal validTones (Routes.tone body) = false in
  let rejectedType :=
    truthy (Routes.type body) = true /\ includesVal validTypes (Routes.type body) = false in
  (status <$> reply handled = Some 400%Z
   <-> rejectedPrompt \/ rejectedTone \/ rejectedType)
  /\ (status <$> reply handled = Some 400%Z ->
      invoked handled = [] /\ calls handled = [] /\ store' handled = store w)
  /\ (forall p,
        Routes.prompt body = JString p ->
        trim p ≠ [] ->
        (Z.of_nat (length p) <= 5000)%Z ->
        ~ rejectedTone -> ~ rejectedType ->
        invoked handled
        = [(trim p, orDefault (Routes.tone body) (lit "professional"),
            orDefault (Routes.type body) (lit "other"))]).
Proof.
  cbn zeta. unfold postRewrite, validateRewriteRequest.
  destruct (negb (truthy (Routes.prompt body)) || negb (isString (Routes.prompt body))) eqn:Hprompt.
  { (* the middleware refuses the prompt *)
    assert (Hrej : match Routes.prompt body with
                   | JString p => trim p = [] \/ (5000 < Z.of_nat (length p))%Z
                   | _ => True
                   end).
    { destruct (Routes.prompt body) as [| |b|z|p|]; try exact I.
      rewrite refusedPrompt_string in Hprompt.
      apply bool_decide_eq_true in Hprompt.
      subst p. left. reflexivity. }
    split; [|split].
    - split; [intros _; left; exact Hrej | reflexivity].
    - intros _. repeat split.
    - intros p Hp Htrim _ _ _. rewrite Hp, refusedPrompt_string in Hprompt.
      apply bool_decide_eq_true in Hprompt.
      subst p. contradiction Htrim. reflexivity. }
  destruct (Routes.prompt body) as [| |b|z|p|] eqn:Hp;
    try (destruct b); try discriminate Hprompt.
  { cbn in Hprompt. destruct (z =? 0)%Z; discriminate Hprompt. }
  assert (Hne : p ≠ []).
  { rewrite refusedPrompt_string in Hprompt.
    apply bool_decide_eq_false in Hprompt. exact Hprompt. }
  destruct (truthy (Routes.tone body) && negb (includesVal validTones (Routes.tone body)))
    eqn:Htone.
  { apply andb_true_iff in Htone as [Ht1 Ht2]. apply negb_true_iff in Ht2.
    split; [|split].
    - split; [intros _; right; left; split; assumption | reflexivity].
    - intros _. repeat split.
    - intros ? _ _ _ Hnt _. contradiction Hnt. split; assumption. }
  destruct (truthy (Routes.type body) && negb (includesVal validTypes (Routes.type body)))
    eqn:Htype.
  { apply andb_true_iff in Htype as [Ht1 Ht2]. apply negb_true_iff in Ht2.
    split; [|split].
    - split; [intros _; right; right; split; assumption | reflexivity].
    - intros _. repeat split.
    - intros ? _ _ _ _ Hnt. contradiction Hnt. split; assumption. }
  assert (HnoTone : ~ (truthy (Routes.tone body) = true
                       /\ includesVal validTones (Routes.tone body) = false)).
  { intros [H1 H2]. rewrite H1, H2 in Htone. discriminate Htone. }
  assert (HnoType : ~ (truthy (Routes.type body) = true
                       /\ includesVal validTypes (Routes.type body) = false)).
  { intros [H1 H2]. rewrite H1, H2 in Htype. discriminate Htype. }
  destruct (decide (trim p = [])) as [Htrim|Htrim].
  { destruct (rewritePrompt_rejects w body p Hp (or_introl Htrim)) as [-> | ->];
      (split; [|split]);
      [ split; [intros _; left; left; exact Htrim | reflexivity]
      | intros _; repeat split
      | intros ? [= <-] Hc; contradiction
      | split; [intros _; left; left; exact Htrim | reflexivity]
      | intros _; repeat split
      | intros ? [= <-] Hc; contradiction ]. }
  destruct (decide (5000 < Z.of_nat (length p))%Z) as [Hlong|Hshort].
  { destruct (rewritePrompt_rejects w body p Hp (or_intror Hlong)) as [-> | ->];
      (split; [|split]);
      [ split; [intros _; left; right; exact Hlong | reflexivity]
      | intros _; repeat split
      | intros ? [= <-] _ Hc; lia
      | split; [intros _; left; right; exact Hlong | reflexivity]
      | intros _; repeat split
      | intros ? [= <-] _ Hc; lia ]. }
  destruct (rewritePrompt_passes w body p Hp Hne Htrim ltac:(lia)) as [Hinv Hst].
  split; [|split].
  - split; [intros H; contradiction | ].
    intros [[H|H]|[H|H]]; [contradiction | lia | contradiction | contradiction].
  - intros H. contradiction.
  - intros ? [= <-] _ _ _ _. exact Hinv.
Qed.

Lemma postRewrite_rejects_iff_witness :
  let w := {| service := GeminiService.unavailable; startTime := 0; now := 7;
              store := ∅; newId := 1; today := 0 |} in
  let body := {| prompt := JString (lit "  fix my text  ");
                 Routes.tone := JUndefined; Routes.type := JString (lit "summary");
                 userId := None |} in
  invoked (postRewrite w body)
  = [(lit "fix my text", JString (lit "professional"), JString (lit "summary"))].
Proof.
  intros w body.
  destruct (postRewrite_rejects_iff w body) as (_ & _ & Hpass).
  apply (Hpass (lit "  fix my text  ")).
  - reflexivity.
  - vm_compute. discriminate.
  - vm_compute. discriminate.
  - intros [H _]. vm_compute in H. discriminate H.
  - intros [_ H]. vm_compute in H. discriminate H.
Defined.

(** C1 as stated fails: a prompt of 5000 letters followed by a space has 5000
    characters after trimming, and is rejected with 400. *)
Lemma postRewrite_rejects_untrimmed_length :
  let p := replicate (Z.to_nat 5000) 97 ++ [SPACE] in
  let w := {| service := GeminiService.unavailable; startTime := 0; now := 0;
              store := ∅; newId := 1; today := 0 |} in
  let body := {| prompt := JString p; Routes.tone := JUndefined;
                 Routes.type := JUndefined; userId := None |} in
  trim p ≠ []
  /\ Z.of_nat (length (trim p)) = 5000%Z
  /\ status <$> reply (postRewrite w body) = Some 400%Z.
Proof.
  intros p w body. split; [|split].
  - vm_compute. discriminate.
  - vm_compute. reflexivity.
  - vm_compute. reflexivity.
Qed.

(** C3, as amended: for the prompt "hello   world" with tone and type unset
    and the AI client unconfigured, [POST /rewrite] answers 200 with the
    fallback text "hello world." (white space collapsed, full stop appended,
    first letter left as it is), under the default tone and type, and sends
    nothing to the provider. *)
Theorem postRewrite_hello_world_unconfigured
    (sdk : GeminiService.Sdk) (startTime now : Z)
    (store : gmap PromptModel.ObjectId PromptModel.Doc)
    (newId : PromptModel.ObjectId) (today : Z) :
  let w := {| service := GeminiService.initializeService None sdk;
              startTime := startTime; now := now; store := store;
              newId := newId; today := today |} in
  let body := {| prompt := JString (lit "hello   world");
                 Routes.tone := JUndefined; Routes.type := JUndefined;
                 userId := None |} in
  GeminiService.mockRewritten (lit "hello   world")
    (JString (lit "professional")) (JString (lit "other"))
  = lit "hello world."
  /\ calls (postRewrite w body) = []
  /\ exists data,
       reply (postRewrite w body) = Some (Sent 200 data)
       /\ rewrittenPrompt data = Some (lit "hello world.")
       /\ tone data = JString (lit "professional")
       /\ type data = JString (lit "other").
Proof.
  cbn zeta. split; [exact mockRewritten_hello_world|].
  split; [reflexivity|].
  eexists. split; [reflexivity|].
  split; [|split]; reflexivity.
Qed.

End Orchestrator.

(** ** Persisted records: word counts *)


Section WordCounts.

Import PromptModel.

(** [split(sep)] gives one piece more than there are separators. *)
Lemma length_split (sep : N) (s : jsstring) :
  length (split sep s) = S (length (List.filter (N.eqb sep) s)).
Proof.
  induction s as [|c rest IH]; [reflexivity|].
  cbn [split List.filter]. rewrite (N.eqb_sym sep c).
  destruct (c =? sep).
  - cbn. rewrite IH. reflexivity.
  - destruct (split sep rest); cbn in *; [discriminate IH | exact IH].
Qed.

(** Whatever counts the caller supplies, a saved document carries the counts
    that the pre-save hook computes from its two texts, with [split(' ')]. *)
Lemma save_recomputes_wordCount (store : gmap ObjectId Doc) (id : ObjectId)
    (now : Z) (input : PromptInput) (d : Doc) (saved : gmap ObjectId Doc) :
  save store id now input = inr (d, saved) ->
  saved !! id = Some d
  /\ original (wordCount (metadata d)) = length (split SPACE (originalPrompt d))
  /\ rewritten (wordCount (metadata d)) = length (split SPACE (rewrittenPrompt d)).
Proof.
  unfold save, construct.
  destruct (requiredText None (in_userId input)) as [u|]; [|discriminate].
  destruct (requiredText (Some 5000%Z) (in_originalPrompt input)) as [o|] eqn:Ho;
    [|discriminate].
  destruct (requiredText (Some 10000%Z) (in_rewrittenPrompt input)) as [r|] eqn:Hr;
    [|discriminate].
  destruct (enumText tones (lit "professional") (in_tone input)) as [t1|];
    [|discriminate].
  destruct (enumText types (lit "other") (in_type input)) as [t2|];
    [|discriminate].
  cbn [mbind option_bind].
  destruct (castPath (in_wordCount_original (in_metadata input))); [|discriminate].
  destruct (castPath (in_wordCount_rewritten (in_metadata input))); [|discriminate].
  destruct (castPath (in_processingTime (in_metadata input))); [|discriminate].
  destruct (castPath (in_model (in_metadata input))); [|discriminate].
  destruct (castPath (in_apiCost (in_metadata input))); [|discriminate].
  cbn [mbind option_bind].
  assert (Hone : o ≠ []).
  { unfold requiredText in Ho. destruct (in_originalPrompt input); [|discriminate].
    case_bool_decide; [discriminate|].
    destruct (_ <=? _)%Z; [|discriminate]. injection Ho as <-. assumption. }
  assert (Hrne : r ≠ []).
  { unfold requiredText in Hr. destruct (in_rewrittenPrompt input); [|discriminate].
    case_bool_decide; [discriminate|].
    destruct (_ <=? _)%Z; [|discriminate]. injection Hr as <-. assumption. }
  unfold preSave. cbn [originalPrompt rewrittenPrompt].
  rewrite !bool_decide_eq_false_2 by assumption. cbn [negb andb].
  destruct (store !! id); [discriminate|].
  intros [= <- <-]. split; [apply lookup_insert_eq|].
  split; reflexivity.
Qed.

(** C6, the code at an input where it departs from the claim: saving the
    original text "a  b" (two spaces) through [POST /history] stores the word
    count 3, where the text has 2 white-space separated words. *)
Theorem saveToHistory_wordCount_two_spaces :
  let w := {| PromptController.service := GeminiService.unavailable;
              PromptController.startTime := 0; PromptController.now := 0;
              PromptController.store := ∅; PromptController.newId := 1;
              PromptController.today := 0 |} in
  let body := {| PromptController.h_userId := Some (lit "u1");
                 PromptController.h_originalPrompt := Some (lit "a  b");
                 PromptController.h_rewrittenPrompt := Some (lit "a b");
                 PromptController.h_tone := JUndefined;
                 PromptController.h_type := JUndefined;
                 PromptController.h_metadata := None |} in
  exists d,
    PromptController.reply (PromptController.saveToHistory w body)
    = Some (Http.Sent 201 (1, d))
    /\ PromptController.store' (PromptController.saveToHistory w body) !! 1
       = Some d
    /\ originalPrompt d = lit "a  b"
    /\ original (wordCount (metadata d)) = 3%nat
    /\ Claimed.whitespaceSeparatedWords (originalPrompt d) = 2%nat.
Proof.
  eexists. split; [vm_compute; reflexivity|].
  split; [vm_compute; reflexivity|].
  split; [reflexivity|]. split; reflexivity.
Qed.

End WordCounts.

(** ** The history store: listing, searching, deleting *)
Section History.

Import Http Mongo PromptController.
Import PromptModel(ObjectId, Doc).

(** *** Sorting keeps the documents *)

Lemma insertBy_perm {A} (le : A -> A -> bool) (x : A) (l : list A) :
  insertBy le x l ≡ₚ x :: l.
Proof.
  induction l as [|y l IH]; cbn; [reflexivity|].
  destruct (le x y); [reflexivity|].
  rewrite IH. apply perm_swap.
Qed.

Lemma sortDocs_perm (key : ObjectId * Doc -> SortKey) (direction : Z)
    (l : list (ObjectId * Doc)) :
  sortDocs key direction l ≡ₚ l.
Proof.
  unfold sortDocs. induction l as [|x l IH]; cbn; [reflexivity|].
  rewrite insertBy_perm. rewrite IH. reflexivity.
Qed.

Lemma length_sortDocs (key : ObjectId * Doc -> SortKey) (direction : Z)
    (l : list (ObjectId * Doc)) :
  length (sortDocs key direction l) = length l.
Proof. apply Permutation_length, sortDocs_perm. Qed.

(** *** What a filter selects *)

Lemma elem_of_select (q : Query) (store : gmap ObjectId Doc)
    (id : ObjectId) (d : Doc) :
  (id, d) ∈ select q store <-> store !! id = Some d /\ matches q (id, d) = true.
Proof.
  unfold select. rewrite list_elem_of_In, filter_In, <- list_elem_of_In.
  rewrite elem_of_map_to_list. reflexivity.
Qed.

Lemma select_nil (q : Query) (store : gmap ObjectId Doc) :
  (forall id d, store !! id = Some d -> matches q (id, d) = false) ->
  select q store = [].
Proof.
  intros Hnone. destruct (select q store) as [|[id d] l] eqn:E; [reflexivity|].
  assert (Hin : (id, d) ∈ select q store) by (rewrite E; left).
  apply elem_of_select in Hin as [Hl Hm].
  rewrite (Hnone id d Hl) in Hm. discriminate Hm.
Qed.

Lemma NoDup_select (q : Query) (store : gmap ObjectId Doc) :
  NoDup (select q store).
Proof.
  unfold select. apply NoDup_ListNoDup, List.NoDup_filter, NoDup_ListNoDup.
  apply NoDup_map_to_list.
Qed.

(** The filter as sent differs from the filter as built in the value of
    [userId], which is trimmed. *)
Lemma matches_castFilter (q : Query) (id : ObjectId) (d : Doc) :
  matches (castFilter q) (id, d)
  = holds (q_id q) (fun i => bool_decide (id = i))
    && holds (q_userId q) (fun u => bool_decide (PromptModel.userId d = trim u))
    && holds (q_type q) (fun t => bool_decide (PromptModel.type d = t))
    && holds (q_tone q) (fun t => bool_decide (PromptModel.tone d = t))
    && holds (q_isFavorite q) (fun b => bool_decide (PromptModel.isFavorite d = b))
    && holds (q_or q) (fun matcher =>
         matcher (PromptModel.originalPrompt d)
         || matcher (PromptModel.rewrittenPrompt d)).
Proof.
  unfold matches, castFilter. cbn [q_id q_userId q_type q_tone q_isFavorite q_or].
  destruct (q_userId q); reflexivity.
Qed.

(** *** Patterns without metacharacters *)




Lemma given_nonempty (text : jsstring) :
  text ≠ [] -> given (Some text) = Some text.
Proof.
  intros H. unfold given, nonEmpty.
  rewrite bool_decide_eq_false_2 by assumption. reflexivity.
Qed.

Lemma holds_true {A} (cond : option A) (test : A -> bool) :
  holds cond test = true <-> forall a, cond = Some a -> test a = true.
Proof.
  destruct cond as [a|]; cbn.
  - split; [intros H ? [= <-]; exact H | intros H; apply H; reflexivity].
  - split; [intros _ ? [=] | reflexivity].
Qed.

(** *** Deleting *)

(** C8, as amended: for every stored record X and every non-empty owner
    identifier that, white space at its ends apart, differs from X's userId,
    deleting X's id scoped by that owner answers not-found (404), removes
    nothing, and X stays in the store unchanged. *)
Theorem deleteHistoryItem_owner_mismatch (store : gmap ObjectId Doc)
    (x : ObjectId) (X : Doc) (owner : jsstring) :
  store !! x = Some X ->
  owner ≠ [] ->
  trim owner ≠ PromptModel.userId X ->
  status (fst (deleteHistoryItem store x (Some owner))) = 404%Z
  /\ snd (deleteHistoryItem store x (Some owner)) = store
  /\ snd (deleteHistoryItem store x (Some owner)) !! x = Some X.
Proof.
  intros HX Hne Hother.
  assert (Hnone : select (castFilter (ownedQuery x (Some owner))) store = []).
  { apply select_nil. intros id d Hd. rewrite matches_castFilter.
    unfold ownedQuery. rewrite (given_nonempty owner Hne).
    cbn [q_id q_userId q_type q_tone q_isFavorite q_or holds].
    rewrite !andb_true_r.
    destruct (decide (id = x)) as [->|Hid].
    - rewrite HX in Hd. injection Hd as <-.
      rewrite (bool_decide_eq_false_2 (PromptModel.userId X = trim owner))
        by (intros E; apply Hother; symmetry; exact E).
      rewrite andb_false_r. reflexivity.
    - rewrite (bool_decide_eq_false_2 (id = x)) by assumption. reflexivity. }
  unfold deleteHistoryItem, findOneAndDelete, findOne. rewrite Hnone.
  cbn. repeat split. exact HX.
Qed.

Lemma deleteHistoryItem_owner_mismatch_witness :
  let X := Samples.doc "alice" "abc" "Abc." false 10 in
  let store : gmap ObjectId Doc := {[ 7 := X ]} in
  status (fst (deleteHistoryItem store 7 (Some (lit " bob ")))) = 404%Z
  /\ snd (deleteHistoryItem store 7 (Some (lit " bob "))) = store
  /\ snd (deleteHistoryItem store 7 (Some (lit " bob "))) !! 7 = Some X.
Proof.
  intros X store.
  apply (deleteHistoryItem_owner_mismatch store 7 X (lit " bob ")).
  - reflexivity.
  - vm_compute. discriminate.
  - vm_compute. discriminate.
Defined.

(** C8 as stated fails: the empty owner identifier differs from X's userId,
    and deleting X's id with it removes X. *)
Lemma deleteHistoryItem_empty_owner_deletes :
  let X := Samples.doc "alice" "abc" "Abc." false 10 in
  let store : gmap ObjectId Doc := {[ 7 := X ]} in
  store !! 7 = Some X
  /\ [] ≠ PromptModel.userId X
  /\ status (fst (deleteHistoryItem store 7 (Some []))) = 200%Z
  /\ snd (deleteHistoryItem store 7 (Some [])) !! 7 = None.
Proof.
  intros X store. split; [reflexivity|]. split; [discriminate|].
  split; vm_compute; reflexivity.
Qed.

(** So does an owner identifier that differs from X's userId by white space
    at its ends only: the filter is sent with the trimmed value. *)
Lemma deleteHistoryItem_untrimmed_owner_deletes :
  let X := Samples.doc "alice" "abc" "Abc." false 10 in
  let store : gmap ObjectId Doc := {[ 7 := X ]} in
  store !! 7 = Some X
  /\ lit " alice " ≠ PromptModel.userId X
  /\ status (fst (deleteHistoryItem store 7 (Some (lit " alice ")))) = 200%Z
  /\ snd (deleteHistoryItem store 7 (Some (lit " alice "))) !! 7 = None.
Proof.
  intros X store. split; [reflexivity|]. split; [vm_compute; discriminate|].
  split; vm_compute; reflexivity.
Qed.

(** *** Pagination *)

Lemma window_nonneg {A} (skip limit : Z) (l : list A) :
  (0 <= skip)%Z ->
  window skip limit l
  = Some (if (limit =? 0)%Z then drop (Z.to_nat skip) l
          else take (Z.to_nat (Z.abs limit)) (drop (Z.to_nat skip) l)).
Proof.
  intros H. unfold window.
  replace (skip <? 0)%Z with false by (symmetry; lia). reflexivity.
Qed.

Lemma window_negative {A} (skip limit : Z) (l : list A) :
  (skip < 0)%Z -> window skip limit l = None.
Proof.
  intros H. unfold window.
  replace (skip <? 0)%Z with true by (symmetry; lia). reflexivity.
Qed.

Lemma window_Some {A} (skip limit : Z) (l page : list A) :
  window skip limit l = Some page -> (0 <= skip)%Z.
Proof.
  intros H. destruct (Z.lt_ge_cases skip 0) as [Hneg|Hpos]; [|exact Hpos].
  rewrite window_negative in H by exact Hneg. discriminate H.
Qed.

(** A sort by an embedded field keeps the documents. *)
Lemma sorted_embedded (server : Server) (field : jsstring) (direction : Z)
    (l : list (ObjectId * Doc)) :
  is_Some (sortKey field) ->
  exists ordered,
    sorted server field direction l = Some ordered /\ ordered ≡ₚ l.
Proof.
  intros [key Hkey]. unfold sorted. rewrite Hkey.
  eexists. split; [reflexivity | apply sortDocs_perm].
Qed.

(** A sort keeps the documents, by an embedded field or by a server that
    keeps them. *)
Lemma sorted_perm (server : Server) (field : jsstring) (direction : Z)
    (l ordered : list (ObjectId * Doc)) :
  is_Some (sortKey field) \/ sortKeeps server ->
  sorted server field direction l = Some ordered -> ordered ≡ₚ l.
Proof.
  intros Hkeeps. unfold sorted.
  destruct (sortKey field) as [key|] eqn:Hkey.
  - intros [= <-]. apply sortDocs_perm.
  - destruct Hkeeps as [[key H]|Hkeeps]; [discriminate H|]. apply Hkeeps.
Qed.

(** What [find] returns, and when it fails. *)
Lemma find_Some (server : Server) (q : Query) (field : jsstring)
    (direction skip limit : Z) (store : gmap ObjectId Doc)
    (page : list (ObjectId * Doc)) :
  find server q field direction skip limit store = Some page <->
  exists ordered,
    sorted server field direction (select (castFilter q) store) = Some ordered
    /\ window skip limit ordered = Some page.
Proof.
  unfold find.
  destruct (sorted server field direction (select (castFilter q) store))
    as [ordered|]; cbn [mbind option_bind].
  - split; [intros H; exists ordered; split; [reflexivity | exact H]|].
    intros (ordered' & [= <-] & H). exact H.
  - split; [discriminate|]. intros (ordered' & H & _). discriminate H.
Qed.

Lemma find_None (server : Server) (q : Query) (field : jsstring)
    (direction skip limit : Z) (store : gmap ObjectId Doc) :
  find server q field direction skip limit store = None <->
  (skip < 0)%Z
  \/ sorted server field direction (select (castFilter q) store) = None.
Proof.
  unfold find.
  destruct (sorted server field direction (select (castFilter q) store))
    as [ordered|]; cbn [mbind option_bind].
  - split.
    + intros H. left. destruct (Z.lt_ge_cases skip 0) as [Hneg|Hpos]; [exact Hneg|].
      rewrite window_nonneg in H by exact Hpos. discriminate H.
    + intros [Hneg|H]; [apply window_negative, Hneg | discriminate H].
  - split; [intros _; right; reflexivity | reflexivity].
Qed.

(** What a success reply of the common listing code holds. *)
Lemma listPage_sent (server : Server) (store : gmap ObjectId Doc)
    (query : option Query) (page limit : Z) (sortBy sortOrder : jsstring)
    (st : Z) (data : ListData) :
  listPage server store query page limit sortBy sortOrder = Sent st data ->
  st = 200%Z
  /\ exists query',
       query = Some query'
       /\ find server query' sortBy
            (if bool_decide (sortOrder = lit "desc") then (-1)%Z else 1%Z)
            ((page - 1) * limit) limit store = Some (prompts data)
       /\ totalItems (pagination data) = countDocuments query' store
       /\ hasNext (pagination data)
          = ((page - 1) * limit + Z.of_nat (length (prompts data))
             <? Z.of_nat (totalItems (pagination data)))%Z.
Proof.
  unfold listPage. destruct query as [query'|]; [|discriminate].
  cbn [mbind option_bind].
  destruct (find server query' sortBy _ ((page - 1) * limit) limit store)
    as [found|] eqn:E; cbn [mbind option_bind]; [|discriminate].
  intros [= <- <-]. split; [reflexivity|]. exists query'.
  split; [reflexivity|]. split; [exact E|]. split; reflexivity.
Qed.

(** An error reply of the common listing code is a 500, for an error of the
    server. *)
Lemma listPage_refused (server : Server) (store : gmap ObjectId Doc)
    (query : option Query) (page limit : Z) (sortBy sortOrder : jsstring)
    (st : Z) (body : ErrorBody) :
  listPage server store query page limit sortBy sortOrder = Refused st body ->
  st = 500%Z
  /\ (query = None
      \/ exists query',
           query = Some query'
           /\ find server query' sortBy
                (if bool_decide (sortOrder = lit "desc") then (-1)%Z else 1%Z)
                ((page - 1) * limit) limit store = None).
Proof.
  unfold listPage. destruct query as [query'|]; cbn [mbind option_bind].
  - destruct (find server query' sortBy _ ((page - 1) * limit) limit store)
      as [found|] eqn:E; cbn [mbind option_bind]; [discriminate|].
    intros [= <- _]. split; [reflexivity|]. right. exists query'.
    split; [reflexivity | exact E].
  - intros [= <- _]. split; [reflexivity|]. left. reflexivity.
Qed.

(** The common listing code answers 200 when the server accepts the sort and
    the number of records to skip is not negative. *)
Lemma listPage_returns (server : Server) (store : gmap ObjectId Doc)
    (query : Query) (page limit : Z) (sortBy sortOrder : jsstring) :
  is_Some (sorted server sortBy
             (if bool_decide (sortOrder = lit "desc") then (-1)%Z else 1%Z)
             (select (castFilter query) store)) ->
  (0 <= (page - 1) * limit)%Z ->
  exists data,
    listPage server store (Some query) page limit sortBy sortOrder
    = Sent 200 data.
Proof.
  intros [ordered Hordered] Hskip. unfold listPage, find.
  cbn [mbind option_bind]. rewrite Hordered. cbn [mbind option_bind].
  rewrite window_nonneg by assumption. cbn [mbind option_bind].
  eexists. reflexivity.
Qed.

Lemma listPage_negative_skip (server : Server) (store : gmap ObjectId Doc)
    (query : option Query) (page limit : Z) (sortBy sortOrder : jsstring) :
  ((page - 1) * limit < 0)%Z ->
  status (listPage server store query page limit sortBy sortOrder) = 500%Z.
Proof.
  intros Hskip.
  destruct (listPage server store query page limit sortBy sortOrder)
    as [st data|st body] eqn:E.
  - apply listPage_sent in E as (_ & query' & _ & Hfind & _).
    apply find_Some in Hfind as (ordered & _ & Hwindow).
    apply window_Some in Hwindow. lia.
  - apply listPage_refused in E as [-> _]. reflexivity.
Qed.

(** C9: [getHistory] and [getFavorites] compute skip = (page-1)*size, and
    every success reply, for every filter, sort field and server, is a 200
    with hasNext = (skip + returnedCount < totalCount), where the returned
    records are the page slice of the sorted matching records and totalCount
    is the number of matching records; any other reply is a 500, given when
    skip is negative or the server rejects the pattern or the sort. *)
Theorem list_hasNext (server : Server) (store : gmap ObjectId Doc)
    (userId : jsstring) (q : ListQuery) :
  let page := default 1%Z (page q) in
  let size := default 20%Z (limit q) in
  let skip := ((page - 1) * size)%Z in
  let sortField := default (lit "timestamp") (sortBy q) in
  let direction :=
    if bool_decide (default (lit "desc") (sortOrder q) = lit "desc")
    then (-1)%Z else 1%Z in
  let listed (reply : Reply ListData) (query : option Query) :=
    match reply with
    | Sent st data =>
        st = 200%Z
        /\ hasNext (pagination data)
           = (skip + Z.of_nat (length (prompts data))
              <? Z.of_nat (totalItems (pagination data)))%Z
        /\ (0 <= skip)%Z
        /\ exists query' ordered,
             query = Some query'
             /\ totalItems (pagination data)
                = length (select (castFilter query') store)
             /\ sorted server sortField direction
                  (select (castFilter query') store) = Some ordered
             /\ window skip size ordered = Some (prompts data)
    | Refused st _ =>
        st = 500%Z
        /\ (query = None
            \/ (skip < 0)%Z
            \/ exists query',
                 query = Some query'
                 /\ sorted server sortField direction
                      (select (castFilter query') store) = None)
    end in
  listed (getHistory server store userId q) (historyQuery server userId q)
  /\ listed (getFavorites server store userId q)
       (Some (favoritesQuery userId)).
Proof.
  cbn zeta.
  assert (Hlisted : forall query,
    match listPage server store query (default 1%Z (page q))
            (default 20%Z (limit q)) (default (lit "timestamp") (sortBy q))
            (default (lit "desc") (sortOrder q)) with
    | Sent st data =>
        st = 200%Z
        /\ hasNext (pagination data)
           = ((default 1%Z (page q) - 1) * default 20%Z (limit q)
              + Z.of_nat (length (prompts data))
              <? Z.of_nat (totalItems (pagination data)))%Z
        /\ (0 <= (default 1%Z (page q) - 1) * default 20%Z (limit q))%Z
        /\ exists query' ordered,
             query = Some query'
             /\ totalItems (pagination data)
                = length (select (castFilter query') store)
             /\ sorted server (default (lit "timestamp") (sortBy q))
                  (if bool_decide (default (lit "desc") (sortOrder q) = lit "desc")
                   then (-1)%Z else 1%Z)
                  (select (castFilter query') store) = Some ordered
             /\ window ((default 1%Z (page q) - 1) * default 20%Z (limit q))
                  (default 20%Z (limit q)) ordered = Some (prompts data)
    | Refused st _ =>
        st = 500%Z
        /\ (query = None
            \/ ((default 1%Z (page q) - 1) * default 20%Z (limit q) < 0)%Z
            \/ exists query',
                 query = Some query'
                 /\ sorted server (default (lit "timestamp") (sortBy q))
                      (if bool_decide (default (lit "desc") (sortOrder q) = lit "desc")
                       then (-1)%Z else 1%Z)
                      (select (castFilter query') store) = None)
    end).
  { intros query.
    destruct (listPage server store query _ _ _ _) as [st data|st body] eqn:E.
    - apply listPage_sent in E as (-> & query' & -> & Hfind & Htotal & Hnext).
      apply find_Some in Hfind as (ordered & Hordered & Hwindow).
      split; [reflexivity|]. split; [exact Hnext|].
      split; [exact (window_Some _ _ _ _ Hwindow)|].
      exists query', ordered. repeat split; assumption.
    - apply listPage_refused in E as (-> & [->|(query' & -> & Hfind)]).
      + split; [reflexivity|]. left. reflexivity.
      + split; [reflexivity|]. right.
        apply find_None in Hfind as [Hneg|Hsort]; [left; exact Hneg|].
        right. exists query'. split; [reflexivity | exact Hsort]. }
  split; [unfold getHistory | unfold getFavorites]; apply Hlisted.
Qed.

(** With a positive page number and page size, and a sort that keeps the
    documents, hasNext says that matching records remain after this page. *)
Lemma hasNext_more_records (server : Server) (store : gmap ObjectId Doc)
    (query : Query) (page limit : Z) (sortBy sortOrder : jsstring)
    (data : ListData) :
  (1 <= page)%Z -> (1 <= limit)%Z ->
  is_Some (sortKey sortBy) \/ sortKeeps server ->
  listPage server store (Some query) page limit sortBy sortOrder
  = Sent 200 data ->
  hasNext (pagination data)
  = (page * limit <? Z.of_nat (countDocuments query store))%Z.
Proof.
  intros Hpage Hlimit Hkey H.
  apply listPage_sent in H as (_ & query' & [= <-] & Hfind & Htotal & Hnext).
  rewrite Hnext, Htotal.
  apply find_Some in Hfind as (ordered & Hordered & Hwindow).
  pose proof (sorted_perm _ _ _ _ _ Hkey Hordered) as Hperm.
  rewrite window_nonneg in Hwindow by nia.
  replace (limit =? 0)%Z with false in Hwindow by (symmetry; lia).
  injection Hwindow as Hwindow. rewrite <- Hwindow.
  rewrite length_take, length_drop, (Permutation_length Hperm).
  unfold countDocuments.
  destruct (page * limit <? Z.of_nat (length (select (castFilter query) store)))%Z
    eqn:E.
  - apply Z.ltb_lt in E. apply Z.ltb_lt. nia.
  - apply Z.ltb_ge in E. apply Z.ltb_ge. nia.
Qed.

Lemma list_hasNext_witness :
  let q := Samples.listQuery 1 1 None in
  exists data,
    getFavorites Samples.server Samples.collection (lit "alice") q
    = Sent 200 data
    /\ hasNext (pagination data)
       = ((1 - 1) * 1 + Z.of_nat (length (prompts data))
          <? Z.of_nat (totalItems (pagination data)))%Z
    /\ hasNext (pagination data) = true.
Proof.
  intros q.
  destruct (list_hasNext Samples.server Samples.collection (lit "alice") q)
    as [_ Hfavorites].
  destruct (getFavorites Samples.server Samples.collection (lit "alice") q)
    as [st data|st body] eqn:E.
  - destruct Hfavorites as (-> & Hnext & _).
    exists data. split; [reflexivity|]. split; [exact Hnext|].
    vm_compute in E. injection E as <-. reflexivity.
  - vm_compute in E. discriminate E.
Defined.

(** *** Searching *)




End History.

(** ** Trimming and white space *)
Section TextFacts.

Import Shapes.

Lemma trimStart_decompose (s : jsstring) :
  exists p, s = p ++ trimStart s /\ forallb isWhiteSpace p = true.
Proof.
  induction s as [|c rest (p & Hp & Hws)]; [exists []; split; reflexivity|].
  cbn [trimStart]. destruct (isWhiteSpace c) eqn:Hc.
  - exists (c :: p). cbn. rewrite Hc, Hws. split; [f_equal; exact Hp | reflexivity].
  - exists []. split; reflexivity.
Qed.

Lemma startsClean_trimStart (s : jsstring) : startsClean (trimStart s) = true.
Proof.
  induction s as [|c rest IH]; [reflexivity|].
  cbn [trimStart]. destruct (isWhiteSpace c) eqn:Hc; [exact IH|].
  cbn. rewrite Hc. reflexivity.
Qed.

Lemma trimStart_clean (s : jsstring) : startsClean s = true -> trimStart s = s.
Proof.
  destruct s as [|c rest]; [reflexivity|]. cbn.
  destruct (isWhiteSpace c); [discriminate | reflexivity].
Qed.

Lemma trimStart_snoc (l : jsstring) (c : N) :
  isWhiteSpace c = false -> trimStart (l ++ [c]) = trimStart l ++ [c].
Proof.
  intros Hc. induction l as [|d l IH]; cbn.
  - rewrite Hc. reflexivity.
  - destruct (isWhiteSpace d); [exact IH | reflexivity].
Qed.

Lemma endsClean_trimEnd (s : jsstring) : endsClean (trimEnd s) = true.
Proof.
  unfold endsClean, trimEnd. rewrite last_reverse.
  pose proof (startsClean_trimStart (reverse s)) as H.
  destruct (trimStart (reverse s)); [reflexivity | exact H].
Qed.

Lemma trimEnd_clean (s : jsstring) : endsClean s = true -> trimEnd s = s.
Proof.
  intros H. unfold trimEnd. rewrite trimStart_clean, reverse_involutive; [reflexivity|].
  unfold endsClean in H. rewrite <- head_reverse in H.
  destruct (reverse s); [reflexivity | exact H].
Qed.

Lemma startsClean_trimEnd (s : jsstring) :
  startsClean s = true -> startsClean (trimEnd s) = true.
Proof.
  destruct s as [|c rest]; [reflexivity|]. intros Hc. cbn in Hc.
  apply negb_true_iff in Hc. unfold trimEnd.
  rewrite reverse_cons, trimStart_snoc by exact Hc.
  rewrite reverse_app. cbn. rewrite Hc. reflexivity.
Qed.

Lemma trimEnd_decompose (s : jsstring) :
  exists q, s = trimEnd s ++ q /\ forallb isWhiteSpace q = true.
Proof.
  destruct (trimStart_decompose (reverse s)) as (p & Hp & Hws).
  exists (reverse p). split.
  - unfold trimEnd. rewrite <- reverse_app, <- Hp, reverse_involutive. reflexivity.
  - rewrite forallb_forall in *. intros x Hx. apply Hws.
    apply list_elem_of_In. apply list_elem_of_In in Hx.
    apply elem_of_reverse. exact Hx.
Qed.

Lemma startsClean_trim (s : jsstring) : startsClean (trim s) = true.
Proof. apply startsClean_trimEnd, startsClean_trimStart. Qed.

Lemma endsClean_trim (s : jsstring) : endsClean (trim s) = true.
Proof. apply endsClean_trimEnd. Qed.

(** Trimming a trimmed text changes nothing. *)
Lemma trim_idempotent (s : jsstring) : trim (trim s) = trim s.
Proof.
  unfold trim at 1. rewrite (trimStart_clean (trim s)) by apply startsClean_trim.
  apply trimEnd_clean, endsClean_trim.
Qed.

Lemma trim_length (s : jsstring) : (length (trim s) <= length s)%nat.
Proof.
  destruct (trimStart_decompose s) as (p & Hp & _).
  destruct (trimEnd_decompose (trimStart s)) as (q & Hq & _).
  unfold trim. rewrite Hp at 2. rewrite Hq at 2.
  rewrite !length_app. lia.
Qed.

(** *** Single spacing *)

Lemma singleSpaced_weaken (b : bool) (s : jsstring) :
  singleSpaced b s = true -> singleSpaced false s = true.
Proof.
  destruct s as [|c rest]; [reflexivity|]. cbn.
  destruct (isWhiteSpace c); [|tauto].
  destruct b; cbn; [rewrite andb_false_r; discriminate | tauto].
Qed.

Lemma singleSpaced_clean (b : bool) (s : jsstring) :
  startsClean s = true -> singleSpaced b s = singleSpaced false s.
Proof.
  destruct s as [|c rest]; [reflexivity|]. cbn.
  destruct (isWhiteSpace c); [discriminate | reflexivity].
Qed.

Lemma singleSpaced_app (b : bool) (p q : jsstring) :
  singleSpaced b (p ++ q) = singleSpaced b p && singleSpaced (spaceAtEnd b p) q.
Proof.
  revert b. induction p as [|c p IH]; intros b; [reflexivity|].
  assert (Hlast : spaceAtEnd b (c :: p) = spaceAtEnd (isWhiteSpace c) p).
  { unfold spaceAtEnd. destruct p as [|d p']; [reflexivity|].
    rewrite last_cons_cons. destruct (last (d :: p')) eqn:E; [reflexivity|].
    apply last_None in E. discriminate E. }
  rewrite Hlast. cbn [app singleSpaced].
  destruct (isWhiteSpace c) eqn:Hc.
  - rewrite IH. rewrite !andb_assoc. reflexivity.
  - rewrite IH. reflexivity.
Qed.

Lemma singleSpaced_collapse (b : bool) (s : jsstring) :
  singleSpaced b (collapseWhiteSpace b s) = true.
Proof.
  revert b. induction s as [|c rest IH]; intros b; [reflexivity|].
  cbn [collapseWhiteSpace]. destruct (isWhiteSpace c) eqn:Hc.
  - destruct b; [apply IH|]. cbn. apply IH.
  - cbn. rewrite Hc. apply IH.
Qed.

Lemma singleSpaced_trim (s : jsstring) :
  singleSpaced false s = true -> singleSpaced false (trim s) = true.
Proof.
  intros H.
  destruct (trimStart_decompose s) as (p & Hp & _).
  destruct (trimEnd_decompose (trimStart s)) as (q & Hq & _).
  rewrite Hp, singleSpaced_app in H. apply andb_true_iff in H as [_ H].
  apply singleSpaced_weaken in H.
  rewrite Hq, singleSpaced_app in H. apply andb_true_iff in H as [H _].
  exact H.
Qed.

End TextFacts.

(** ** The fallback transform: spacing *)
Section FallbackSpacing.

Import Shapes GeminiService.

Lemma tidy_spec (s : jsstring) :
  tidy s = true <->
  singleSpaced false s = true /\ startsClean s = true
  /\ endsClean s = true /\ s ≠ [].
Proof.
  unfold tidy. rewrite !andb_true_iff, negb_true_iff, bool_decide_eq_false.
  tauto.
Qed.

Lemma tidy_prefix (P b : jsstring) :
  tidy P = true \/ (singleSpaced false P = true /\ startsClean P = true /\ P ≠ []) ->
  tidy b = true -> tidy (P ++ b) = true.
Proof.
  intros HP Hb. apply tidy_spec in Hb as (Hs & Hc & He & Hne).
  assert (HP' : singleSpaced false P = true /\ startsClean P = true /\ P ≠ []).
  { destruct HP as [HP|HP]; [|exact HP].
    apply tidy_spec in HP. tauto. }
  destruct HP' as (HPs & HPc & HPne).
  apply tidy_spec. split; [|split; [|split]].
  - rewrite singleSpaced_app, HPs, (singleSpaced_clean _ b Hc). exact Hs.
  - destruct P; [contradiction | exact HPc].
  - unfold endsClean in *. rewrite last_app.
    destruct (last b) eqn:E; [exact He|]. apply last_None in E. contradiction.
  - intros E. apply app_eq_nil in E as [_ E]. contradiction.
Qed.

Lemma tidy_suffix (b Q : jsstring) :
  tidy b = true ->
  singleSpaced false Q = true -> endsClean Q = true -> Q ≠ [] ->
  tidy (b ++ Q) = true.
Proof.
  intros Hb HQs HQe HQne. apply tidy_spec in Hb as (Hs & Hc & He & Hne).
  apply tidy_spec. split; [|split; [|split]].
  - rewrite singleSpaced_app, Hs. cbn [andb].
    replace (spaceAtEnd false b) with false; [exact HQs|].
    unfold spaceAtEnd, endsClean in *. destruct (last b) eqn:E.
    + apply negb_true_iff in He. symmetry. exact He.
    + reflexivity.
  - destruct b; [contradiction | exact Hc].
  - unfold endsClean in *. rewrite last_app.
    destruct (last Q) eqn:E; [exact HQe|]. apply last_None in E. contradiction.
  - intros E. apply app_eq_nil in E as [E _]. contradiction.
Qed.

(** The text after the basic improvements and the punctuation step. *)
Lemma tidy_punctuated (s : jsstring) :
  let b := trim (collapseWhiteSpace false s) in
  tidy (if negb (endsWithTerminal b) then b ++ lit "." else b) = true.
Proof.
  intros b.
  assert (Hs : singleSpaced false b = true)
    by apply singleSpaced_trim, singleSpaced_collapse.
  assert (Hc : startsClean b = true) by apply startsClean_trim.
  assert (He : endsClean b = true) by apply endsClean_trim.
  destruct (endsWithTerminal b) eqn:Ht; cbn [negb].
  - apply tidy_spec. repeat split; try assumption.
    intros E. rewrite E in Ht. discriminate Ht.
  - destruct b as [|c b'] eqn:Eb; [reflexivity|].
    apply tidy_suffix; [|reflexivity|reflexivity|discriminate].
    apply tidy_spec. repeat split; try assumption. discriminate.
Qed.

(** X1: for every text and tone and every type other than ['email'], the
    fallback text is single spaced: each of its white-space characters is a
    space that does not follow another one, and it neither begins nor ends
    with white space. *)
Theorem mockRewritten_single_spaced
    (originalPrompt : jsstring) (tone type : JsVal) :
  strictEq type (lit "email") = false ->
  singleSpaced false (mockRewritten originalPrompt tone type) = true
  /\ startsClean (mockRewritten originalPrompt tone type) = true
  /\ endsClean (mockRewritten originalPrompt tone type) = true.
Proof.
  intros Htype.
  enough (H : tidy (mockRewritten originalPrompt tone type) = true)
    by (apply tidy_spec in H; tauto).
  unfold mockRewritten. rewrite Htype.
  pose proof (tidy_punctuated
                (replaceWholeWord 117 (lit "you") None
                   (replaceWholeWord 105 (lit "I") None originalPrompt))) as Hb.
  cbn zeta in Hb.
  destruct (strictEq tone (lit "formal")).
  { apply tidy_prefix; [right; repeat split; discriminate | exact Hb]. }
  destruct (strictEq tone (lit "friendly")).
  { apply tidy_prefix; [right; repeat split; discriminate|].
    apply tidy_suffix; [exact Hb | reflexivity | reflexivity | discriminate]. }
  destruct (strictEq tone (lit "casual")).
  { apply tidy_prefix; [right; repeat split; discriminate | exact Hb]. }
  exact Hb.
Qed.

Lemma mockRewritten_single_spaced_witness :
  singleSpaced false
    (mockRewritten [9; 105; 32; 32; 10; 117; 32] (JString (lit "friendly"))
       (JString (lit "message"))) = true.
Proof.
  apply (mockRewritten_single_spaced [9; 105; 32; 32; 10; 117; 32]
           (JString (lit "friendly")) (JString (lit "message"))).
  reflexivity.
Defined.

End FallbackSpacing.

(** ** Persisting a record *)
Section Persistence.

Import PromptModel.

Lemma requiredText_Some (maxlength : option Z) (v : option jsstring)
    (s : jsstring) :
  requiredText maxlength v = Some s <->
  exists raw,
    v = Some raw /\ s = trim raw /\ s ≠ []
    /\ match maxlength with
       | Some n => (Z.of_nat (length s) <= n)%Z
       | None => True
       end.
Proof.
  unfold requiredText. destruct v as [raw|].
  - case_bool_decide as Hne.
    + split; [discriminate|]. intros (raw' & [= <-] & -> & Hs & _). contradiction.
    + destruct maxlength as [n|].
      * destruct (Z.of_nat (length (trim raw)) <=? n)%Z eqn:E.
        -- apply Z.leb_le in E. split.
           ++ intros [= <-]. exists raw. repeat split; assumption.
           ++ intros (raw' & [= <-] & -> & _). reflexivity.
        -- apply Z.leb_gt in E. split; [discriminate|].
           intros (raw' & [= <-] & -> & _ & Hle). lia.
      * split.
        -- intros [= <-]. exists raw. repeat split; assumption.
        -- intros (raw' & [= <-] & -> & _). reflexivity.
  - split; [discriminate|]. intros (raw & Hraw & _). discriminate Hraw.
Qed.

Lemma enumText_Some (members : list jsstring) (dflt : jsstring) (v : JsVal)
    (s : jsstring) :
  enumText members dflt v = Some s <->
  (v = JUndefined /\ s = dflt) \/ (v = JString s /\ s ∈ members).
Proof.
  unfold enumText. destruct v as [| |b|z|t|]; try (split; [discriminate|];
    intros [[H _]|[H _]]; discriminate H).
  - split; [intros [= <-]; left; split; reflexivity|].
    intros [[_ ->]|[H _]]; [reflexivity | discriminate H].
  - case_bool_decide as Hin.
    + split; [intros [= <-]; right; split; [reflexivity | exact Hin]|].
      intros [[H _]|[[= ->] _]]; [discriminate H | reflexivity].
    + split; [discriminate|].
      intros [[H _]|[[= ->] Hs]]; [discriminate H | contradiction].
Qed.

(** The pre-save hook changes the word counts only. *)
Lemma preSave_fields (d : Doc) :
  userId (preSave d) = userId d
  /\ originalPrompt (preSave d) = originalPrompt d
  /\ rewrittenPrompt (preSave d) = rewrittenPrompt d
  /\ tone (preSave d) = tone d
  /\ type (preSave d) = type d
  /\ isFavorite (preSave d) = isFavorite d
  /\ timestamp (preSave d) = timestamp d
  /\ createdAt (preSave d) = createdAt d
  /\ updatedAt (preSave d) = updatedAt d
  /\ processingTime (metadata (preSave d)) = processingTime (metadata d)
  /\ model (metadata (preSave d)) = model (metadata d)
  /\ apiCost (metadata (preSave d)) = apiCost (metadata d).
Proof.
  unfold preSave. destruct (_ && _); repeat split.
Qed.

(** What a successful [save] is made of. *)
Lemma save_inr (store : gmap ObjectId Doc) (id : ObjectId) (now : Z)
    (input : PromptInput) (d : Doc) (saved : gmap ObjectId Doc) :
  save store id now input = inr (d, saved) <->
  exists pre,
    construct now input = Some pre /\ d = preSave pre
    /\ store !! id = None /\ saved = <[id := d]> store.
Proof.
  unfold save. destruct (construct now input) as [pre|].
  - destruct (store !! id) eqn:E.
    + split; [discriminate|]. intros (pre' & _ & _ & H & _). discriminate H.
    + split.
      * intros [= <- <-]. exists pre. repeat split.
      * intros (pre' & [= <-] & -> & _ & ->). reflexivity.
  - split; [discriminate|]. intros (pre & H & _). discriminate H.
Qed.

Lemma construct_Some (now : Z) (input : PromptInput) (pre : Doc) :
  construct now input = Some pre ->
  requiredText None (in_userId input) = Some (userId pre)
  /\ requiredText (Some 5000%Z) (in_originalPrompt input) = Some (originalPrompt pre)
  /\ requiredText (Some 10000%Z) (in_rewrittenPrompt input) = Some (rewrittenPrompt pre)
  /\ enumText tones (lit "professional") (in_tone input) = Some (tone pre)
  /\ enumText types (lit "other") (in_type input) = Some (type pre)
  /\ isFavorite pre = false
  /\ timestamp pre = now.
Proof.
  unfold construct.
  destruct (requiredText None (in_userId input)) as [u|]; [|discriminate].
  destruct (requiredText (Some 5000%Z) (in_originalPrompt input)) as [o|];
    [|discriminate].
  destruct (requiredText (Some 10000%Z) (in_rewrittenPrompt input)) as [r|];
    [|discriminate].
  destruct (enumText tones (lit "professional") (in_tone input)) as [t1|];
    [|discriminate].
  destruct (enumText types (lit "other") (in_type input)) as [t2|];
    [|discriminate].
  cbn [mbind option_bind].
  destruct (castPath (in_wordCount_original (in_metadata input))); [|discriminate].
  destruct (castPath (in_wordCount_rewritten (in_metadata input))); [|discriminate].
  destruct (castPath (in_processingTime (in_metadata input))); [|discriminate].
  destruct (castPath (in_model (in_metadata input))); [|discriminate].
  destruct (castPath (in_apiCost (in_metadata input))); [|discriminate].
  cbn [mbind option_bind]. intros [= <-]. repeat split.
Qed.



Lemma enumText_member (members : list jsstring) (dflt : jsstring) (v : JsVal)
    (s : jsstring) :
  dflt ∈ members -> enumText members dflt v = Some s -> s ∈ members.
Proof.
  intros Hd [[_ ->]|[_ H]]%enumText_Some; assumption.
Qed.

Lemma professional_in_tones : lit "professional" ∈ tones.
Proof. apply (bool_decide_unpack _). vm_compute. exact I. Qed.

Lemma other_in_types : lit "other" ∈ types.
Proof. apply (bool_decide_unpack _). vm_compute. exact I. Qed.

(** X2: every document that [new Prompt(input).save()] stores, that is every
    newly created record, satisfies the schema: its userId and its two texts
    are trimmed and not empty, the original text has at most 5000 and the
    rewritten text at most 10000 characters, its tone and type are members of
    their enumerations, and it is no favourite; it is stored under an [_id]
    that was free. *)
Theorem save_schema_invariants (store : gmap ObjectId Doc) (id : ObjectId)
    (now : Z) (input : PromptInput) (d : Doc) (saved : gmap ObjectId Doc) :
  save store id now input = inr (d, saved) ->
  (userId d ≠ [] /\ trim (userId d) = userId d)
  /\ (originalPrompt d ≠ [] /\ trim (originalPrompt d) = originalPrompt d
      /\ (Z.of_nat (length (originalPrompt d)) <= 5000)%Z)
  /\ (rewrittenPrompt d ≠ [] /\ trim (rewrittenPrompt d) = rewrittenPrompt d
      /\ (Z.of_nat (length (rewrittenPrompt d)) <= 10000)%Z)
  /\ tone d ∈ tones
  /\ type d ∈ types
  /\ isFavorite d = false
  /\ store !! id = None
  /\ saved = <[id := d]> store.
Proof.
  intros (pre & Hpre & -> & Hfree & ->)%save_inr.
  apply construct_Some in Hpre as (Hu & Ho & Hr & Ht1 & Ht2 & Hfav & _).
  destruct (preSave_fields pre)
    as (-> & -> & -> & -> & -> & -> & _).
  apply requiredText_Some in Hu as (u & _ & Hu & Hune & _).
  apply requiredText_Some in Ho as (o & _ & Ho & Hone & Hole).
  apply requiredText_Some in Hr as (r & _ & Hr & Hrne & Hrle).
  repeat split; try assumption.
  - rewrite Hu. apply trim_idempotent.
  - rewrite Ho. apply trim_idempotent.
  - rewrite Hr. apply trim_idempotent.
  - exact (enumText_member _ _ _ _ professional_in_tones Ht1).
  - exact (enumText_member _ _ _ _ other_in_types Ht2).
Qed.

Lemma save_schema_invariants_witness :
  let input :=
    {| in_userId := Some (lit " u1 ");
       in_originalPrompt := Some (lit "  pls fix  ");
       in_rewrittenPrompt := Some (lit "Please fix.");
       in_tone := JString (lit "casual");
       in_type := JUndefined;
       in_metadata := noMetadata |} in
  match save ∅ 5 0 input with
  | inr (d, saved) =>
      userId d = lit "u1" /\ trim (originalPrompt d) = originalPrompt d
      /\ tone d ∈ tones /\ type d ∈ types
  | inl _ => False
  end.
Proof.
  intros input. destruct (save ∅ 5 0 input) as [e|[d saved]] eqn:E.
  - vm_compute in E. discriminate E.
  - pose proof (save_schema_invariants ∅ 5 0 input d saved E)
      as (_ & (_ & Ho & _) & _ & Ht1 & Ht2 & _).
    vm_compute in E. injection E as <- _. repeat split; assumption.
Defined.

(** X3: the word counts of a stored document do not depend on the counts the
    caller supplied: each is one more than the number of space characters
    (U+0020) of the stored text, so it is at least 1. *)
Theorem save_wordCount_counts_spaces (store : gmap ObjectId Doc)
    (id : ObjectId) (now : Z) (input : PromptInput) (d : Doc)
    (saved : gmap ObjectId Doc) :
  save store id now input = inr (d, saved) ->
  original (wordCount (metadata d))
  = S (length (List.filter (N.eqb SPACE) (originalPrompt d)))
  /\ rewritten (wordCount (metadata d))
     = S (length (List.filter (N.eqb SPACE) (rewrittenPrompt d))).
Proof.
  intros (_ & Ho & Hr)%save_recomputes_wordCount.
  rewrite Ho, Hr, !length_split. split; reflexivity.
Qed.

Lemma save_wordCount_counts_spaces_witness :
  let input :=
    {| in_userId := Some (lit "u1");
       in_originalPrompt := Some (lit "one two  three");
       in_rewrittenPrompt := Some (lit "One, two, three.");
       in_tone := JUndefined;
       in_type := JUndefined;
       in_metadata :=
         {| in_wordCount_original := Value 40%nat;
            in_wordCount_rewritten := Value 50%nat;
            in_processingTime := Absent; in_model := Absent;
            in_apiCost := Absent |} |} in
  match save ∅ 5 0 input with
  | inr (d, saved) =>
      original (wordCount (metadata d)) = 4%nat
      /\ rewritten (wordCount (metadata d)) = 3%nat
  | inl _ => False
  end.
Proof.
  intros input. destruct (save ∅ 5 0 input) as [e|[d saved]] eqn:E.
  - vm_compute in E. discriminate E.
  - destruct (save_wordCount_counts_spaces ∅ 5 0 input d saved E) as [Ho Hr].
    rewrite Ho, Hr. vm_compute in E. injection E as <- _.
    split; reflexivity.
Defined.



Lemma trim_nil_inv (s : jsstring) : trim s ≠ [] -> s ≠ [].
Proof. intros H ->. apply H. reflexivity. Qed.


End Persistence.

(** ** [POST /history] *)
Section SaveHandler.

Import Http PromptController.
Import PromptModel(ObjectId, Doc).




(** A metadata value that its path cannot cast, as the text "abc" for the
    number [processingTime], is a validation error: the reply is 400 and
    nothing is stored. *)
Lemma saveToHistory_uncastable_metadata :
  let w := {| service := GeminiService.unavailable; startTime := 0; now := 0;
              store := Samples.collection; newId := 9; today := 50 |} in
  let body := {| h_userId := Some (lit "carol");
                 h_originalPrompt := Some (lit "hi there");
                 h_rewrittenPrompt := Some (lit "Hi there.");
                 h_tone := JUndefined;
                 h_type := JUndefined;
                 h_metadata :=
                   Some {| PromptModel.in_wordCount_original := PromptModel.Absent;
                           PromptModel.in_wordCount_rewritten := PromptModel.Absent;
                           PromptModel.in_processingTime := PromptModel.Uncastable;
                           PromptModel.in_model := PromptModel.Absent;
                           PromptModel.in_apiCost := PromptModel.Absent |} |} in
  status <$> reply (saveToHistory w body) = Some 400%Z
  /\ store' (saveToHistory w body) = Samples.collection.
Proof. split; vm_compute; reflexivity. Qed.

(** A 201 reply comes from a successful [save] under the generated [_id]. *)
Lemma saveToHistory_created (w : World) (body : HistoryBody)
    (id : ObjectId) (d : Doc) :
  reply (saveToHistory w body) = Some (Sent 201 (id, d)) ->
  id = newId w
  /\ store w !! newId w = None
  /\ store' (saveToHistory w body) = <[newId w := d]> (store w).
Proof.
  unfold saveToHistory.
  destruct (negb (nonEmpty (h_userId body)) || negb (nonEmpty (h_originalPrompt body))
            || negb (nonEmpty (h_rewrittenPrompt body))); [discriminate|].
  match goal with
  | |- context [PromptModel.save ?s ?i ?n ?inp] =>
      destruct (PromptModel.save s i n inp) as [e|[d' saved]] eqn:Esave
  end.
  - destruct e; discriminate.
  - cbn. intros [= <- <-].
    apply save_inr in Esave as (pre & _ & _ & Hfree & ->).
    repeat split. exact Hfree.
Qed.

Lemma length_filter_perm {A} (f : A -> bool) (l l' : list A) :
  l ≡ₚ l' -> length (List.filter f l) = length (List.filter f l').
Proof.
  induction 1 as [|x l l' _ IH|x y l|l l' l'' _ IH1 _ IH2]; cbn.
  - reflexivity.
  - destruct (f x); cbn; rewrite IH; reflexivity.
  - destruct (f x), (f y); reflexivity.
  - rewrite IH1. exact IH2.
Qed.

(** Counting after an insertion under a free [_id]. *)
Lemma countDocuments_insert (q : Mongo.Query) (store : gmap ObjectId Doc)
    (id : ObjectId) (d : Doc) :
  store !! id = None ->
  Mongo.countDocuments q (<[id := d]> store)
  = if Mongo.matches (Mongo.castFilter q) (id, d)
    then S (Mongo.countDocuments q store)
    else Mongo.countDocuments q store.
Proof.
  intros Hfree. unfold Mongo.countDocuments, Mongo.select.
  rewrite (length_filter_perm _ _ _ (map_to_list_insert store id d Hfree)).
  cbn [List.filter].
  destruct (Mongo.matches (Mongo.castFilter q) (id, d)); reflexivity.
Qed.

(** X5: after a 201 reply of [POST /history] the record is stored under the
    new [_id], the other records are as before, and the unfiltered history
    list of the record's user counts one record more than before. *)
Theorem saveToHistory_then_listed (server : Mongo.Server) (w : World)
    (body : HistoryBody) (id : ObjectId) (d : Doc) (q : ListQuery) :
  reply (saveToHistory w body) = Some (Sent 201 (id, d)) ->
  search q = None -> byType q = None -> byTone q = None ->
  is_Some (Mongo.sortKey (default (lit "timestamp") (sortBy q))) ->
  (0 <= (default 1%Z (page q) - 1) * default 20%Z (limit q))%Z ->
  let saved := store' (saveToHistory w body) in
  saved !! id = Some d
  /\ (forall other, other ≠ id -> saved !! other = store w !! other)
  /\ exists before after,
       getHistory server (store w) (PromptModel.userId d) q = Sent 200 before
       /\ getHistory server saved (PromptModel.userId d) q = Sent 200 after
       /\ totalItems (pagination after) = S (totalItems (pagination before)).
Proof.
  intros Hreply Hsearch Htype Htone Hkey Hskip saved.
  assert (Htrimmed : trim (PromptModel.userId d) = PromptModel.userId d).
  { unfold saveToHistory in Hreply.
    destruct (negb (nonEmpty (h_userId body))
              || negb (nonEmpty (h_originalPrompt body))
              || negb (nonEmpty (h_rewrittenPrompt body))); [discriminate|].
    match type of Hreply with
    | context [PromptModel.save ?s ?i ?n ?inp] =>
        destruct (PromptModel.save s i n inp) as [e|[d' saved']] eqn:Esave
    end.
    - destruct e; discriminate.
    - cbn in Hreply. injection Hreply as _ <-.
      apply save_inr in Esave as (pre & Hpre & -> & _).
      apply construct_Some in Hpre as (Hu & _).
      destruct (preSave_fields pre) as (-> & _).
      apply requiredText_Some in Hu as (u & _ & -> & _).
      apply trim_idempotent. }
  apply saveToHistory_created in Hreply as (-> & Hfree & Hsaved).
  subst saved. rewrite Hsaved.
  split; [apply lookup_insert_eq|].
  split; [intros other Hother; apply lookup_insert_ne; congruence|].
  pose (query := {| Mongo.q_id := None;
                    Mongo.q_userId := Some (PromptModel.userId d);
                    Mongo.q_type := None; Mongo.q_tone := None;
                    Mongo.q_isFavorite := None; Mongo.q_or := None |}).
  assert (Hquery : historyQuery server (PromptModel.userId d) q = Some query).
  { unfold historyQuery. rewrite Hsearch, Htype, Htone. reflexivity. }
  unfold getHistory. rewrite Hquery.
  destruct (listPage_returns server (store w) query (default 1%Z (page q))
              (default 20%Z (limit q)) (default (lit "timestamp") (sortBy q))
              (default (lit "desc") (sortOrder q)))
    as [before Hbefore];
    [destruct (sorted_embedded server _
                 (if bool_decide (default (lit "desc") (sortOrder q) = lit "desc")
                  then (-1)%Z else 1%Z)
                 (Mongo.select (Mongo.castFilter query) (store w)) Hkey)
       as (ordered & -> & _); eexists; reflexivity
    | exact Hskip |].
  destruct (listPage_returns server (<[newId w := d]> (store w)) query
              (default 1%Z (page q))
              (default 20%Z (limit q)) (default (lit "timestamp") (sortBy q))
              (default (lit "desc") (sortOrder q)))
    as [after Hafter];
    [destruct (sorted_embedded server _
                 (if bool_decide (default (lit "desc") (sortOrder q) = lit "desc")
                  then (-1)%Z else 1%Z)
                 (Mongo.select (Mongo.castFilter query)
                    (<[newId w := d]> (store w))) Hkey)
       as (ordered & -> & _); eexists; reflexivity
    | exact Hskip |].
  exists before, after. split; [exact Hbefore|]. split; [exact Hafter|].
  apply listPage_sent in Hbefore as (_ & qb & [= <-] & _ & -> & _).
  apply listPage_sent in Hafter as (_ & qa & [= <-] & _ & -> & _).
  rewrite countDocuments_insert by exact Hfree.
  rewrite matches_castFilter. unfold query.
  cbn [Mongo.q_id Mongo.q_userId Mongo.q_type Mongo.q_tone Mongo.q_isFavorite
       Mongo.q_or Mongo.holds].
  rewrite Htrimmed, bool_decide_eq_true_2 by reflexivity. reflexivity.
Qed.

Lemma saveToHistory_then_listed_witness :
  let w := {| service := GeminiService.unavailable; startTime := 0; now := 0;
              store := Samples.collection; newId := 9; today := 50 |} in
  let body := {| h_userId := Some (lit " alice ");
                 h_originalPrompt := Some (lit "one more");
                 h_rewrittenPrompt := Some (lit "One more.");
                 h_tone := JUndefined; h_type := JUndefined;
                 h_metadata := None |} in
  let q := Samples.listQuery 1 20 None in
  exists before after,
    getHistory Samples.server (store w) (lit "alice") q = Sent 200 before
    /\ getHistory Samples.server (store' (saveToHistory w body)) (lit "alice") q
       = Sent 200 after
    /\ totalItems (pagination before) = 3%nat
    /\ totalItems (pagination after) = 4%nat.
Proof.
  intros w body q.
  destruct (reply (saveToHistory w body)) as [[st [id d]|st e]|] eqn:E;
    try (vm_compute in E; discriminate E).
  assert (Hst : st = 201%Z) by (vm_compute in E; congruence). subst st.
  assert (Hu : PromptModel.userId d = lit "alice")
    by (vm_compute in E; injection E as _ <-; reflexivity).
  destruct (saveToHistory_then_listed Samples.server w body id d q E)
    as (_ & _ & before & after & Hb & Ha & Htotal).
  - reflexivity.
  - reflexivity.
  - reflexivity.
  - vm_compute. eexists. reflexivity.
  - vm_compute. discriminate.
  - rewrite Hu in Hb, Ha. exists before, after.
    split; [exact Hb|]. split; [exact Ha|].
    assert (Hthree : totalItems (pagination before) = 3%nat)
      by (vm_compute in Hb; injection Hb as <-; reflexivity).
    split; [exact Hthree | rewrite Htotal, Hthree; reflexivity].
Defined.

End SaveHandler.

(** ** Deleting and toggling by [_id] *)
Section ByIdentifier.

Import Http Mongo PromptController.
Import PromptModel(ObjectId, Doc).

Lemma NoDup_only {A} (a : A) (l : list A) :
  NoDup l -> a ∈ l -> (forall y, y ∈ l -> y = a) -> l = [a].
Proof.
  intros Hnd Hin Hall. destruct l as [|b l]; [inversion Hin|].
  assert (b = a) by (apply Hall; left). subst b.
  destruct l as [|c l]; [reflexivity|].
  assert (c = a) by (apply Hall; right; left). subst c.
  apply NoDup_cons in Hnd as [Hnotin _]. contradiction Hnotin. left.
Qed.

(** A filter on a stored [_id] selects that document or nothing. *)
Lemma select_by_id (q : Query) (store : gmap ObjectId Doc)
    (x : ObjectId) (X : Doc) :
  q_id q = Some x -> store !! x = Some X ->
  select q store = if matches q (x, X) then [(x, X)] else [].
Proof.
  intros Hq HX.
  assert (Hother : forall id d, (id, d) ∈ select q store -> (id, d) = (x, X)).
  { intros id d [Hd Hm]%elem_of_select. unfold matches in Hm.
    rewrite Hq in Hm. cbn [holds] in Hm.
    repeat (apply andb_true_iff in Hm as [Hm _]).
    apply bool_decide_eq_true in Hm. subst id.
    rewrite HX in Hd. injection Hd as <-. reflexivity. }
  destruct (matches q (x, X)) eqn:Hm.
  - apply NoDup_only; [apply NoDup_select | | intros [id d]; apply Hother].
    apply elem_of_select. split; assumption.
  - apply select_nil. intros id d Hd.
    destruct (matches q (id, d)) eqn:Hm'; [|reflexivity].
    assert (Heq : (id, d) = (x, X))
      by (apply Hother, elem_of_select; split; assumption).
    injection Heq as -> ->. rewrite Hm in Hm'. discriminate Hm'.
Qed.

Lemma select_by_missing_id (q : Query) (store : gmap ObjectId Doc)
    (x : ObjectId) :
  q_id q = Some x -> store !! x = None -> select q store = [].
Proof.
  intros Hq Hx. apply select_nil. intros id d Hd. unfold matches.
  rewrite Hq. cbn [holds].
  rewrite (bool_decide_eq_false_2 (id = x)); [reflexivity|].
  intros ->. rewrite Hx in Hd. discriminate Hd.
Qed.

(** The owner filter, as sent, accepts a document when no owner is given, or
    the empty one, or the document's own, white space at the ends of the
    given owner apart. *)
Lemma matches_ownedQuery (x : ObjectId) (X : Doc) (owner : option jsstring) :
  (forall o, given owner = Some o -> PromptModel.userId X = trim o) ->
  matches (castFilter (ownedQuery x owner)) (x, X) = true.
Proof.
  intros Hown. rewrite matches_castFilter. unfold ownedQuery.
  cbn [q_id q_userId q_type q_tone q_isFavorite q_or holds].
  rewrite bool_decide_eq_true_2 by reflexivity.
  destruct (given owner) as [o|]; cbn [holds]; [|reflexivity].
  rewrite bool_decide_eq_true_2 by (apply Hown; reflexivity). reflexivity.
Qed.

(** X6: deleting a stored record by its [_id], with no owner given or with
    the record's own userId (white space at the ends of the given owner
    apart), answers 200 with that [_id], removes exactly that record, and a
    second deletion of the same [_id] answers 404. *)
Theorem deleteHistoryItem_removes (store : gmap ObjectId Doc) (x : ObjectId)
    (X : Doc) (owner again : option jsstring) :
  store !! x = Some X ->
  (forall o, given owner = Some o -> PromptModel.userId X = trim o) ->
  let deleted := deleteHistoryItem store x owner in
  fst deleted = Sent 200 x
  /\ snd deleted !! x = None
  /\ (forall other, other ≠ x -> snd deleted !! other = store !! other)
  /\ status (fst (deleteHistoryItem (snd deleted) x again)) = 404%Z
  /\ snd (deleteHistoryItem (snd deleted) x again) = snd deleted.
Proof.
  intros HX Hown.
  assert (Hdel : deleteHistoryItem store x owner = (Sent 200 x, delete x store)).
  { unfold deleteHistoryItem, findOneAndDelete, findOne.
    rewrite (select_by_id (castFilter (ownedQuery x owner)) store x X eq_refl HX), matches_ownedQuery by assumption.
    reflexivity. }
  cbn zeta. rewrite Hdel. cbn [fst snd].
  assert (Hgone : delete x store !! x = None) by apply lookup_delete_eq.
  split; [reflexivity|]. split; [exact Hgone|].
  split; [intros other Hother; apply lookup_delete_ne; congruence|].
  unfold deleteHistoryItem, findOneAndDelete, findOne.
  rewrite (select_by_missing_id (castFilter (ownedQuery x again)) (delete x store) x eq_refl Hgone).
  split; reflexivity.
Qed.

Lemma deleteHistoryItem_removes_witness :
  let deleted := deleteHistoryItem Samples.collection 4 (Some (lit " bob")) in
  fst deleted = Sent 200 4
  /\ snd deleted !! 4 = None
  /\ snd deleted !! 1 = Samples.collection !! 1.
Proof.
  destruct (deleteHistoryItem_removes Samples.collection 4
              (Samples.doc "bob" "help" "Help." false 40)
              (Some (lit " bob")) None)
    as (Hreply & Hgone & Hothers & _).
  - reflexivity.
  - intros o Ho. vm_compute in Ho. injection Ho as <-. reflexivity.
  - split; [exact Hreply|]. split; [exact Hgone|].
    apply Hothers. discriminate.
Defined.

(** X7: for an [_id] that is not stored, deleting and toggling both answer
    404 and leave the collection as it was, whatever owner is given. *)
Theorem missing_id_not_found (store : gmap ObjectId Doc) (x : ObjectId)
    (owner : option jsstring) (today : Z) :
  store !! x = None ->
  (status (fst (deleteHistoryItem store x owner)) = 404%Z
   /\ snd (deleteHistoryItem store x owner) = store)
  /\ (status (fst (toggleFavorite store today x owner)) = 404%Z
      /\ snd (toggleFavorite store today x owner) = store).
Proof.
  intros Hx.
  unfold deleteHistoryItem, toggleFavorite, findOneAndDelete, findOne.
  rewrite (select_by_missing_id (castFilter (ownedQuery x owner)) store x eq_refl Hx).
  repeat split.
Qed.

Lemma missing_id_not_found_witness :
  status (fst (deleteHistoryItem Samples.collection 8 None)) = 404%Z
  /\ snd (toggleFavorite Samples.collection 60 8 (Some (lit "alice")))
     = Samples.collection.
Proof.
  destruct (missing_id_not_found Samples.collection 8 None 60)
    as [[Hd _] _]; [reflexivity|].
  destruct (missing_id_not_found Samples.collection 8 (Some (lit "alice")) 60)
    as [_ [_ Ht]]; [reflexivity|].
  split; assumption.
Defined.

(** What toggling a stored record gives. *)
Lemma toggleFavorite_stored (store : gmap ObjectId Doc) (today : Z)
    (x : ObjectId) (X : Doc) (owner : option jsstring) :
  store !! x = Some X ->
  (forall o, given owner = Some o -> PromptModel.userId X = trim o) ->
  toggleFavorite store today x owner
  = (Sent 200 (x, negb (PromptModel.isFavorite X)),
     <[x := PromptModel.preSave
              (setFavorite X (negb (PromptModel.isFavorite X)) today)]> store).
Proof.
  intros HX Hown. unfold toggleFavorite, findOne.
  rewrite (select_by_id (castFilter (ownedQuery x owner)) store x X eq_refl HX), matches_ownedQuery by assumption.
  cbn [head].
  destruct (preSave_fields
              (setFavorite X (negb (PromptModel.isFavorite X)) today))
    as (_ & _ & _ & _ & _ & -> & _).
  reflexivity.
Qed.

(** X8: toggling a stored record, with no owner given or with the record's
    own userId (white space at the ends of the given owner apart), answers
    200 with the flipped flag and stores the record with that flag, its
    userId, texts, tone, type and time stamp unchanged; the other records are
    as before. *)
Theorem toggleFavorite_flips (store : gmap ObjectId Doc) (today : Z)
    (x : ObjectId) (X : Doc) (owner : option jsstring) :
  store !! x = Some X ->
  (forall o, given owner = Some o -> PromptModel.userId X = trim o) ->
  let toggled := toggleFavorite store today x owner in
  fst toggled = Sent 200 (x, negb (PromptModel.isFavorite X))
  /\ (exists X',
        snd toggled !! x = Some X'
        /\ PromptModel.isFavorite X' = negb (PromptModel.isFavorite X)
        /\ PromptModel.userId X' = PromptModel.userId X
        /\ PromptModel.originalPrompt X' = PromptModel.originalPrompt X
        /\ PromptModel.rewrittenPrompt X' = PromptModel.rewrittenPrompt X
        /\ PromptModel.tone X' = PromptModel.tone X
        /\ PromptModel.type X' = PromptModel.type X
        /\ PromptModel.timestamp X' = PromptModel.timestamp X)
  /\ (forall other, other ≠ x -> snd toggled !! other = store !! other).
Proof.
  intros HX Hown. cbn zeta.
  rewrite (toggleFavorite_stored store today x X owner HX Hown). cbn [fst snd].
  split; [reflexivity|]. split.
  - eexists. split; [apply lookup_insert_eq|].
    destruct (preSave_fields
                (setFavorite X (negb (PromptModel.isFavorite X)) today))
      as (-> & -> & -> & -> & -> & -> & -> & _).
    repeat split.
  - intros other Hother. apply lookup_insert_ne. congruence.
Qed.

Lemma toggleFavorite_flips_witness :
  fst (toggleFavorite Samples.collection 60 3 (Some []))
  = Sent 200 (3, true).
Proof.
  destruct (toggleFavorite_flips Samples.collection 60 3
              (Samples.doc "alice" "xyz" "Xyz!" false 30) (Some []))
    as (Hreply & _).
  - reflexivity.
  - intros o Ho. vm_compute in Ho. discriminate Ho.
  - exact Hreply.
Defined.

(** X9: toggling a stored record twice, each time with no owner given or
    with the record's own userId (white space at the ends of the given owner
    apart), gives back its favourite flag: the second reply carries the
    original flag and the record is stored with it again. *)
Theorem toggleFavorite_twice (store : gmap ObjectId Doc) (first second : Z)
    (x : ObjectId) (X : Doc) (owner owner' : option jsstring) :
  store !! x = Some X ->
  (forall o, given owner = Some o -> PromptModel.userId X = trim o) ->
  (forall o, given owner' = Some o -> PromptModel.userId X = trim o) ->
  let once := toggleFavorite store first x owner in
  let twice := toggleFavorite (snd once) second x owner' in
  fst twice = Sent 200 (x, PromptModel.isFavorite X)
  /\ exists X'',
       snd twice !! x = Some X''
       /\ PromptModel.isFavorite X'' = PromptModel.isFavorite X
       /\ PromptModel.originalPrompt X'' = PromptModel.originalPrompt X
       /\ PromptModel.rewrittenPrompt X'' = PromptModel.rewrittenPrompt X.
Proof.
  intros HX Hown Hown'. cbn zeta.
  rewrite (toggleFavorite_stored store first x X owner HX Hown). cbn [snd].
  set (X' := PromptModel.preSave
               (setFavorite X (negb (PromptModel.isFavorite X)) first)).
  assert (HX' : <[x := X']> store !! x = Some X') by apply lookup_insert_eq.
  destruct (preSave_fields
              (setFavorite X (negb (PromptModel.isFavorite X)) first))
    as (Hu & Ho & Hr & _ & _ & Hf & _).
  fold X' in Hu, Ho, Hr, Hf. cbn in Hu, Ho, Hr, Hf.
  rewrite (toggleFavorite_stored (<[x := X']> store) second x X' owner' HX')
    by (rewrite Hu; exact Hown').
  cbn [fst snd]. rewrite Hf, negb_involutive.
  split; [reflexivity|].
  eexists. split; [apply lookup_insert_eq|].
  destruct (preSave_fields
              (setFavorite X' (PromptModel.isFavorite X) second))
    as (_ & -> & -> & _ & _ & -> & _).
  cbn. rewrite Ho, Hr. repeat split.
Qed.

Lemma toggleFavorite_twice_witness :
  let once := toggleFavorite Samples.collection 60 1 None in
  let twice := toggleFavorite (snd once) 70 1 (Some (lit "alice")) in
  fst twice = Sent 200 (1, true).
Proof.
  destruct (toggleFavorite_twice Samples.collection 60 70 1
              (Samples.doc "alice" "abc" "Abc." true 10) None
              (Some (lit "alice")))
    as (Hreply & _).
  - reflexivity.
  - intros o Ho. vm_compute in Ho. discriminate Ho.
  - intros o Ho. vm_compute in Ho. injection Ho as <-. reflexivity.
  - exact Hreply.
Defined.

End ByIdentifier.

(** ** Listing: who is listed, and how much *)
Section Listing.

Import Http Mongo PromptController.
Import PromptModel(ObjectId, Doc).

Lemma window_sublist {A} (skip limit : Z) (l page : list A) :
  window skip limit l = Some page -> page `sublist_of` l.
Proof.
  unfold window. destruct (skip <? 0)%Z; [discriminate|].
  intros [= <-]. destruct (limit =? 0)%Z.
  - apply sublist_drop.
  - etransitivity; [apply sublist_take | apply sublist_drop].
Qed.

(** A page holds selected documents only, each at most once. *)
Lemma find_page (server : Server) (q : Query) (field : jsstring)
    (direction skip limit : Z) (store : gmap ObjectId Doc)
    (page : list (ObjectId * Doc)) :
  is_Some (sortKey field) \/ sortKeeps server ->
  find server q field direction skip limit store = Some page ->
  NoDup page.*1
  /\ forall id d, (id, d) ∈ page ->
                  store !! id = Some d
                  /\ matches (castFilter q) (id, d) = true.
Proof.
  intros Hkeeps (ordered & Hordered & Hsub%window_sublist)%find_Some.
  pose proof (sorted_perm _ _ _ _ _ Hkeeps Hordered) as Hperm.
  split.
  - eapply sublist_NoDup; [|apply fmap_sublist; exact Hsub].
    rewrite Hperm.
    apply (sublist_NoDup _ (map_to_list store).*1 (NoDup_fst_map_to_list store)).
    apply fmap_sublist. unfold select.
    induction (map_to_list store) as [|e l IH]; [constructor|].
    cbn. destruct (matches (castFilter q) e); [constructor | constructor];
      exact IH.
  - intros id d Hin. apply elem_of_select. rewrite <- Hperm.
    eapply elem_of_sublist; [exact Hin | exact Hsub].
Qed.

(** X10: for every search text and sort field, on a server whose sort keeps
    the documents it is given, a success reply of [getHistory] holds stored
    records of the asked user only (the userId of the request with the white
    space at its ends removed), of the asked type and tone if any, and a
    success reply of [getFavorites] holds stored favourites of the asked user
    only; no record is returned twice.  (Any other reply is an error body,
    which holds no record.) *)
Theorem listing_isolation (server : Server) (store : gmap ObjectId Doc)
    (userId : jsstring) (q : ListQuery) (st : Z) (data : ListData) :
  sortKeeps server ->
  (getHistory server store userId q = Sent st data ->
   NoDup (prompts data).*1
   /\ forall id d,
        (id, d) ∈ prompts data ->
        store !! id = Some d
        /\ PromptModel.userId d = trim userId
        /\ (forall t, given (byType q) = Some t -> PromptModel.type d = t)
        /\ (forall t, given (byTone q) = Some t -> PromptModel.tone d = t))
  /\ (getFavorites server store userId q = Sent st data ->
      NoDup (prompts data).*1
      /\ forall id d,
           (id, d) ∈ prompts data ->
           store !! id = Some d
           /\ PromptModel.userId d = trim userId
           /\ PromptModel.isFavorite d = true).
Proof.
  intros Hkeeps. split.
  - unfold getHistory.
    intros (_ & query & Hquery & Hfind & _)%listPage_sent.
    apply find_page in Hfind as [Hnd Hall]; [|right; exact Hkeeps].
    split; [exact Hnd|].
    intros id d Hin. destruct (Hall id d Hin) as [Hd Hm]. split; [exact Hd|].
    unfold historyQuery in Hquery.
    destruct (match given (search q) with
              | Some text => Some <$> regex server text
              | None => Some None
              end) as [pattern|]; [|discriminate Hquery].
    cbn [mbind option_bind] in Hquery. injection Hquery as <-.
    rewrite matches_castFilter in Hm.
    cbn [q_id q_userId q_type q_tone q_isFavorite q_or] in Hm.
    cbn [holds] in Hm. rewrite !andb_true_iff, !holds_true in Hm.
    destruct Hm as [[[[[_ Hu] Hty] Hto] _] _].
    apply bool_decide_eq_true in Hu.
    split; [exact Hu|]. split.
    + intros t Ht. exact (proj1 (bool_decide_eq_true _) (Hty t Ht)).
    + intros t Ht. exact (proj1 (bool_decide_eq_true _) (Hto t Ht)).
  - unfold getFavorites.
    intros (_ & query & [= <-] & Hfind & _)%listPage_sent.
    apply find_page in Hfind as [Hnd Hall]; [|right; exact Hkeeps].
    split; [exact Hnd|].
    intros id d Hin. destruct (Hall id d Hin) as [Hd Hm]. split; [exact Hd|].
    rewrite matches_castFilter in Hm. unfold favoritesQuery in Hm.
    cbn [q_id q_userId q_type q_tone q_isFavorite q_or] in Hm.
    cbn [holds] in Hm. rewrite !andb_true_iff in Hm.
    destruct Hm as [[[[[_ Hu] _] _] Hf] _].
    apply bool_decide_eq_true in Hu, Hf. split; assumption.
Qed.

Lemma listing_isolation_witness :
  exists data,
    getFavorites Samples.server Samples.collection (lit " alice ")
      (Samples.listQuery 1 20 None)
    = Sent 200 data
    /\ length (prompts data) = 2%nat
    /\ forall id d, (id, d) ∈ prompts data ->
                    PromptModel.userId d = lit "alice"
                    /\ PromptModel.isFavorite d = true.
Proof.
  destruct (getFavorites Samples.server Samples.collection (lit " alice ")
              (Samples.listQuery 1 20 None)) as [st data|st e] eqn:E;
    [|vm_compute in E; discriminate E].
  assert (st = 200%Z) by (vm_compute in E; congruence). subst st.
  exists data. split; [reflexivity|].
  destruct (listing_isolation Samples.server Samples.collection (lit " alice ")
              (Samples.listQuery 1 20 None) 200 data) as [_ Hfav].
  - intros field direction l ordered H. injection H as <-. reflexivity.
  - destruct (Hfav E) as [_ Hall].
    split; [vm_compute in E; injection E as <-; reflexivity|].
    intros id d Hin. destruct (Hall id d Hin) as (_ & Hu & Hf).
    split; assumption.
Defined.

(** The size of a page and the page count, for positive page and size. *)
Lemma listPage_counts (server : Server) (store : gmap ObjectId Doc)
    (query : option Query) (page limit : Z) (sortBy sortOrder : jsstring)
    (st : Z) (data : ListData) :
  (1 <= page)%Z -> (1 <= limit)%Z ->
  is_Some (sortKey sortBy) \/ sortKeeps server ->
  listPage server store query page limit sortBy sortOrder = Sent st data ->
  let total := Z.of_nat (totalItems (pagination data)) in
  Z.of_nat (length (prompts data))
  = Z.max 0 (Z.min limit (total - (page - 1) * limit))
  /\ (exists pages,
        totalPages (pagination data) = Some pages
        /\ ((pages - 1) * limit < total <= pages * limit)%Z
        /\ hasNext (pagination data) = (page <? pages)%Z)
  /\ hasPrev (pagination data) = (1 <? page)%Z
  /\ currentPage (pagination data) = page
  /\ itemsPerPage (pagination data) = limit.
Proof.
  intros Hpage Hlimit Hkeeps H.
  pose proof (listPage_sent _ _ _ _ _ _ _ _ _ H)
    as (-> & query' & -> & Hfound & _).
  pose proof (hasNext_more_records server store query' page limit sortBy
                sortOrder data Hpage Hlimit Hkeeps H) as Hnext.
  apply find_Some in Hfound as (ordered & Hordered & Hwindow).
  pose proof (sorted_perm _ _ _ _ _ Hkeeps Hordered) as Hperm.
  unfold listPage in H. cbn [mbind option_bind] in H.
  destruct (find server query' sortBy _ ((page - 1) * limit) limit store)
    as [found|] eqn:Hfind; [|discriminate H].
  cbn [mbind option_bind] in H. injection H as <-.
  cbn [prompts pagination totalItems totalPages hasNext hasPrev currentPage
       itemsPerPage] in *.
  rewrite window_nonneg in Hwindow by nia.
  replace (limit =? 0)%Z with false in Hwindow by (symmetry; lia).
  injection Hwindow as Hwindow.
  split; [|split; [|repeat split]].
  - rewrite <- Hwindow, length_take, length_drop, (Permutation_length Hperm).
    unfold countDocuments.
    assert (Hskip : (0 <= (page - 1) * limit)%Z) by nia.
    revert Hskip. generalize ((page - 1) * limit)%Z. intros skip Hskip. lia.
  - unfold ceilDiv. replace (limit =? 0)%Z with false by (symmetry; lia).
    eexists. split; [reflexivity|].
    set (total := Z.of_nat (countDocuments query' store)) in *.
    pose proof (Z.div_mod (- total) limit ltac:(lia)) as Hdm.
    pose proof (Z.mod_pos_bound (- total) limit ltac:(lia)) as Hmod.
    assert (Hbounds : ((- (- total / limit) - 1) * limit < total
                       <= - (- total / limit) * limit)%Z) by nia.
    split; [exact Hbounds|].
    rewrite Hnext.
    destruct (page * limit <? total)%Z eqn:E1;
      destruct (page <? - (- total / limit))%Z eqn:E2; try reflexivity;
      [apply Z.ltb_lt in E1; apply Z.ltb_ge in E2
      |apply Z.ltb_ge in E1; apply Z.ltb_lt in E2]; nia.
Qed.

(** X11: in [getHistory] and [getFavorites], for every search text and sort
    field, on a server whose sort keeps the documents it is given, and for a
    page number and a page size of at least 1, a success reply returns
    min(size, total - skip) records (none beyond the last page), its
    totalPages is the least number of pages of that size that hold the
    total, hasNext says that the page is before the last one and hasPrev
    that it is after the first. *)
Theorem list_page_counts (server : Server) (store : gmap ObjectId Doc)
    (userId : jsstring) (q : ListQuery) (st : Z) (data : ListData) :
  let page := default 1%Z (page q) in
  let size := default 20%Z (limit q) in
  let total := Z.of_nat (totalItems (pagination data)) in
  sortKeeps server ->
  (1 <= page)%Z -> (1 <= size)%Z ->
  getHistory server store userId q = Sent st data
  \/ getFavorites server store userId q = Sent st data ->
  Z.of_nat (length (prompts data))
  = Z.max 0 (Z.min size (total - (page - 1) * size))
  /\ (exists pages,
        totalPages (pagination data) = Some pages
        /\ ((pages - 1) * size < total <= pages * size)%Z
        /\ hasNext (pagination data) = (page <? pages)%Z)
  /\ hasPrev (pagination data) = (1 <? page)%Z.
Proof.
  cbn zeta. intros Hkeeps Hpage Hsize [H|H].
  - unfold getHistory in H.
    destruct (listPage_counts _ _ _ _ _ _ _ _ _ Hpage Hsize
                (or_intror Hkeeps) H) as (H1 & H2 & H3 & _).
    repeat split; assumption.
  - unfold getFavorites in H.
    destruct (listPage_counts _ _ _ _ _ _ _ _ _ Hpage Hsize
                (or_intror Hkeeps) H) as (H1 & H2 & H3 & _).
    repeat split; assumption.
Qed.

Lemma list_page_counts_witness :
  exists data,
    getHistory Samples.server Samples.collection (lit "alice")
      (Samples.listQuery 2 2 None)
    = Sent 200 data
    /\ length (prompts data) = 1%nat
    /\ totalPages (pagination data) = Some 2%Z
    /\ hasNext (pagination data) = false
    /\ hasPrev (pagination data) = true.
Proof.
  destruct (getHistory Samples.server Samples.collection (lit "alice")
              (Samples.listQuery 2 2 None)) as [st data|st e] eqn:E;
    [|vm_compute in E; discriminate E].
  assert (st = 200%Z) by (vm_compute in E; congruence). subst st.
  exists data. split; [reflexivity|].
  destruct (list_page_counts Samples.server Samples.collection (lit "alice")
              (Samples.listQuery 2 2 None) 200 data) as (Hlen & _ & Hprev).
  - intros field direction l ordered H. injection H as <-. reflexivity.
  - vm_compute. discriminate.
  - vm_compute. discriminate.
  - left. exact E.
  - rewrite Hprev. vm_compute in E. injection E as <-.
    repeat split.
Defined.

End Listing.

(** ** [POST /rewrite]: serving and saving *)
Section Serving.

Import Http Routes PromptController.

(** The middleware lets a request through when its prompt is a non-empty
    string and its tone and type are not refused. *)
Lemma validateRewriteRequest_passes {A} (body : RewriteBody) (p : jsstring) :
  Routes.prompt body = JString p -> p ≠ [] ->
  ~ (truthy (Routes.tone body) = true
     /\ includesVal validTones (Routes.tone body) = false) ->
  ~ (truthy (Routes.type body) = true
     /\ includesVal validTypes (Routes.type body) = false) ->
  validateRewriteRequest (A := A) body = None.
Proof.
  intros Hp Hne Htone Htype. unfold validateRewriteRequest.
  rewrite Hp, refusedPrompt_string, bool_decide_eq_false_2 by assumption.
  replace (truthy (Routes.tone body)
           && negb (includesVal validTones (Routes.tone body))) with false.
  2:{ symmetry. apply andb_false_iff.
      destruct (truthy (Routes.tone body)); [right | left; reflexivity].
      destruct (includesVal validTones (Routes.tone body)); [reflexivity|].
      contradiction Htone. split; reflexivity. }
  replace (truthy (Routes.type body)
           && negb (includesVal validTypes (Routes.type body))) with false.
  2:{ symmetry. apply andb_false_iff.
      destruct (truthy (Routes.type body)); [right | left; reflexivity].
      destruct (includesVal validTypes (Routes.type body)); [reflexivity|].
      contradiction Htype. split; reflexivity. }
  reflexivity.
Qed.

(** The input of the auto-save. *)
Lemma postRewrite_served (w : World) (body : RewriteBody) (p : jsstring)
    (result : GeminiService.RewriteResult) :
  Routes.prompt body = JString p ->
  trim p ≠ [] ->
  (Z.of_nat (length p) <= 5000)%Z ->
  ~ (truthy (Routes.tone body) = true
     /\ includesVal validTones (Routes.tone body) = false) ->
  ~ (truthy (Routes.type body) = true
     /\ includesVal validTypes (Routes.type body) = false) ->
  let tone' := orDefault (Routes.tone body) (lit "professional") in
  let type' := orDefault (Routes.type body) (lit "other") in
  let run :=
    GeminiService.rewritePrompt (service w) (startTime w) (now w)
      (trim p) tone' type' in
  GeminiService.returned run = Some result ->
  let data (saved : bool) : RewriteData :=
    {| originalPrompt := trim p;
       rewrittenPrompt := GeminiService.rewrittenPrompt result;
       tone := tone'; type := type';
       metadata := GeminiService.metadata result;
       historyId := if saved then Some (newId w) else None;
       savedToHistory := Some saved |} in
  let historyItem :=
    {| PromptModel.in_userId := userId body;
       PromptModel.in_originalPrompt := Some (trim p);
       PromptModel.in_rewrittenPrompt := GeminiService.rewrittenPrompt result;
       PromptModel.in_tone := tone';
       PromptModel.in_type := type';
       PromptModel.in_metadata := metadataInput (GeminiService.metadata result) |} in
  postRewrite w body =
    if negb (GeminiService.success result) then
      {| invoked := [(trim p, tone', type')];
         calls := GeminiService.calls run;
         reply := Some (Refused 500
           {| error := lit "AI service error";
              message := GeminiService.error result;
              details := GeminiService.details result;
              fallback := GeminiService.fallback result |});
         store' := store w |}
    else if nonEmpty (userId body) then
      match PromptModel.save (store w) (newId w) (today w) historyItem with
      | inr (savedItem, saved) =>
          {| invoked := [(trim p, tone', type')];
             calls := GeminiService.calls run;
             reply := Some (Sent 200 (data true)); store' := saved |}
      | inl _ =>
          {| invoked := [(trim p, tone', type')];
             calls := GeminiService.calls run;
             reply := Some (Sent 200 (data false)); store' := store w |}
      end
    else
      {| invoked := [(trim p, tone', type')];
         calls := GeminiService.calls run;
         reply := Some (Sent 200
           {| originalPrompt := trim p;
              rewrittenPrompt := GeminiService.rewrittenPrompt result;
              tone := tone'; type := type';
              metadata := GeminiService.metadata result;
              historyId := None; savedToHistory := None |});
         store' := store w |}.
Proof.
  intros Hp Htrim Hlen Htone Htype tone' type' run Hrun data historyItem.
  pose proof (trim_nil_inv p Htrim) as Hne.
  unfold postRewrite.
  rewrite (validateRewriteRequest_passes body p Hp Hne Htone Htype).
  unfold rewritePrompt. rewrite Hp. cbn [truthy].
  rewrite bool_decide_eq_false_2 by assumption. cbn [negb].
  destruct (length (trim p) =? 0)%nat eqn:E.
  { apply length_zero_iff_nil in E. contradiction. }
  replace (5000 <? Z.of_nat (length p))%Z with false by (symmetry; lia).
  fold tone' type' run. rewrite Hrun.
  destruct (negb (GeminiService.success result)); [reflexivity|].
  destruct (nonEmpty (userId body)); [|reflexivity].
  fold historyItem.
  destruct (PromptModel.save (store w) (newId w) (today w) historyItem)
    as [e|[d saved]]; reflexivity.
Qed.

(** X12: once a rewrite request is valid and the AI client has returned, a
    failed result is answered 500 with its message, details and fallback and
    nothing is stored; a successful result is always answered 200 with the
    trimmed prompt and the rewritten text, whether or not it could be saved:
    savedToHistory is absent without a userId, true when the record was
    stored (under the new [_id], with the trimmed prompt), and false when
    saving failed, the collection then being as it was. *)
Theorem postRewrite_persistence_not_fatal (w : World) (body : RewriteBody)
    (p : jsstring) (result : GeminiService.RewriteResult) :
  Routes.prompt body = JString p ->
  trim p ≠ [] ->
  (Z.of_nat (length p) <= 5000)%Z ->
  ~ (truthy (Routes.tone body) = true
     /\ includesVal validTones (Routes.tone body) = false) ->
  ~ (truthy (Routes.type body) = true
     /\ includesVal validTypes (Routes.type body) = false) ->
  GeminiService.returned
    (GeminiService.rewritePrompt (service w) (startTime w) (now w) (trim p)
       (orDefault (Routes.tone body) (lit "professional"))
       (orDefault (Routes.type body) (lit "other"))) = Some result ->
  let handled := postRewrite w body in
  (GeminiService.success result = false ->
   reply handled
   = Some (Refused 500
             {| error := lit "AI service error";
                message := GeminiService.error result;
                details := GeminiService.details result;
                fallback := GeminiService.fallback result |})
   /\ store' handled = store w)
  /\ (GeminiService.success result = true ->
      exists data,
        reply handled = Some (Sent 200 data)
        /\ originalPrompt data = trim p
        /\ rewrittenPrompt data = GeminiService.rewrittenPrompt result
        /\ match savedToHistory data with
           | None =>
               nonEmpty (userId body) = false /\ historyId data = None
               /\ store' handled = store w
           | Some true =>
               nonEmpty (userId body) = true
               /\ historyId data = Some (newId w)
               /\ store w !! newId w = None
               /\ exists d,
                    store' handled = <[newId w := d]> (store w)
                    /\ PromptModel.originalPrompt d = trim p
           | Some false =>
               nonEmpty (userId body) = true /\ historyId data = None
               /\ store' handled = store w
           end).
Proof.
  intros Hp Htrim Hlen Htone Htype Hrun. cbn zeta.
  rewrite (postRewrite_served w body p result Hp Htrim Hlen Htone Htype Hrun).
  split.
  - intros ->. cbn. split; reflexivity.
  - intros ->. cbn [negb].
    destruct (nonEmpty (userId body)) eqn:Huser.
    + match goal with
      | |- context [PromptModel.save ?s ?i ?n ?inp] =>
          destruct (PromptModel.save s i n inp) as [e|[d saved]] eqn:Esave
      end.
      * eexists. split; [reflexivity|]. cbn. repeat split.
      * eexists. split; [reflexivity|]. cbn.
        pose proof Esave as Hinv.
        apply save_inr in Esave as (pre & Hpre & -> & Hfree & ->).
        apply construct_Some in Hpre as (_ & Ho & _).
        apply requiredText_Some in Ho as (o & [= <-] & Ho & _).
        destruct (preSave_fields pre) as (_ & Hsame & _).
        repeat split; [exact Hfree|].
        eexists. split; [reflexivity|].
        rewrite Hsame, Ho. apply trim_idempotent.
    + eexists. split; [reflexivity|]. cbn. repeat split.
Qed.

Lemma postRewrite_persistence_not_fatal_witness :
  let w := {| service := GeminiService.unavailable; startTime := 0; now := 4;
              store := Samples.collection; newId := 9; today := 50 |} in
  let body := {| prompt := JString (lit " pls help ");
                 Routes.tone := JUndefined; Routes.type := JUndefined;
                 userId := Some (lit "dave") |} in
  exists data,
    reply (postRewrite w body) = Some (Sent 200 data)
    /\ originalPrompt data = lit "pls help"
    /\ rewrittenPrompt data = Some (lit "pls help.").
Proof.
  intros w body.
  destruct (postRewrite_persistence_not_fatal w body (lit " pls help ")
              (GeminiService.getMockResponse 4 (lit "pls help")
                 (JString (lit "professional")) (JString (lit "other")) 0))
    as [_ Hserved].
  - reflexivity.
  - vm_compute. discriminate.
  - vm_compute. discriminate.
  - intros [H _]. vm_compute in H. discriminate H.
  - intros [H _]. vm_compute in H. discriminate H.
  - reflexivity.
  - destruct (Hserved eq_refl) as (data & Hreply & Ho & Hr & _).
    exists data. split; [exact Hreply|]. split; [exact Ho | exact Hr].
Defined.

(** A value that is falsy without being [undefined] is no member of an
    enumeration of non-empty names. *)
Lemma enumText_falsy (members : list jsstring) (dflt : jsstring) (v : JsVal) :
  [] ∉ members -> truthy v = false -> v ≠ JUndefined ->
  PromptModel.enumText members dflt v = None.
Proof.
  intros Hnil Hv Hdef. destruct v as [| |b|z|s|]; try reflexivity.
  - contradiction.
  - cbn in Hv. apply negb_false_iff, bool_decide_eq_true in Hv. subst s.
    unfold PromptModel.enumText. rewrite bool_decide_eq_false_2 by assumption.
    reflexivity.
Qed.

Lemma construct_invalid_enum (now : Z) (input : PromptModel.PromptInput) :
  PromptModel.enumText PromptModel.tones (lit "professional")
    (PromptModel.in_tone input) = None
  \/ PromptModel.enumText PromptModel.types (lit "other")
       (PromptModel.in_type input) = None ->
  PromptModel.construct now input = None.
Proof.
  intros H. unfold PromptModel.construct.
  destruct (PromptModel.requiredText None _); [|reflexivity].
  destruct (PromptModel.requiredText (Some 5000%Z) _); [|reflexivity].
  destruct (PromptModel.requiredText (Some 10000%Z) _); [|reflexivity].
  cbn [mbind option_bind].
  destruct H as [-> | H]; [reflexivity|].
  destruct (PromptModel.enumText PromptModel.tones _ _); [|reflexivity].
  cbn [mbind option_bind]. rewrite H. reflexivity.
Qed.

Lemma nil_not_in_tones : [] ∉ PromptModel.tones.
Proof.
  intros H. apply (bool_decide_pack _) in H. vm_compute in H. exact H.
Qed.

Lemma nil_not_in_types : [] ∉ PromptModel.types.
Proof.
  intros H. apply (bool_decide_pack _) in H. vm_compute in H. exact H.
Qed.

(** X13: a rewrite request whose tone (or type) is falsy without being
    absent ([null], [false], [0] or the empty string) passes the route's
    validation and, when the AI client succeeds, is answered 200; but with a
    userId its record is never saved: savedToHistory is false and the
    collection is as it was. *)
Theorem postRewrite_falsy_tone_not_saved (w : World) (body : RewriteBody)
    (p : jsstring) (result : GeminiService.RewriteResult) :
  Routes.prompt body = JString p ->
  trim p ≠ [] ->
  (Z.of_nat (length p) <= 5000)%Z ->
  ~ (truthy (Routes.tone body) = true
     /\ includesVal validTones (Routes.tone body) = false) ->
  ~ (truthy (Routes.type body) = true
     /\ includesVal validTypes (Routes.type body) = false) ->
  (truthy (Routes.tone body) = false /\ Routes.tone body ≠ JUndefined)
  \/ (truthy (Routes.type body) = false /\ Routes.type body ≠ JUndefined) ->
  nonEmpty (userId body) = true ->
  GeminiService.returned
    (GeminiService.rewritePrompt (service w) (startTime w) (now w) (trim p)
       (orDefault (Routes.tone body) (lit "professional"))
       (orDefault (Routes.type body) (lit "other"))) = Some result ->
  GeminiService.success result = true ->
  exists data,
    reply (postRewrite w body) = Some (Sent 200 data)
    /\ rewrittenPrompt data = GeminiService.rewrittenPrompt result
    /\ savedToHistory data = Some false
    /\ historyId data = None
    /\ store' (postRewrite w body) = store w.
Proof.
  intros Hp Htrim Hlen Htone Htype Hfalsy Huser Hrun Hok.
  rewrite (postRewrite_served w body p result Hp Htrim Hlen Htone Htype Hrun).
  rewrite Hok, Huser. cbn [negb].
  match goal with
  | |- context [PromptModel.save ?s ?i ?n ?inp] =>
      assert (Hfail : PromptModel.save s i n inp = inl PromptModel.ValidationError)
  end.
  { unfold PromptModel.save. rewrite construct_invalid_enum; [reflexivity|].
    cbn [PromptModel.in_tone PromptModel.in_type].
    destruct Hfalsy as [[Hv Hdef]|[Hv Hdef]]; [left | right].
    - replace (orDefault (Routes.tone body) (lit "professional"))
        with (Routes.tone body)
        by (destruct (Routes.tone body); try reflexivity; contradiction).
      apply enumText_falsy; [apply nil_not_in_tones | exact Hv | exact Hdef].
    - replace (orDefault (Routes.type body) (lit "other"))
        with (Routes.type body)
        by (destruct (Routes.type body); try reflexivity; contradiction).
      apply enumText_falsy; [apply nil_not_in_types | exact Hv | exact Hdef]. }
  rewrite Hfail. eexists. split; [reflexivity|]. repeat split.
Qed.

Lemma postRewrite_falsy_tone_not_saved_witness :
  let w := {| service := GeminiService.unavailable; startTime := 0; now := 4;
              store := Samples.collection; newId := 9; today := 50 |} in
  let body := {| prompt := JString (lit "pls help");
                 Routes.tone := JNull; Routes.type := JUndefined;
                 userId := Some (lit "dave") |} in
  exists data,
    reply (postRewrite w body) = Some (Sent 200 data)
    /\ savedToHistory data = Some false
    /\ store' (postRewrite w body) = Samples.collection.
Proof.
  intros w body.
  destruct (postRewrite_falsy_tone_not_saved w body (lit "pls help")
              (GeminiService.getMockResponse 4 (lit "pls help") JNull
                 (JString (lit "other")) 0))
    as (data & Hreply & _ & Hsaved & _ & Hstore).
  - reflexivity.
  - vm_compute. discriminate.
  - vm_compute. discriminate.
  - intros [H _]. vm_compute in H. discriminate H.
  - intros [H _]. vm_compute in H. discriminate H.
  - left. split; [reflexivity | discriminate].
  - reflexivity.
  - reflexivity.
  - reflexivity.
  - exists data. split; [exact Hreply|]. split; [exact Hsaved | exact Hstore].
Defined.

End Serving.

(** ** The AI rewrite client: calls of the provider *)
Section ProviderCalls.

Import GeminiService GeminiInfo.

(** The default parameters do not change the request: an omitted tone or
    type selects the instruction of its default. *)
Lemma rewriteRequest_orDefault (originalPrompt : jsstring) (tone type : JsVal) :
  rewriteRequest originalPrompt (orDefault tone (lit "professional"))
    (orDefault type (lit "other"))
  = rewriteRequest originalPrompt tone type.
Proof.
  unfold rewriteRequest.
  assert (instructionFor toneInstructions (orDefault tone (lit "professional"))
            (lit "professional")
          = instructionFor toneInstructions tone (lit "professional")) as ->
    by (destruct tone; try reflexivity; vm_compute; reflexivity).
  assert (instructionFor typeInstructions (orDefault type (lit "other"))
            (lit "other")
          = instructionFor typeInstructions type (lit "other")) as ->
    by (destruct type; try reflexivity; vm_compute; reflexivity).
  reflexivity.
Qed.

(** The provider calls of [rewritePrompt], by the state of the service. *)
Lemma rewritePrompt_calls_cases (svc : Service) (startTime now : Z)
    (originalPrompt : jsstring) (tone type : JsVal) :
  let run := rewritePrompt svc startTime now originalPrompt tone type in
  (calls run = [] <-> genAI svc = false \/ model svc = None)
  /\ (calls run = [probe; rewriteRequest originalPrompt tone type] <->
      exists m text,
        genAI svc = true /\ model svc = Some m /\ m probe = Fulfilled text)
  /\ (calls run = [] \/ calls run = [probe]
      \/ calls run = [probe; rewriteRequest originalPrompt tone type])
  /\ (returned run = None <->
      exists m, genAI svc = true /\ model svc = Some m /\ m probe = Unsettled).
Proof.
  cbn zeta. rewrite <- (rewriteRequest_orDefault originalPrompt tone type).
  unfold rewritePrompt, testConnection.
  generalize (orDefault tone (lit "professional")) (orDefault type (lit "other")).
  clear tone type. intros tone type.
  destruct (genAI svc) eqn:Hg; [destruct (model svc) as [m|] eqn:Hm|].
  - cbn [returned calls].
    destruct (m probe) as [text|message|] eqn:Hp;
      cbn -[race rewriteRequest getMockResponse errorMessage probe].
    + split; [split; [discriminate | intros [H|H]; discriminate H]|].
      split; [split; [intros _; exists m, text; repeat split; assumption
                     | reflexivity]|].
      split; [right; right; reflexivity|].
      split.
      * destruct (race (m (rewriteRequest originalPrompt tone type))) eqn:Hr;
          try discriminate.
        unfold race in Hr.
        destruct (m (rewriteRequest originalPrompt tone type)); discriminate Hr.
      * intros (m' & _ & [= <-] & Hp'). rewrite Hp in Hp'. discriminate Hp'.
    + split; [split; [discriminate | intros [H|H]; discriminate H]|].
      split; [split; [discriminate|]|].
      { intros (m' & text & _ & [= <-] & Hp'). rewrite Hp in Hp'.
        discriminate Hp'. }
      split; [right; left; reflexivity|].
      split; [discriminate|].
      intros (m' & _ & [= <-] & Hp'). rewrite Hp in Hp'. discriminate Hp'.
    + split; [split; [discriminate | intros [H|H]; discriminate H]|].
      split; [split; [discriminate|]|].
      { intros (m' & text & _ & [= <-] & Hp'). rewrite Hp in Hp'.
        discriminate Hp'. }
      split; [right; left; reflexivity|].
      split; [intros _; exists m; repeat split; assumption | reflexivity].
  - cbn. split; [split; [intros _; right | ]; reflexivity|].
    split; [split; [discriminate | intros (m & text & _ & H & _); discriminate H]|].
    split; [left; reflexivity|].
    split; [discriminate | intros (m & _ & H & _); discriminate H].
  - cbn. split; [split; [intros _; left | ]; reflexivity|].
    split; [split; [discriminate | intros (m & text & H & _); discriminate H]|].
    split; [left; reflexivity|].
    split; [discriminate | intros (m & H & _); discriminate H].
Qed.

(** X14: [rewritePrompt] sends nothing to the provider exactly when the
    service is not configured, otherwise the probe first and, exactly when
    the probe is answered, the rewrite request after it; and it fails to
    return exactly when the service is configured and the probe never
    settles (the 30 second timer guards the rewrite request only). *)
Theorem rewritePrompt_provider_calls (svc : Service) (startTime now : Z)
    (originalPrompt : jsstring) (tone type : JsVal) :
  let run := rewritePrompt svc startTime now originalPrompt tone type in
  (calls run = [] <-> genAI svc = false \/ model svc = None)
  /\ (calls run = [probe; rewriteRequest originalPrompt tone type] <->
      exists m text,
        genAI svc = true /\ model svc = Some m /\ m probe = Fulfilled text)
  /\ (calls run = [] \/ calls run = [probe]
      \/ calls run = [probe; rewriteRequest originalPrompt tone type])
  /\ (returned run = None <->
      exists m, genAI svc = true /\ model svc = Some m /\ m probe = Unsettled).
Proof. apply rewritePrompt_calls_cases. Qed.

Lemma rewritePrompt_provider_calls_witness :
  returned
    (rewritePrompt {| genAI := true; model := Some (fun _ => Unsettled) |}
       0 0 (lit "hello") JUndefined JUndefined) = None.
Proof.
  destruct (rewritePrompt_provider_calls
              {| genAI := true; model := Some (fun _ => Unsettled) |}
              0 0 (lit "hello") JUndefined JUndefined) as (_ & _ & _ & [_ Hhang]).
  apply Hhang. exists (fun _ => Unsettled). repeat split.
Defined.

(** X15: [getModelInfo] reports the service as available exactly when it is
    configured and the probe is answered, which is also when
    connectionStatus is "connected" and when [rewritePrompt] would send its
    request; the tones and types it lists are those the route validation
    accepts; and on an unconfigured service it sends nothing to the provider
    and reports no last error. *)
Theorem getModelInfo_available (svc : Service) (startTime now : Z)
    (originalPrompt : jsstring) (tone type : JsVal) :
  let run := getModelInfo svc in
  (forall info,
      returned run = Some info ->
      (available info = true <->
       exists m text,
         genAI svc = true /\ model svc = Some m /\ m probe = Fulfilled text)
      /\ (available info = true <-> connectionStatus info = lit "connected")
      /\ (available info = true <->
          calls (rewritePrompt svc startTime now originalPrompt tone type)
          = [probe; rewriteRequest originalPrompt tone type])
      /\ supportedTones info = Routes.validTones
      /\ supportedTypes info = Routes.validTypes)
  /\ (genAI svc = false ->
      calls run = []
      /\ exists info,
           returned run = Some info /\ available info = false
           /\ lastError info = None).
Proof.
  cbn zeta. split.
  - intros info Hinfo.
    pose proof (rewritePrompt_calls_cases svc startTime now originalPrompt
                  tone type) as (_ & Hcalls & _).
    cbn zeta in Hcalls.
    unfold getModelInfo, testConnection in Hinfo.
    destruct (genAI svc) eqn:Hg;
      [destruct (model svc) as [m|] eqn:Hm;
       [destruct (m probe) as [text|message|] eqn:Hp|]|];
      cbn -[probe] in Hinfo; try discriminate Hinfo;
      injection Hinfo as <-;
      cbn [available connectionStatus supportedTones supportedTypes andb].
    + (* the probe is answered *)
      assert (Hyes : exists m' text',
                 true = true /\ Some m = Some m' /\ m' probe = Fulfilled text')
        by (exists m, text; repeat split; exact Hp).
      split; [split; [intros _; exact Hyes | reflexivity]|].
      split; [split; reflexivity|].
      split; [split; [intros _; apply Hcalls, Hyes | reflexivity]|].
      split; reflexivity.
    + (* the probe fails *)
      assert (Hno : ~ exists m' text',
                 true = true /\ Some m = Some m' /\ m' probe = Fulfilled text').
      { intros (m' & text' & _ & [= <-] & Hp'). rewrite Hp in Hp'.
        discriminate Hp'. }
      split; [split; [discriminate | intros H; contradiction]|].
      split; [split; [discriminate | intros H; vm_compute in H; discriminate H]|].
      split; [split; [discriminate | intros H%Hcalls; contradiction]|].
      split; reflexivity.
    + (* no model handle *)
      assert (Hno : ~ exists m' text',
                 true = true /\ None = Some m' /\ m' probe = Fulfilled text').
      { intros (m' & text' & _ & H & _). discriminate H. }
      split; [split; [discriminate | intros H; contradiction]|].
      split; [split; [discriminate | intros H; vm_compute in H; discriminate H]|].
      split; [split; [discriminate | intros H%Hcalls; contradiction]|].
      split; reflexivity.
    + (* no client *)
      assert (Hno : ~ exists m' text',
                 false = true /\ model svc = Some m' /\ m' probe = Fulfilled text').
      { intros (m' & text' & H & _). discriminate H. }
      split; [split; [discriminate | intros H; contradiction]|].
      split; [split; [discriminate | intros H; vm_compute in H; discriminate H]|].
      split; [split; [discriminate | intros H%Hcalls; contradiction]|].
      split; reflexivity.
  - intros Hg. unfold getModelInfo. rewrite Hg. cbn.
    split; [reflexivity|]. eexists. repeat split.
Qed.

Lemma getModelInfo_available_witness :
  exists info,
    returned (getModelInfo unavailable) = Some info
    /\ available info = false /\ lastError info = None.
Proof.
  destruct (getModelInfo_available unavailable 0 0 (lit "hello")
              JUndefined JUndefined) as [_ Hoff].
  destruct (Hoff eq_refl) as [_ Hinfo]. exact Hinfo.
Defined.

End ProviderCalls.

(** ** Popularity statistics and [GET /info] *)
Section Popularity.

Import Http PromptStatics Counting InfoController.
Import PromptModel(ObjectId, Doc).
Import Mongo(insertBy).

Lemma countFor_bump (key k : jsstring) (groups : list (jsstring * nat)) :
  countFor key (bump k groups)
  = if bool_decide (k = key) then S (countFor key groups)
    else countFor key groups.
Proof.
  induction groups as [|[k0 n] rest IH]; cbn [bump countFor].
  - destruct (bool_decide (k = key)); reflexivity.
  - destruct (decide (k0 = k)) as [->|Hk0].
    + rewrite (bool_decide_eq_true_2 (k = k)) by reflexivity. cbn [countFor].
      destruct (bool_decide (k = key)); reflexivity.
    + rewrite (bool_decide_eq_false_2 (k0 = k)) by assumption. cbn [countFor].
      rewrite IH. destruct (decide (k0 = key)) as [->|Hkey].
      * rewrite (bool_decide_eq_true_2 (key = key)) by reflexivity.
        rewrite (bool_decide_eq_false_2 (k = key)) by congruence. reflexivity.
      * rewrite (bool_decide_eq_false_2 (k0 = key)) by assumption. reflexivity.
Qed.

Lemma keys_bump (key k : jsstring) (groups : list (jsstring * nat)) :
  key ∈ (bump k groups).*1 <-> key = k \/ key ∈ groups.*1.
Proof.
  induction groups as [|[k0 n] rest IH]; cbn [bump].
  - cbn. rewrite list_elem_of_singleton. split; [intros ->; left; reflexivity|].
    intros [->|H]; [reflexivity | inversion H].
  - destruct (decide (k0 = k)) as [->|Hk0].
    + rewrite (bool_decide_eq_true_2 (k = k)) by reflexivity. cbn.
      rewrite !elem_of_cons. tauto.
    + rewrite (bool_decide_eq_false_2 (k0 = k)) by assumption. cbn.
      rewrite !elem_of_cons, IH. tauto.
Qed.

Lemma NoDup_bump (k : jsstring) (groups : list (jsstring * nat)) :
  NoDup groups.*1 -> NoDup (bump k groups).*1.
Proof.
  induction groups as [|[k0 n] rest IH]; cbn [bump]; intros Hnd.
  - cbn. apply NoDup_singleton.
  - cbn in Hnd. apply NoDup_cons in Hnd as [Hnotin Hnd].
    destruct (decide (k0 = k)) as [->|Hk0].
    + rewrite (bool_decide_eq_true_2 (k = k)) by reflexivity. cbn.
      apply NoDup_cons. split; assumption.
    + rewrite (bool_decide_eq_false_2 (k0 = k)) by assumption. cbn.
      apply NoDup_cons. split; [|apply IH, Hnd].
      rewrite keys_bump. intros [->|H]; [congruence | contradiction].
Qed.

Lemma positive_bump (k : jsstring) (groups : list (jsstring * nat)) :
  Forall (fun g => 0 < snd g)%nat groups ->
  Forall (fun g => 0 < snd g)%nat (bump k groups).
Proof.
  induction groups as [|[k0 n] rest IH]; cbn [bump]; intros Hpos.
  - repeat constructor.
  - apply Forall_cons in Hpos as [Hn Hpos].
    destruct (bool_decide (k0 = k)); constructor; cbn in *;
      try lia; try assumption. apply IH, Hpos.
Qed.

Lemma sum_bump (k : jsstring) (groups : list (jsstring * nat)) :
  sum_list_with snd (bump k groups) = S (sum_list_with snd groups).
Proof.
  induction groups as [|[k0 n] rest IH]; cbn [bump]; [reflexivity|].
  destruct (bool_decide (k0 = k)); cbn; [reflexivity|].
  rewrite IH. lia.
Qed.

(** What grouping a list of documents gives, from any groups to start with. *)
Lemma groupCount_from (field : Doc -> jsstring) (docs : list (ObjectId * Doc))
    (groups : list (jsstring * nat)) :
  NoDup groups.*1 -> Forall (fun g => 0 < snd g)%nat groups ->
  let result := foldl (fun groups e => bump (field (snd e)) groups) groups docs in
  NoDup result.*1
  /\ Forall (fun g => 0 < snd g)%nat result
  /\ sum_list_with snd result = (sum_list_with snd groups + length docs)%nat
  /\ forall key,
       countFor key result
       = (countFor key groups
          + length (List.filter (fun e => bool_decide (field (snd e) = key)) docs))%nat.
Proof.
  revert groups. induction docs as [|e docs IH]; intros groups Hnd Hpos; cbn zeta.
  - cbn. repeat split; try assumption; [lia | intros; lia].
  - cbn [foldl].
    destruct (IH (bump (field (snd e)) groups) (NoDup_bump _ _ Hnd)
                (positive_bump _ _ Hpos)) as (H1 & H2 & H3 & H4).
    cbn zeta in *. repeat split; try assumption.
    + rewrite H3, sum_bump. cbn. lia.
    + intros key. rewrite H4, countFor_bump. cbn [List.filter].
      destruct (bool_decide (field (snd e) = key)); cbn; lia.
Qed.

Lemma countFor_member (key : jsstring) (n : nat)
    (groups : list (jsstring * nat)) :
  NoDup groups.*1 ->
  ((key, n) ∈ groups <-> countFor key groups = n /\ key ∈ groups.*1).
Proof.
  induction groups as [|[k0 n0] rest IH]; intros Hnd.
  - cbn. split; [intros H; inversion H | intros [_ H]; inversion H].
  - cbn in Hnd. apply NoDup_cons in Hnd as [Hnotin Hnd]. specialize (IH Hnd).
    cbn [countFor fmap list_fmap fst]. rewrite !elem_of_cons.
    destruct (decide (k0 = key)) as [->|Hk].
    + rewrite (bool_decide_eq_true_2 (key = key)) by reflexivity. split.
      * intros [[= ->]|Hin]; [split; [reflexivity | left; reflexivity]|].
        exfalso. apply Hnotin.
        apply (list_elem_of_fmap_2 fst) in Hin. exact Hin.
      * intros [-> _]. left. reflexivity.
    + rewrite (bool_decide_eq_false_2 (k0 = key)) by assumption. split.
      * intros [[= -> ->]|Hin]; [contradiction Hk; reflexivity|].
        apply IH in Hin as [H1 H2]. split; [exact H1 | right; exact H2].
      * intros [H1 [->|H2]]; [contradiction Hk; reflexivity|].
        right. apply IH. split; assumption.
Qed.

Lemma countFor_absent (key : jsstring) (groups : list (jsstring * nat)) :
  key ∉ groups.*1 -> countFor key groups = 0%nat.
Proof.
  induction groups as [|[k0 n0] rest IH]; [reflexivity|].
  cbn. rewrite not_elem_of_cons. intros [Hk Hrest].
  rewrite (bool_decide_eq_false_2 (k0 = key)) by congruence. apply IH, Hrest.
Qed.

Lemma sortByCount_perm (groups : list (jsstring * nat)) :
  sortByCount groups ≡ₚ groups.
Proof.
  unfold sortByCount. induction groups as [|g groups IH]; cbn; [reflexivity|].
  rewrite insertBy_perm, IH. reflexivity.
Qed.

Lemma descending_insert (g : jsstring * nat) (groups : list (jsstring * nat)) :
  descending groups.*2 = true ->
  descending (insertBy (fun a b => (snd b <=? snd a)%nat) g groups).*2 = true.
Proof.
  induction groups as [|h rest IH]; [reflexivity|].
  intros Hd. cbn [insertBy].
  destruct (snd h <=? snd g)%nat eqn:E.
  - cbn [fmap list_fmap descending] in *. rewrite E. exact Hd.
  - apply Nat.leb_gt in E.
    assert (Hrest : descending rest.*2 = true).
    { cbn in Hd. destruct rest; [reflexivity|].
      apply andb_true_iff in Hd as [_ Hd]. exact Hd. }
    specialize (IH Hrest).
    destruct rest as [|h' rest'].
    + cbn. replace (snd g <=? snd h)%nat with true by (symmetry; apply Nat.leb_le; lia).
      reflexivity.
    + cbn [insertBy] in *. cbn in Hd.
      apply andb_true_iff in Hd as [Hhh' _].
      destruct (snd h' <=? snd g)%nat eqn:E'.
      * cbn [fmap list_fmap descending] in *.
        replace (snd g <=? snd h)%nat with true
          by (symmetry; apply Nat.leb_le; lia).
        exact IH.
      * cbn [fmap list_fmap descending] in *. rewrite Hhh'. exact IH.
Qed.

Lemma descending_sortByCount (groups : list (jsstring * nat)) :
  descending (sortByCount groups).*2 = true.
Proof.
  unfold sortByCount. induction groups as [|g groups IH]; [reflexivity|].
  cbn [foldr]. apply descending_insert, IH.
Qed.

(** The statistics of one field. *)
Lemma stats_of_field (field : Doc -> jsstring) (store : gmap ObjectId Doc) :
  let stats := sortByCount (groupCount field (map_to_list store)) in
  (forall key n,
      (key, n) ∈ stats <-> n = occurrences field key store /\ (0 < n)%nat)
  /\ NoDup stats.*1
  /\ descending stats.*2 = true
  /\ sum_list_with snd stats = size store.
Proof.
  cbn zeta.
  destruct (groupCount_from field (map_to_list store) [])
    as (Hnd & Hpos & Hsum & Hcount); [constructor | constructor |].
  cbn zeta in *. fold (groupCount field (map_to_list store)) in *.
  set (grouped := groupCount field (map_to_list store)) in *.
  pose proof (sortByCount_perm grouped) as Hperm.
  split; [|split; [|split]].
  - intros key n. rewrite Hperm, (countFor_member key n grouped Hnd), Hcount.
    cbn [countFor]. unfold occurrences. split.
    + intros [Hn Hin]. split; [symmetry; exact Hn|].
      apply list_elem_of_fmap in Hin as ([k n'] & -> & Hin).
      pose proof Hin as Hin'.
      apply (countFor_member k n' grouped Hnd) in Hin' as [Hn' _].
      rewrite Forall_forall in Hpos. specialize (Hpos _ Hin). cbn in *.
      rewrite Hcount in Hn'. cbn [countFor] in Hn'. lia.
    + intros [-> Hpos']. split; [reflexivity|].
      destruct (decide (key ∈ grouped.*1)) as [Hin|Hout]; [exact Hin|].
      apply countFor_absent in Hout. rewrite Hcount in Hout.
      cbn [countFor] in Hout. lia.
  - rewrite Hperm. exact Hnd.
  - apply descending_sortByCount.
  - rewrite Hperm, Hsum, length_map_to_list. reflexivity.
Qed.

(** X16: in [getPopularTonesAndTypes], a tone (a type) is listed exactly
    when some stored record has it, once, with the number of stored records
    that have it; the counts never increase along the list and add up to the
    number of stored records. *)
Theorem getPopularTonesAndTypes_counts (store : gmap ObjectId Doc) :
  let popular := getPopularTonesAndTypes store in
  ((forall key n,
       (key, n) ∈ toneStats popular
       <-> n = occurrences PromptModel.tone key store /\ (0 < n)%nat)
   /\ NoDup (toneStats popular).*1
   /\ descending (toneStats popular).*2 = true
   /\ sum_list_with snd (toneStats popular) = size store)
  /\ ((forall key n,
         (key, n) ∈ typeStats popular
         <-> n = occurrences PromptModel.type key store /\ (0 < n)%nat)
      /\ NoDup (typeStats popular).*1
      /\ descending (typeStats popular).*2 = true
      /\ sum_list_with snd (typeStats popular) = size store).
Proof.
  cbn zeta. split.
  - apply (stats_of_field PromptModel.tone store).
  - apply (stats_of_field PromptModel.type store).
Qed.

(** X17: [GET /info] sends at most the probe to the provider, never a
    rewrite request; it fails to reply exactly when the service is
    configured and the probe never settles; otherwise it answers 200 with
    the model information of [getModelInfo] and with totalPromptsProcessed
    equal to the number of stored records, which is also the sum of the tone
    counts and the sum of the type counts. *)
Theorem getInfo_reply (service : GeminiService.Service)
    (store : gmap ObjectId Doc) :
  let run := getInfo service store in
  (GeminiService.calls run = [] \/ GeminiService.calls run = [GeminiService.probe])
  /\ (GeminiService.returned run = None <->
      exists m,
        GeminiService.genAI service = true
        /\ GeminiService.model service = Some m
        /\ m GeminiService.probe = GeminiService.Unsettled)
  /\ (forall r,
        GeminiService.returned run = Some r ->
        exists data,
          r = Sent 200 data
          /\ GeminiService.returned (GeminiInfo.getModelInfo service)
             = Some (ai data)
          /\ totalPromptsProcessed (api data) = size store
          /\ sum_list_with snd (toneStats (popular data))
             = totalPromptsProcessed (api data)
          /\ sum_list_with snd (typeStats (popular data))
             = totalPromptsProcessed (api data)).
Proof.
  cbn zeta.
  destruct (stats_of_field PromptModel.tone store) as (_ & _ & _ & Htones).
  destruct (stats_of_field PromptModel.type store) as (_ & _ & _ & Htypes).
  cbn zeta in Htones, Htypes.
  unfold getInfo, GeminiInfo.getModelInfo, GeminiService.testConnection.
  destruct (GeminiService.genAI service) eqn:Hg;
    [destruct (GeminiService.model service) as [m|] eqn:Hm;
     [destruct (m GeminiService.probe) as [text|message|] eqn:Hp|]|];
    cbn -[GeminiService.probe getPopularTonesAndTypes].
  - split; [right; reflexivity|]. split.
    + split; [discriminate|].
      intros (m' & _ & [= <-] & Hp'). rewrite Hp in Hp'. discriminate Hp'.
    + intros r [= <-]. eexists. split; [reflexivity|].
      cbn [ai api popular totalPromptsProcessed toneStats typeStats
           getPopularTonesAndTypes].
      repeat split; assumption.
  - split; [right; reflexivity|]. split.
    + split; [discriminate|].
      intros (m' & _ & [= <-] & Hp'). rewrite Hp in Hp'. discriminate Hp'.
    + intros r [= <-]. eexists. split; [reflexivity|].
      cbn [ai api popular totalPromptsProcessed toneStats typeStats
           getPopularTonesAndTypes].
      repeat split; assumption.
  - split; [right; reflexivity|]. split.
    + split; [intros _; exists m; repeat split; exact Hp | reflexivity].
    + intros r H. discriminate H.
  - split; [left; reflexivity|]. split.
    + split; [discriminate | intros (m' & _ & H & _); discriminate H].
    + intros r [= <-]. eexists. split; [reflexivity|].
      cbn [ai api popular totalPromptsProcessed toneStats typeStats
           getPopularTonesAndTypes].
      repeat split; assumption.
  - split; [left; reflexivity|]. split.
    + split; [discriminate | intros (m' & H & _); discriminate H].
    + intros r [= <-]. eexists. split; [reflexivity|].
      cbn [ai api popular totalPromptsProcessed toneStats typeStats
           getPopularTonesAndTypes].
      repeat split; assumption.
Qed.

Lemma getInfo_reply_witness :
  exists data,
    GeminiService.returned (getInfo GeminiService.unavailable Samples.collection)
    = Some (Sent 200 data)
    /\ totalPromptsProcessed (api data) = 4%nat
    /\ sum_list_with snd (toneStats (popular data)) = 4%nat.
Proof.
  destruct (getInfo_reply GeminiService.unavailable Samples.collection)
    as (_ & _ & Hreply).
  destruct (Hreply (Sent 200
              {| api := {| version := lit "1.0.0"; apiStatus := lit "active";
                           totalPromptsProcessed := 4 |};
                 ai := {| GeminiInfo.modelName := lit "gemini-1.5-flash";
                          GeminiInfo.available := false;
                          GeminiInfo.connectionStatus := lit "disconnected";
                          GeminiInfo.supportedTones := Routes.validTones;
                          GeminiInfo.supportedTypes := Routes.validTypes;
                          GeminiInfo.lastError := None |};
                 popular := getPopularTonesAndTypes Samples.collection |}))
    as (data & Hdata & _ & Htotal & Htones & _).
  - vm_compute. reflexivity.
  - exists data. rewrite <- Hdata.
    split; [vm_compute; reflexivity|].
    injection Hdata as <-. split; [reflexivity|].
    rewrite Htones. reflexivity.
Defined.

End Popularity.
